(** * Alibaba RFQ scraper: a shallow embedding of [alibaba_rfq_scraper/main.py]

    The development follows the class [AlibabaRFQScraper] method by method:
    [get_page], [parse_time_ago], [extract_rfq_data], [scrape_rfq_page],
    [get_all_page_urls], [scrape_all_pages] and [save_to_csv], and then the
    function [main].

    Conventions of the embedding.
    - A Python [str] is a Rocq [string]; a character is read as the code
      point of the same number, so the texts covered are those of code points
      below 256.  [str.lower], [str.strip], [\d] and [\s] are Python's
      on that range.
    - Python [int] is [Z]; a [float] is an IEEE 754 binary64 value, with the
      rounding of every operation ([SpecFloat]).
    - What depends on the installation is a parameter, as the network is:
      the limit of the interpreter on the digits [int] converts, and the
      [pd.Timedelta] that pandas builds for a number of days.
    - A [dict] is an association list in insertion order.
    - Effects (HTTP, [time.sleep], [datetime.now], the CSV file) are events
      appended to a log, the [World]; exceptions are a [result].  Calls to
      [logger] leave no trace in the model; the lines [main] prints are a
      list of its own. *)

From Stdlib Require Import ZArith QArith Qround List String Ascii Bool Lia Arith.
From Stdlib Require SpecFloat.
Import ListNotations.
Close Scope Q_scope.
Local Open Scope string_scope.
Local Open Scope list_scope.

(* ================================================================== *)
(** * Text: characters, [lower], [strip], [int], substring test *)
(* ================================================================== *)

Module Text.

Definition code (c : ascii) : nat := nat_of_ascii c.

(** [\d] and [str.isdigit] on code points below 256: the ten ASCII digits. *)
Definition is_digit (c : ascii) : bool :=
  (48 <=? code c)%nat && (code c <=? 57)%nat.

(** [\s] and [str.isspace] on code points below 256: tab to carriage return,
    the four separators 28..31, the space, NEL (133) and NBSP (160). *)
Definition is_space (c : ascii) : bool :=
  ((9 <=? code c)%nat && (code c <=? 13)%nat)
  || ((28 <=? code c)%nat && (code c <=? 32)%nat)
  || (code c =? 133)%nat || (code c =? 160)%nat.

(** [str.lower] on one character: A-Z and the Latin-1 capitals 192..222
    (the multiplication sign 215 apart) move up by 32. *)
Definition lower_char (c : ascii) : ascii :=
  if ((65 <=? code c)%nat && (code c <=? 90)%nat)
     || ((192 <=? code c)%nat && (code c <=? 222)%nat && negb (code c =? 215)%nat)
  then ascii_of_nat (code c + 32)
  else c.

Fixpoint lower (s : string) : string :=
  match s with
  | EmptyString => EmptyString
  | String c s' => String (lower_char c) (lower s')
  end.

Fixpoint lstrip (s : string) : string :=
  match s with
  | EmptyString => EmptyString
  | String c s' => if is_space c then lstrip s' else s
  end.

Fixpoint rstrip (s : string) : string :=
  match s with
  | EmptyString => EmptyString
  | String c s' =>
      match rstrip s' with
      | EmptyString => if is_space c then EmptyString else String c EmptyString
      | r => String c r
      end
  end.

Definition strip (s : string) : string := rstrip (lstrip s).

(** Python truthiness of a [str]. *)
Definition nonempty (s : string) : bool :=
  match s with EmptyString => false | _ => true end.

Definition digit_val (c : ascii) : Z := Z.of_nat (code c - 48).

Fixpoint int_acc (acc : Z) (s : string) : Z :=
  match s with
  | EmptyString => acc
  | String c s' => int_acc (10 * acc + digit_val c) s'
  end.

(** [int(s)] for a string of ASCII digits, the only strings [(\d+)] hands it. *)
Definition int (s : string) : Z := int_acc 0 s.

Fixpoint startswith (p s : string) : bool :=
  match p, s with
  | EmptyString, _ => true
  | String a p', String b s' => Ascii.eqb a b && startswith p' s'
  | String _ _, EmptyString => false
  end.

(** [sub in s] *)
Fixpoint contains (sub s : string) : bool :=
  startswith sub s ||
  match s with
  | EmptyString => false
  | String _ s' => contains sub s'
  end.

Fixpoint all_chars (p : ascii -> bool) (s : string) : bool :=
  match s with
  | EmptyString => true
  | String c s' => p c && all_chars p s'
  end.

Definition digit_char (d : nat) : ascii := ascii_of_nat (48 + d).

(** [str(n)] for a natural number: its decimal digits, most significant
    first.  The fuel is the number itself, which bounds its digit count. *)
Fixpoint digits_fuel (fuel n : nat) (acc : string) : string :=
  match fuel with
  | O => acc
  | S f =>
      let acc' := String (digit_char (n mod 10)) acc in
      if (n <? 10)%nat then acc' else digits_fuel f (n / 10) acc'
  end.

Definition str_of_nat (n : nat) : string := digits_fuel (S n) n EmptyString.

(** Zero-padded decimal of a fixed minimal width, as [%02d] and [%04d]. *)
Fixpoint zfill (width : nat) (s : string) : string :=
  match (width - String.length s)%nat with
  | O => s
  | S _ =>
      match width with
      | O => s
      | S w => String "0" (zfill w s)
      end
  end.

End Text.

(* ================================================================== *)
(** * Regular expressions: a backtracking matcher with groups *)
(* ================================================================== *)

Module Re.

(** The fragment of [re] syntax the scraper uses. *)
Inductive regex : Type :=
| Eps
| Lit (c : ascii)
| Digit                       (* \d *)
| Space                       (* \s *)
| NoneOf (cs : list ascii)    (* [^...] *)
| Cat (r1 r2 : regex)
| Alt (r1 r2 : regex)
| Star (r : regex)            (* greedy *)
| Plus (r : regex)            (* greedy *)
| Group (i : nat) (r : regex).

(** A literal word. *)
Fixpoint lits (s : string) : regex :=
  match s with
  | EmptyString => Eps
  | String c EmptyString => Lit c
  | String c s' => Cat (Lit c) (lits s')
  end.

(** [w1|w2|...|wn] *)
Fixpoint words (ws : list string) : regex :=
  match ws with
  | [] => Eps
  | [w] => lits w
  | w :: ws' => Alt (lits w) (words ws')
  end.

Definition caps := list (nat * string).

Fixpoint group (i : nat) (cs : caps) : option string :=
  match cs with
  | [] => None
  | (j, s) :: cs' => if (i =? j)%nat then Some s else group i cs'
  end.

(** What was consumed between the input [s] and the rest [s']. *)
Definition consumed (s s' : string) : string :=
  substring 0 (String.length s - String.length s') s.

Definition lit_eq (icase : bool) (c d : ascii) : bool :=
  if icase then Ascii.eqb (Text.lower_char c) (Text.lower_char d)
  else Ascii.eqb c d.

Definition one_char {A} (p : ascii -> bool) (s : string) (cs : caps)
    (k : string -> caps -> option A) : option A :=
  match s with
  | String d s' => if p d then k s' cs else None
  | EmptyString => None
  end.

Definition orelse {A} (x y : option A) : option A :=
  match x with Some _ => x | None => y end.

(** Greedy iteration: one more round of [step] first, and only a round that
    consumes input counts; the continuation is the fallback. *)
Fixpoint star_loop {A}
    (step : string -> caps -> (string -> caps -> option A) -> option A)
    (fuel : nat) (s : string) (cs : caps)
    (k : string -> caps -> option A) : option A :=
  match fuel with
  | O => k s cs
  | S f =>
      orelse
        (step s cs (fun s' cs' =>
           if (String.length s' <? String.length s)%nat
           then star_loop step f s' cs' k else None))
        (k s cs)
  end.

(** [rmatch icase r s cs k]: match [r] at the head of [s], then hand the rest
    to [k]; alternatives are tried in the order of [re]'s backtracking. *)
Fixpoint rmatch {A} (icase : bool) (r : regex) (s : string) (cs : caps)
    (k : string -> caps -> option A) {struct r} : option A :=
  match r with
  | Eps => k s cs
  | Lit c => one_char (lit_eq icase c) s cs k
  | Digit => one_char Text.is_digit s cs k
  | Space => one_char Text.is_space s cs k
  | NoneOf l => one_char (fun d => negb (existsb (Ascii.eqb d) l)) s cs k
  | Cat r1 r2 => rmatch icase r1 s cs (fun s' cs' => rmatch icase r2 s' cs' k)
  | Alt r1 r2 => orelse (rmatch icase r1 s cs k) (rmatch icase r2 s cs k)
  | Star r1 =>
      star_loop (fun s0 cs0 k0 => rmatch icase r1 s0 cs0 k0)
                (String.length s) s cs k
  | Plus r1 =>
      rmatch icase r1 s cs (fun s' cs' =>
        star_loop (fun s0 cs0 k0 => rmatch icase r1 s0 cs0 k0)
                  (String.length s') s' cs' k)
  | Group i r1 =>
      rmatch icase r1 s cs (fun s' cs' => k s' ((i, consumed s s') :: cs'))
  end.

Definition match_here (icase : bool) (r : regex) (s : string) : option caps :=
  rmatch icase r s [] (fun _ cs => Some cs).

(** [re.search]: the leftmost position at which the pattern matches. *)
Fixpoint search_flags (icase : bool) (r : regex) (s : string) : option caps :=
  match match_here icase r s with
  | Some cs => Some cs
  | None =>
      match s with
      | EmptyString => None
      | String _ s' => search_flags icase r s'
      end
  end.

Definition search (r : regex) (s : string) : option caps :=
  search_flags false r s.

Definition matches (icase : bool) (r : regex) (s : string) : bool :=
  match search_flags icase r s with Some _ => true | None => false end.

End Re.

(* ================================================================== *)
(** * Python [dict] with [str] keys and values, in insertion order *)
(* ================================================================== *)

Module Dict.

Definition dict := list (string * string).

Fixpoint get (k : string) (d : dict) : option string :=
  match d with
  | [] => None
  | (k', v) :: d' => if String.eqb k k' then Some v else get k d'
  end.

(** [d[k] = v]: an existing key keeps its place, a new one goes last. *)
Fixpoint set (k v : string) (d : dict) : dict :=
  match d with
  | [] => [(k, v)]
  | (k', v') :: d' =>
      if String.eqb k k' then (k, v) :: d' else (k', v') :: set k v d'
  end.

Definition keys (d : dict) : list string := map fst d.

End Dict.

(* ================================================================== *)
(** * The parse tree of [bs4] and its search functions *)
(* ================================================================== *)

Module Bs4.

#[local] Set Warnings "-register-all".

(** A tag carries its name, its [class] attribute (a list of class names,
    multi-valued in bs4, [None] when the attribute is absent), its other
    attributes and its children. *)
Inductive node : Type :=
| NavigableString (s : string)
| Tag (name : string) (class_ : option (list string))
      (attrs : list (string * string)) (contents : list node).

Fixpoint descendants (n : node) : list node :=
  match n with
  | NavigableString _ => []
  | Tag _ _ _ cs =>
      (fix walk (l : list node) : list node :=
         match l with
         | [] => []
         | c :: l' => c :: descendants c ++ walk l'
         end) cs
  end.

Fixpoint attr_get (k : string) (attrs : list (string * string)) : option string :=
  match attrs with
  | [] => None
  | (k', v) :: attrs' => if String.eqb k k' then Some v else attr_get k attrs'
  end.

(** [tag.get(k)] *)
Definition get (k : string) (n : node) : option string :=
  match n with
  | Tag _ _ attrs _ => attr_get k attrs
  | NavigableString _ => None
  end.

(** [tag.string]: the text of a tag with a single child, through nested
    single children. *)
Fixpoint string_of (n : node) : option string :=
  match n with
  | NavigableString s => Some s
  | Tag _ _ _ [c] => string_of c
  | Tag _ _ _ _ => None
  end.

(** [tag.get_text(strip=True)]: every text below the tag, stripped, the
    empty ones dropped, joined without separator. *)
Definition get_text_strip (n : node) : string :=
  fold_right
    (fun d acc =>
       match d with
       | NavigableString s => String.append (Text.strip s) acc
       | Tag _ _ _ _ => acc
       end)
    EmptyString (descendants n).

(** The arguments of one [find] or [find_all] call. *)
Record strainer : Type := {
  st_names  : list string;                  (* name, or list of names *)
  st_class  : option Re.regex;              (* class_=re.compile(...) *)
  st_string : option (bool * Re.regex);     (* string=re.compile(..., flags) *)
  st_href   : bool                          (* href=True *)
}.

Definition by_name (names : list string) : strainer :=
  {| st_names := names; st_class := None; st_string := None; st_href := false |}.
Definition by_class (names : list string) (r : Re.regex) : strainer :=
  {| st_names := names; st_class := Some r; st_string := None; st_href := false |}.
Definition by_string (names : list string) (icase : bool) (r : Re.regex) : strainer :=
  {| st_names := names; st_class := None; st_string := Some (icase, r); st_href := false |}.
Definition with_href (names : list string) : strainer :=
  {| st_names := names; st_class := None; st_string := None; st_href := true |}.

(** A multi-valued attribute matches a pattern when one of its values does,
    or the values joined by spaces do. *)
Definition class_matches (r : Re.regex) (cls : option (list string)) : bool :=
  match cls with
  | None => false
  | Some l =>
      existsb (Re.matches false r) l || Re.matches false r (String.concat " " l)
  end.

Definition string_matches (icase : bool) (r : Re.regex) (n : node) : bool :=
  match string_of n with
  | Some s => Re.matches icase r s
  | None => false
  end.

Definition tag_matches (st : strainer) (n : node) : bool :=
  match n with
  | NavigableString _ => false
  | Tag name cls attrs _ =>
      existsb (String.eqb name) (st_names st)
      && (if st_href st
          then match attr_get "href" attrs with Some _ => true | None => false end
          else true)
      && match st_class st with
         | Some r => class_matches r cls
         | None => true
         end
      && match st_string st with
         | Some (icase, r) => string_matches icase r n
         | None => true
         end
  end.

Definition find_all (st : strainer) (n : node) : list node :=
  filter (tag_matches st) (descendants n).

Definition find (st : strainer) (n : node) : option node :=
  List.find (tag_matches st) (descendants n).

End Bs4.

(* ================================================================== *)
(** * [datetime] and [pd.Timedelta] *)
(* ================================================================== *)

Module Datetime.

Local Open Scope Z_scope.

(** A [datetime] is the number of microseconds since 0001-01-01 00:00:00, the
    first instant [datetime] can hold; the last one is the end of year 9999. *)
Definition datetime := Z.

Definition us_per_day : Z := 86400 * 1000000.
Definition max_ordinal : Z := 3652059.

Definition in_range (t : datetime) : bool :=
  (0 <=? t) && (t <? max_ordinal * us_per_day).

Definition days_before_month (m : Z) : Z :=
  nth (Z.to_nat m) [0; 0; 31; 59; 90; 120; 151; 181; 212; 243; 273; 304; 334] 0.
Definition days_in_month (m : Z) : Z :=
  nth (Z.to_nat m) [0; 31; 28; 31; 30; 31; 30; 31; 31; 30; 31; 30; 31] 0.

(** The calendar date of a proleptic Gregorian ordinal (day 1 is
    0001-01-01), by the cycles of 400, 100, 4 and 1 years. *)
Definition ord2ymd (ordinal : Z) : Z * Z * Z :=
  let n := ordinal - 1 in
  let n400 := n / 146097 in
  let n := n mod 146097 in
  let year := n400 * 400 + 1 in
  let n100 := n / 36524 in
  let n := n mod 36524 in
  let n4 := n / 1461 in
  let n := n mod 1461 in
  let n1 := n / 365 in
  let n := n mod 365 in
  let year := year + n100 * 100 + n4 * 4 + n1 in
  if (n1 =? 4) || (n100 =? 4) then (year - 1, 12, 31)
  else
    let leapyear := (n1 =? 3) && (negb (n4 =? 24) || (n100 =? 3)) in
    let month := Z.shiftr (n + 50) 5 in
    let preceding :=
      days_before_month month + (if (2 <? month) && leapyear then 1 else 0) in
    if n <? preceding then
      let month := month - 1 in
      let preceding :=
        preceding
        - (days_in_month month + (if (month =? 2) && leapyear then 1 else 0)) in
      (year, month, n - preceding + 1)
    else (year, month, n - preceding + 1).

Definition toordinal (t : datetime) : Z := t / us_per_day + 1.

Definition decimal (z : Z) : string := Text.str_of_nat (Z.to_nat z).

(** [t.strftime('%d-%m-%Y')]: day and month on two digits, and the year as
    the C library of the platform prints it, on [year_width] digits at
    least: 4 where the year is padded with zeros, as the library documents
    it, and 1 where it is not, as with glibc for the years below 1000. *)
Definition strftime_dmy (year_width : nat) (t : datetime) : string :=
  let '(y, m, d) := ord2ymd (toordinal t) in
  String.append (Text.zfill 2 (decimal d))
    (String.append "-"
       (String.append (Text.zfill 2 (decimal m))
          (String.append "-" (Text.zfill year_width (decimal y))))).

(** Midnight of a calendar day given by its ordinal, for examples. *)
Definition of_ordinal (ordinal : Z) : datetime := (ordinal - 1) * us_per_day.

End Datetime.

(* ================================================================== *)
(** * Exceptions, the world and the monad of the methods *)
(* ================================================================== *)

(** The exceptions that occur.  [RequestException] stands for the
    connection errors and timeouts of [requests]; [HTTPError] is the subclass
    [raise_for_status] raises.  Every one of them is an [Exception]. *)
Inductive exn : Type :=
| RequestException (what : string)
| HTTPError (status : Z)
| OverflowError
| ValueError
| AttributeError
| KeyError (key : string).

(** [isinstance(e, requests.RequestException)] *)
Definition is_RequestException (e : exn) : bool :=
  match e with
  | RequestException _ | HTTPError _ => true
  | _ => false
  end.

Inductive result (A : Type) : Type :=
| Ok (a : A)
| Raise (e : exn).
Arguments Ok {A} a.
Arguments Raise {A} e.

Record Response : Type := { status_code : Z; content : string }.

(** What the program does to its surroundings, oldest event first. *)
Inductive event : Type :=
| EvGet (url : string)                 (* session.get(url, timeout=10) *)
| EvSleep (secs : Z)                   (* time.sleep(secs) *)
| EvNow                                (* datetime.now() *)
| EvToCsv (filename : string) (header : list string) (rows : list (list string)).

Definition World := list event.

(** A computation over a state [S] that returns or raises; the state
    survives an exception, as Python's mutable objects do. *)
Definition M (S A : Type) : Type := S -> result A * S.

Definition ret {S A} (a : A) : M S A := fun s => (Ok a, s).
Definition raise {S A} (e : exn) : M S A := fun s => (Raise e, s).
Definition bind {S A B} (c : M S A) (k : A -> M S B) : M S B :=
  fun s =>
    match c s with
    | (Ok a, s') => k a s'
    | (Raise e, s') => (Raise e, s')
    end.

(** [try: body except Exception as e: handler] *)
Definition try_except {S A} (body : M S A) (handler : exn -> M S A) : M S A :=
  fun s =>
    match body s with
    | (Ok a, s') => (Ok a, s')
    | (Raise e, s') => handler e s'
    end.

Definition lift {S A} (r : result A) : M S A := fun s => (r, s).

Declare Scope monad_scope.
Delimit Scope monad_scope with monad.
Notation "x <- c ;; k" := (bind c (fun x => k))
  (at level 61, c at next level, right associativity) : monad_scope.
Notation "c ;; k" := (bind c (fun _ => k))
  (at level 61, right associativity) : monad_scope.

(** A local variable [X] next to the world: the [data] of
    [extract_rfq_data], the [urls] of [get_all_page_urls]. *)
Definition in_world {X A} (c : M World A) : M (X * World) A :=
  fun s =>
    let '(x, w) := s in
    let '(r, w') := c w in (r, (x, w')).

Definition modify {X} (f : X -> X) : M (X * World) unit :=
  fun s => let '(x, w) := s in (Ok tt, (f x, w)).

Definition read {X} : M (X * World) X :=
  fun s => let '(x, w) := s in (Ok x, s).

(* ================================================================== *)
(** * Python numbers: [int] and [float] *)
(* ================================================================== *)

Module Number.

Local Open Scope Z_scope.

(** A [float] is a binary64 value: 53 bits of precision, exponents below
    1024. *)
Definition prec : Z := 53.
Definition emax : Z := 1024.
Definition float : Type := SpecFloat.spec_float.

Inductive number : Type :=
| PyInt (z : Z)
| PyFloat (f : float).

(** The float nearest to an integer, ties to even; the infinite one for an
    integer beyond the largest float. *)
Definition nearest (z : Z) : float :=
  SpecFloat.binary_normalize prec emax z 0 false.

(** The conversion of an [int] operand that meets a [float]: an
    [OverflowError] for an integer too large to convert. *)
Definition float_of_int (z : Z) : result float :=
  match nearest z with
  | SpecFloat.S754_infinity _ => Raise OverflowError
  | f => Ok f
  end.

(** [1/24]: the quotient of two small [int]s, rounded once. *)
Definition one_24th : float :=
  SpecFloat.SFdiv prec emax (nearest 1) (nearest 24).

(** [n * v] for an [int] [n]: exact with an [int], rounded with a
    [float]. *)
Definition int_mul (n : Z) (v : number) : result number :=
  match v with
  | PyInt k => Ok (PyInt (n * k))
  | PyFloat f =>
      match float_of_int n with
      | Ok fn => Ok (PyFloat (SpecFloat.SFmul prec emax fn f))
      | Raise e => Raise e
      end
  end.

End Number.

(** A [pd.Timedelta] is a [datetime.timedelta]; [datetime] arithmetic reads
    its days, seconds and microseconds, here as one number of
    microseconds. *)
Module Pandas.

Local Open Scope Z_scope.

Definition Timedelta := Z.

(** [t - td] for a [datetime] [t]: an [OverflowError] for a date outside
    the years 1 to 9999. *)
Definition datetime_sub (t : Datetime.datetime) (td : Timedelta)
  : result Datetime.datetime :=
  let t' := t - td in
  if Datetime.in_range t' then Ok t' else Raise OverflowError.

(** A [DataFrame] with string column labels; a cell is [None] where pandas
    holds NaN. *)
Record DataFrame : Type := {
  columns : list string;
  rows : list (list (option string))
}.

Definition has_column (c : string) (cols : list string) : bool :=
  existsb (String.eqb c) cols.

(** The column labels of [pd.DataFrame(data)] for a list of dicts: the keys
    in the order in which they are first met. *)
Fixpoint columns_of (seen : list string) (data : list Dict.dict) : list string :=
  match data with
  | [] => seen
  | d :: data' =>
      columns_of
        (fold_left (fun acc k => if has_column k acc then acc else acc ++ [k])
                   (Dict.keys d) seen)
        data'
  end.

(** [pd.DataFrame(data)] *)
Definition DataFrame_of_dicts (data : list Dict.dict) : DataFrame :=
  let cols := columns_of [] data in
  {| columns := cols;
     rows := map (fun d => map (fun c => Dict.get c d) cols) data |}.

(** [df[col] = v] for a label that is not a column yet. *)
Definition add_column (col v : string) (df : DataFrame) : DataFrame :=
  {| columns := columns df ++ [col];
     rows := map (fun r => r ++ [Some v]) (rows df) |}.

Fixpoint cell_of (col : string) (cols : list string) (row : list (option string))
  : option (option string) :=
  match cols, row with
  | c :: cols', x :: row' =>
      if String.eqb col c then Some x else cell_of col cols' row'
  | _, _ => None
  end.

Fixpoint select_row (want cols : list string) (row : list (option string))
  : list (option string) :=
  match want with
  | [] => []
  | col :: want' =>
      match cell_of col cols row with
      | Some x => x :: select_row want' cols row
      | None => select_row want' cols row
      end
  end.

(** [df[labels]]: the named columns in the given order, a [KeyError] for a
    label that is no column. *)
Definition select (want : list string) (df : DataFrame) : result DataFrame :=
  match List.find (fun c => negb (has_column c (columns df))) want with
  | Some c => Raise (KeyError c)
  | None =>
      Ok {| columns := want;
            rows := map (select_row want (columns df)) (rows df) |}
  end.

(** The fields [to_csv] writes for a cell: NaN as the empty field. *)
Definition field_of_cell (x : option string) : string :=
  match x with Some v => v | None => EmptyString end.

Definition csv_rows (df : DataFrame) : list (list string) :=
  map (map field_of_cell) (rows df).

End Pandas.

(* ================================================================== *)
(** * class AlibabaRFQScraper *)
(* ================================================================== *)

Module Scraper.

Import Re.
Local Open Scope monad_scope.

(** [self.base_url] *)
Definition self_base_url : string := "https://sourcing.alibaba.com".

Definition required_columns : list string :=
  ["RFQ ID"; "Title"; "Buyer Name"; "Buyer Image"; "Inquiry Time";
   "Quotes Left"; "Country"; "Quantity Required"; "Email Confirmed";
   "Experienced Buyer"; "Complete Order via RFQ"; "Typical Replies";
   "Interactive User"; "Inquiry URL"; "Inquiry Date"; "Scraping Date"].

(** ** The patterns *)

Definition time_units : list string :=
  ["hour"; "hours"; "day"; "days"; "week"; "weeks"; "month"; "months"].

(** [(\d+)\s*(hour|hours|day|days|week|weeks|month|months)] *)
Definition re_time_ago : regex :=
  Cat (Group 1 (Plus Digit)) (Cat (Star Space) (Group 2 (words time_units))).

(** [ID([^&]+)] *)
Definition re_id : regex :=
  Cat (lits "ID") (Group 1 (Plus (NoneOf ["&"%char]))).

(** [(\d+)] *)
Definition re_number : regex := Group 1 (Plus Digit).

(** [p=\d+] *)
Definition re_p_param : regex := Cat (lits "p=") (Plus Digit).

Definition re_title := words ["title"; "subject"].
Definition re_buyer := words ["buyer"; "user"; "name"].
Definition re_when := words ["ago"; "before"; "hour"; "day"; "week"; "month"].
Definition re_quotes := words ["quote"; "left"].
Definition re_country := words ["country"; "flag"].
Definition re_quantity := words ["piece"; "pcs"; "unit"; "box"; "kg"; "ton"].
Definition re_email := words ["email"; "confirm"; "verified"].
Definition re_experienced := words ["experienced"; "veteran"; "star"].
Definition re_complete := words ["complete"; "order"; "rfq"].
Definition re_typical := words ["typical"; "reply"; "response"].
Definition re_interactive := words ["interactive"; "active"; "online"].
Definition re_containers := words ["rfq"; "item"; "card"; "inquiry"; "request"].
Definition re_containers_broad := words ["list"; "item"; "card"].
Definition re_pagination := words ["pag"; "page"].

(** The third word is the two characters 194 and 187 of the source text. *)
Definition re_next :=
  words ["next"; "more";
         String (ascii_of_nat 194) (String (ascii_of_nat 187) EmptyString);
         ">"].

(** [m.group(i)] of a group that took part in the match. *)
Definition group_text (i : nat) (m : caps) : string :=
  match group i m with Some s => s | None => EmptyString end.

(** [time_mapping]: days per unit, the [float] [1/24] for the hour and
    [int]s for the others. *)
Definition time_mapping : list (string * Number.number) :=
  [("hour", Number.PyFloat Number.one_24th);
   ("hours", Number.PyFloat Number.one_24th);
   ("day", Number.PyInt 1); ("days", Number.PyInt 1);
   ("week", Number.PyInt 7); ("weeks", Number.PyInt 7);
   ("month", Number.PyInt 30); ("months", Number.PyInt 30)].

Fixpoint mapping_get (k : string) (m : list (string * Number.number))
  : option Number.number :=
  match m with
  | [] => None
  | (k', v) :: m' => if String.eqb k k' then Some v else mapping_get k m'
  end.

(** [tag[k]] *)
Definition getitem (k : string) (n : Bs4.node) : result string :=
  match Bs4.get k n with
  | Some v => Ok v
  | None => Raise (KeyError k)
  end.

(** [data[k]] *)
Definition dict_getitem (k : string) (d : Dict.dict) : result string :=
  match Dict.get k d with
  | Some v => Ok v
  | None => Raise (KeyError k)
  end.

(** [response.raise_for_status()]: client and server error codes raise. *)
Definition raise_for_status (r : Response) : result unit :=
  if ((400 <=? status_code r) && (status_code r <? 600))%Z
  then Raise (HTTPError (status_code r)) else Ok tt.

(** [page_urls[:max_pages]] *)
Definition slice_to {A} (stop : Z) (l : list A) : list A :=
  if (0 <=? stop)%Z then firstn (Z.to_nat stop) l
  else firstn (List.length l - Z.to_nat (- stop)) l.

Section Env.

(** The surroundings: what [session.get] answers to a request given all
    that happened before, what [datetime.now()] reads, [urljoin] and the
    parser behind [BeautifulSoup(content, 'html.parser')]. *)
Variable transport : World -> string -> result Response.
Variable clock : World -> Datetime.datetime.
Variable urljoin : string -> string -> result string.
Variable BeautifulSoup : string -> result Bs4.node.

(** The interpreter and pandas as installed: the limit
    [sys.get_int_max_str_digits()] on the digits [int] converts (4300 by
    default, 0 for no limit, and none before Python 3.11), and the
    [datetime.timedelta] that [pd.Timedelta(days=d)] is for a number [d],
    or what it raises. *)
Variable max_str_digits : nat.
Variable Timedelta_days : Number.number -> result Pandas.Timedelta.

(** The platform: the digits its [strftime] prints a year on, at least. *)
Variable year_width : nat.

Definition session_get (url : string) : M World Response :=
  fun w => (transport w url, w ++ [EvGet url]).

Definition sleep (secs : Z) : M World unit :=
  fun w => (Ok tt, w ++ [EvSleep secs]).

Definition datetime_now : M World Datetime.datetime :=
  fun w => (Ok (clock w), w ++ [EvNow]).

(** ** get_page *)

(** The body of the [try] of one attempt. *)
Definition attempt_get (url : string) : M World Response :=
  response <- session_get url ;;
  lift (raise_for_status response) ;;
  ret response.

(** The [for attempt in range(retries)] loop from [attempt] on, [todo] rounds
    being left; the end of the loop is the end of the function, which
    returns [None]. *)
Fixpoint get_page_from (todo : nat) (attempt : Z) (url : string) (retries : Z)
  : M World (option Response) :=
  match todo with
  | O => ret None
  | S todo' =>
      fun w =>
        match attempt_get url w with
        | (Ok response, w1) => (Ok (Some response), w1)
        | (Raise e, w1) =>
            if is_RequestException e then
              if (attempt <? retries - 1)%Z
              then (sleep (2 ^ attempt) ;;
                    get_page_from todo' (attempt + 1) url retries) w1
              else (Raise e, w1)
            else (Raise e, w1)
        end
  end.

Definition get_page (url : string) (retries : Z) : M World (option Response) :=
  get_page_from (Z.to_nat retries) 0 url retries.

(** ** parse_time_ago *)

(** [int(s)] for a string of decimal digits: a [ValueError] for more
    digits than the limit, which is looked at above 640 digits. *)
Definition int_of_digits (s : string) : result Z :=
  let digits := String.length s in
  if (640 <? digits)%nat && (0 <? max_str_digits)%nat
     && (max_str_digits <? digits)%nat
  then Raise ValueError
  else Ok (Text.int s).

Definition parse_time_ago (time_str : string) : M World string :=
  if negb (Text.nonempty time_str) then ret EmptyString
  else
    let time_str := Text.strip (Text.lower time_str) in
    match search re_time_ago time_str with
    | Some m =>
        number <- lift (int_of_digits (group_text 1 m)) ;;
        let unit := group_text 2 m in
        match mapping_get unit time_mapping with
        | Some per_unit =>
            days_ago <- lift (Number.int_mul number per_unit) ;;
            now <- datetime_now ;;
            delta <- lift (Timedelta_days days_ago) ;;
            target_date <- lift (Pandas.datetime_sub now delta) ;;
            ret (Datetime.strftime_dmy year_width target_date)
        | None => ret time_str
        end
    | None => ret time_str
    end.

(** ** extract_rfq_data *)

Definition initial_data (today : string) : Dict.dict :=
  [("RFQ ID", ""); ("Title", ""); ("Buyer Name", ""); ("Buyer Image", "");
   ("Inquiry Time", ""); ("Quotes Left", ""); ("Country", "");
   ("Quantity Required", ""); ("Email Confirmed", "No");
   ("Experienced Buyer", "No"); ("Complete Order via RFQ", "No");
   ("Typical Replies", "No"); ("Interactive User", "No");
   ("Inquiry URL", ""); ("Inquiry Date", ""); ("Scraping Date", today)].

(** [data[k] = v] *)
Definition set_item (k v : string) : M (Dict.dict * World) unit :=
  modify (Dict.set k v).

Definition extract_link (rfq_element : Bs4.node) : M (Dict.dict * World) unit :=
  match Bs4.find (Bs4.with_href ["a"]) rfq_element with
  | Some link_elem =>
      href <- lift (getitem "href" link_elem) ;;
      url <- lift (urljoin self_base_url href) ;;
      set_item "Inquiry URL" url ;;
      if Text.contains "ID" href then
        match search re_id href with
        | Some m => set_item "RFQ ID" (group_text 1 m)
        | None => ret tt
        end
      else ret tt
  | None => ret tt
  end.

Definition find_title (rfq_element : Bs4.node) : option Bs4.node :=
  match Bs4.find (Bs4.by_class ["h3"; "h4"; "span"] re_title) rfq_element with
  | Some e => Some e
  | None => Bs4.find (Bs4.by_name ["a"]) rfq_element
  end.

Definition extract_title (rfq_element : Bs4.node) : M (Dict.dict * World) unit :=
  match find_title rfq_element with
  | Some title_elem => set_item "Title" (Bs4.get_text_strip title_elem)
  | None => ret tt
  end.

Definition extract_buyer (rfq_element : Bs4.node) : M (Dict.dict * World) unit :=
  match Bs4.find (Bs4.by_class ["span"; "div"] re_buyer) rfq_element with
  | Some buyer_elem => set_item "Buyer Name" (Bs4.get_text_strip buyer_elem)
  | None => ret tt
  end.

Definition extract_image (rfq_element : Bs4.node) : M (Dict.dict * World) unit :=
  match Bs4.find (Bs4.by_name ["img"]) rfq_element with
  | Some img_elem =>
      match Bs4.get "src" img_elem with
      | Some src =>
          if Text.nonempty src then
            src' <- lift (getitem "src" img_elem) ;;
            set_item "Buyer Image" src'
          else ret tt
      | None => ret tt
      end
  | None => ret tt
  end.

Definition extract_time (rfq_element : Bs4.node) : M (Dict.dict * World) unit :=
  match Bs4.find (Bs4.by_string ["span"; "div"] false re_when) rfq_element with
  | Some time_elem =>
      let time_text := Bs4.get_text_strip time_elem in
      set_item "Inquiry Time" time_text ;;
      date <- in_world (parse_time_ago time_text) ;;
      set_item "Inquiry Date" date
  | None => ret tt
  end.

Definition extract_quotes (rfq_element : Bs4.node) : M (Dict.dict * World) unit :=
  match Bs4.find (Bs4.by_string ["span"; "div"] false re_quotes) rfq_element with
  | Some quotes_elem =>
      let quotes_text := Bs4.get_text_strip quotes_elem in
      match search re_number quotes_text with
      | Some m => set_item "Quotes Left" (group_text 1 m)
      | None => ret tt
      end
  | None => ret tt
  end.

Definition extract_country (rfq_element : Bs4.node) : M (Dict.dict * World) unit :=
  match Bs4.find (Bs4.by_class ["span"; "div"] re_country) rfq_element with
  | Some country_elem => set_item "Country" (Bs4.get_text_strip country_elem)
  | None => ret tt
  end.

Definition extract_quantity (rfq_element : Bs4.node) : M (Dict.dict * World) unit :=
  match Bs4.find (Bs4.by_string ["span"; "div"] false re_quantity) rfq_element with
  | Some quantity_elem =>
      set_item "Quantity Required" (Bs4.get_text_strip quantity_elem)
  | None => ret tt
  end.

(** One badge: [if rfq_element.find([...], class_=...): data[k] = 'Yes'] *)
Definition extract_flag (k : string) (r : regex) (rfq_element : Bs4.node)
  : M (Dict.dict * World) unit :=
  match Bs4.find (Bs4.by_class ["span"; "div"; "i"] r) rfq_element with
  | Some _ => set_item k "Yes"
  | None => ret tt
  end.

(** The body of the [try]. *)
Definition extract_fields (rfq_element : Bs4.node) : M (Dict.dict * World) unit :=
  extract_link rfq_element ;;
  extract_title rfq_element ;;
  extract_buyer rfq_element ;;
  extract_image rfq_element ;;
  extract_time rfq_element ;;
  extract_quotes rfq_element ;;
  extract_country rfq_element ;;
  extract_quantity rfq_element ;;
  extract_flag "Email Confirmed" re_email rfq_element ;;
  extract_flag "Experienced Buyer" re_experienced rfq_element ;;
  extract_flag "Complete Order via RFQ" re_complete rfq_element ;;
  extract_flag "Typical Replies" re_typical rfq_element ;;
  extract_flag "Interactive User" re_interactive rfq_element.

(** [extract_rfq_data]: the dict is built first, then filled inside the
    [try]; whatever was raised is logged and the dict returned as it
    stands. *)
Definition extract_rfq_data (rfq_element : Bs4.node) : M World Dict.dict :=
  today <- datetime_now ;;
  fun w =>
    let '(_, (data, w')) :=
      try_except (extract_fields rfq_element) (fun _ => ret tt)
                 (initial_data (Datetime.strftime_dmy year_width today), w) in
    (Ok data, w').

(** ** scrape_rfq_page *)

(** The [for container in rfq_containers] loop. *)
Fixpoint scan_containers (containers : list Bs4.node) (rfq_data : list Dict.dict)
  : M World (list Dict.dict) :=
  match containers with
  | [] => ret rfq_data
  | container :: rest =>
      match Bs4.find (Bs4.with_href ["a"]) container with
      | None => scan_containers rest rfq_data
      | Some _ =>
          data <- extract_rfq_data container ;;
          title <- lift (dict_getitem "Title" data) ;;
          if Text.nonempty title
          then scan_containers rest (rfq_data ++ [data])
          else scan_containers rest rfq_data
      end
  end.

(** [response.content] of what [get_page] returned. *)
Definition content_of (response : option Response) : result string :=
  match response with
  | Some r => Ok (content r)
  | None => Raise AttributeError
  end.

Definition find_containers (soup : Bs4.node) : list Bs4.node :=
  match Bs4.find_all (Bs4.by_class ["div"; "li"] re_containers) soup with
  | [] => Bs4.find_all (Bs4.by_class ["div"; "li"] re_containers_broad) soup
  | found => found
  end.

Definition scrape_rfq_page (url : string) : M World (list Dict.dict) :=
  try_except
    (response <- get_page url 3 ;;
     html <- lift (content_of response) ;;
     soup <- lift (BeautifulSoup html) ;;
     scan_containers (find_containers soup) [])
    (fun _ => ret []).

(** ** get_all_page_urls *)

Definition in_list (x : string) (l : list string) : bool :=
  existsb (String.eqb x) l.

(** [if u not in urls: urls.append(u)] *)
Definition append_new (u : string) : M (list string * World) unit :=
  urls <- read ;;
  if in_list u urls then ret tt else modify (fun urls => urls ++ [u]).

(** The [for link in page_links] loop. *)
Fixpoint collect_page_links (page_links : list Bs4.node)
  : M (list string * World) unit :=
  match page_links with
  | [] => ret tt
  | link :: rest =>
      href <- lift (getitem "href" link) ;;
      (if Text.contains "page" (Text.lower href) || matches false re_p_param href
       then full_url <- lift (urljoin self_base_url href) ;;
            append_new full_url
       else ret tt) ;;
      collect_page_links rest
  end.

Definition discover (base_url : string) : M (list string * World) unit :=
  response <- in_world (get_page base_url 3) ;;
  html <- lift (content_of response) ;;
  soup <- lift (BeautifulSoup html) ;;
  match Bs4.find (Bs4.by_class ["div"; "ul"] re_pagination) soup with
  | Some pagination =>
      collect_page_links (Bs4.find_all (Bs4.with_href ["a"]) pagination)
  | None => ret tt
  end ;;
  match Bs4.find (Bs4.by_string ["a"] true re_next) soup with
  | Some next_link =>
      match Bs4.get "href" next_link with
      | Some h =>
          if Text.nonempty h then
            href <- lift (getitem "href" next_link) ;;
            next_url <- lift (urljoin self_base_url href) ;;
            append_new next_url
          else ret tt
      | None => ret tt
      end
  | None => ret tt
  end.

Definition get_all_page_urls (base_url : string) : M World (list string) :=
  fun w =>
    let '(_, (urls, w')) :=
      try_except (discover base_url) (fun _ => ret tt) ([base_url], w) in
    (Ok urls, w').

(** ** scrape_all_pages *)

(** The [for i, url in enumerate(page_urls, 1)] loop with its [break]. *)
Fixpoint scrape_pages (page_urls : list string) (all_data : list Dict.dict)
  : M World (list Dict.dict) :=
  match page_urls with
  | [] => ret all_data
  | url :: rest =>
      page_data <- scrape_rfq_page url ;;
      let all_data := all_data ++ page_data in
      sleep 2 ;;
      match page_data with
      | [] => ret all_data
      | _ :: _ => scrape_pages rest all_data
      end
  end.

Definition scrape_all_pages (start_url : string) (max_pages : Z)
  : M World (list Dict.dict) :=
  page_urls <- get_all_page_urls start_url ;;
  let page_urls := slice_to max_pages page_urls in
  scrape_pages page_urls [].

(** ** save_to_csv *)

Definition to_csv (df : Pandas.DataFrame) (filename : string) : M World unit :=
  fun w => (Ok tt, w ++ [EvToCsv filename (Pandas.columns df) (Pandas.csv_rows df)]).

(** The [for col in required_columns] loop. *)
Definition ensure_columns (df : Pandas.DataFrame) : Pandas.DataFrame :=
  fold_left
    (fun df col =>
       if Pandas.has_column col (Pandas.columns df) then df
       else Pandas.add_column col "" df)
    required_columns df.

Definition save_to_csv (data : list Dict.dict) (filename : string)
  : M World (option Pandas.DataFrame) :=
  match data with
  | [] => ret None
  | _ :: _ =>
      let df := Pandas.DataFrame_of_dicts data in
      let df := ensure_columns df in
      df <- lift (Pandas.select required_columns df) ;;
      to_csv df filename ;;
      ret (Some df)
  end.

End Env.

End Scraper.

(* ================================================================== *)
(** * def main *)
(* ================================================================== *)

Module Program.

Import Scraper.
Local Open Scope monad_scope.
Local Open Scope string_scope.

Definition start_url : string :=
  "https://sourcing.alibaba.com/rfq/rfq_search_list.htm?spm=a2700.8073608.1998677541.1.82be65aaoUUItC&country=AE&recently=Y&tracelog=newest".

(** The line feed of ["\n"]. *)
Definition newline : string := String (ascii_of_nat 10) EmptyString.

(** [t.strftime('%Y-%m-%d_%H%M%S')]: the calendar date, then the time of
    day in whole seconds, every field padded with zeros but the year, which
    is printed as for [Datetime.strftime_dmy]. *)
Definition strftime_stamp (year_width : nat) (t : Datetime.datetime) : string :=
  let '(y, m, d) := Datetime.ord2ymd (Datetime.toordinal t) in
  let secs := ((t mod Datetime.us_per_day) / 1000000)%Z in
  let two z := Text.zfill 2 (Datetime.decimal z) in
  Text.zfill year_width (Datetime.decimal y) ++ "-" ++ two m ++ "-" ++ two d ++ "_"
  ++ two (secs / 3600)%Z ++ two ((secs / 60) mod 60)%Z ++ two (secs mod 60)%Z.

(** [df.head()]: the first five rows. *)
Definition head (df : Pandas.DataFrame) : Pandas.DataFrame :=
  {| Pandas.columns := Pandas.columns df;
     Pandas.rows := firstn 5 (Pandas.rows df) |}.

(** [len(df)] *)
Definition len (df : Pandas.DataFrame) : nat := List.length (Pandas.rows df).

Section Env.

Variable transport : World -> string -> result Response.
Variable clock : World -> Datetime.datetime.
Variable urljoin : string -> string -> result string.
Variable BeautifulSoup : string -> result Bs4.node.
Variable max_str_digits : nat.
Variable Timedelta_days : Number.number -> result Pandas.Timedelta.
Variable year_width : nat.

(** The text of a table, [df.to_string(index=False)], and the text of an
    exception, [str(e)]. *)
Variable to_string : Pandas.DataFrame -> string.
Variable str_of_exn : exn -> string.

(** [print(line)]: the local variable is the list of the lines printed so
    far, oldest first. *)
Definition print (line : string) : M (list string * World) unit :=
  modify (fun out => (out ++ [line])%list).

Definition main : M (list string * World) unit :=
  try_except
    (all_data <-
       in_world (scrape_all_pages transport clock urljoin BeautifulSoup
           max_str_digits Timedelta_days year_width
                   start_url 10) ;;
     now <- in_world (datetime_now clock) ;;
     let filename := "alibaba_rfq_" ++ strftime_stamp year_width now ++ ".csv" in
     df <- in_world (save_to_csv all_data filename) ;;
     match df with
     | Some df =>
         print (newline ++ "Scraping completed successfully!") ;;
         print ("Total RFQs scraped: " ++ Text.str_of_nat (len df)) ;;
         print ("Data saved to: " ++ filename) ;;
         print (newline ++ "First 5 rows of scraped data:") ;;
         print (to_string (head df))
     | None => ret tt
     end)
    (fun e => print ("Error: " ++ str_of_exn e)).

End Env.

End Program.

(* ================================================================== *)
(** * Vocabulary of the statements *)
(* ================================================================== *)

Module Spec.

Import Scraper.

(** A step over a local variable (the list [urls], the dict [data]) keeps
    a property of that variable, whether it returns or raises. *)
Definition keeps {X A} (P : X -> Prop) (c : M (X * World) A) : Prop :=
  forall x w, P x -> P (fst (snd (c (x, w)))).

(** What a run returned, the empty dict standing for a raise. *)
Definition record_of (run : result Dict.dict * World) : Dict.dict :=
  match fst run with
  | Ok d => d
  | Raise _ => []
  end.

(** ** Normalising a relative time *)

(** Days per unit, as the specification tabulates them. *)
Definition days_per_unit (unit : string) : option Q :=
  if String.eqb unit "hour" || String.eqb unit "hours" then Some (1 # 24)%Q
  else if String.eqb unit "day" || String.eqb unit "days" then Some (inject_Z 1)
  else if String.eqb unit "week" || String.eqb unit "weeks" then Some (inject_Z 7)
  else if String.eqb unit "month" || String.eqb unit "months" then Some (inject_Z 30)
  else None.

(** The instant [days] days before [now], to the microsecond. *)
Definition minus_days (now : Datetime.datetime) (days : Q) : Datetime.datetime :=
  (now - Qfloor (Qmult days (inject_Z Datetime.us_per_day)))%Z.

(** [int] converts a string of digits: it is within the limit of the
    interpreter, which is none when 0 and is looked at above 640 digits. *)
Definition converts (max_str_digits : nat) (digits : string) : Prop :=
  (String.length digits <= 640 \/ max_str_digits = 0
   \/ String.length digits <= max_str_digits)%nat.

(** The date that lies [delta] before [now], when pandas gave a [delta]
    and the date is one [datetime] holds; what was raised otherwise. *)
Definition date_before (year_width : nat) (now : Datetime.datetime)
    (delta : result Pandas.Timedelta) : result string :=
  match delta with
  | Ok td =>
      match Pandas.datetime_sub now td with
      | Ok target_date => Ok (Datetime.strftime_dmy year_width target_date)
      | Raise e => Raise e
      end
  | Raise e => Raise e
  end.

(** Pandas holds a whole number of days as that many days. *)
Definition holds_days
    (Timedelta_days : Number.number -> result Pandas.Timedelta)
    (days : Z) : Prop :=
  Timedelta_days (Number.PyInt days) = Ok (days * Datetime.us_per_day)%Z.

(** The days per unit as Python holds them: the [int] for a whole number,
    the [float] quotient of numerator and denominator otherwise. *)
Definition factor_of (per_unit : Q) : Number.number :=
  if (Qden per_unit =? 1)%positive then Number.PyInt (Qnum per_unit)
  else Number.PyFloat
         (SpecFloat.SFdiv Number.prec Number.emax
            (Number.nearest (Qnum per_unit))
            (Number.nearest (Zpos (Qden per_unit)))).

(** The days that a number of units is for the code: the product in the
    arithmetic of the factor, or the [OverflowError] of a number too large
    to meet a [float]. *)
Definition days_ago_of (number : Z) (per_unit : Q) : result Number.number :=
  Number.int_mul number (factor_of per_unit).

(** The run once the days are worked out.  A failure of the product comes
    before the clock is read; otherwise the clock is read once, and the
    date lies what pandas makes of the days before now. *)
Definition date_ago
    (clock : World -> Datetime.datetime)
    (Timedelta_days : Number.number -> result Pandas.Timedelta)
    (year_width : nat)
    (days_ago : result Number.number) (w : World) : result string * World :=
  match days_ago with
  | Ok d =>
      (date_before year_width (clock w) (Timedelta_days d), (w ++ [EvNow])%list)
  | Raise e => (Raise e, w)
  end.

(** [str(number)] for an integer. *)
Definition str_of_int (z : Z) : string :=
  if (z <? 0)%Z then String.append "-" (Text.str_of_nat (Z.to_nat (- z)))
  else Text.str_of_nat (Z.to_nat z).

(** The claim that a text containing "<number> <unit>" normalises to the
    date that lies number times days-per-unit before now. *)
Definition normalises_to_number_unit (clock : World -> Datetime.datetime)
    (max_str_digits : nat)
    (Timedelta_days : Number.number -> result Pandas.Timedelta)
    (year_width : nat)
    (text : string) (number : Z) (unit : string) (w : World) : Prop :=
  Text.contains (String.append (str_of_int number) (String.append " " unit)) text
  = true ->
  exists per_unit,
    days_per_unit (Text.lower unit) = Some per_unit
    /\ fst (parse_time_ago clock
        max_str_digits Timedelta_days year_width text w)
       = Ok (Datetime.strftime_dmy year_width
               (minus_days (clock w) (Qmult (inject_Z number) per_unit))).

(** ** Fetching *)

(** The transport error an attempt ends in, if it does: a
    [RequestException] of [session.get], or the [HTTPError] of
    [raise_for_status] for a status from 400 to 599. *)
Definition transport_error (o : result Response) : option exn :=
  match o with
  | Raise e => if is_RequestException e then Some e else None
  | Ok r =>
      match raise_for_status r with
      | Raise e => Some e
      | Ok _ => None
      end
  end.

(** [k] failed attempts from attempt number [a] on, each followed by its
    pause of [2^attempt]. *)
Fixpoint backoff_from (url : string) (a : Z) (k : nat) : World :=
  match k with
  | O => []
  | S k' => EvGet url :: EvSleep (2 ^ a) :: backoff_from url (a + 1) k'
  end.

Definition backoff_trace (url : string) (k : nat) : World :=
  backoff_from url 0 k.

(** The claim that, against an endpoint every attempt at which fails with
    a transport error, [get_page] ends by propagating the failure, whatever
    the retry count. *)
Definition exhausts_then_raises
    (transport : World -> string -> result Response)
    (url : string) (retries : Z) (w : World) : Prop :=
  (forall w', transport_error (transport w' url) <> None) ->
  exists e w', get_page transport url retries w = (Raise e, w').

(** The number of HTTP attempts in a log, and the pauses in it. *)
Definition attempts (w : World) : nat :=
  List.length (filter (fun ev => match ev with EvGet _ => true | _ => false end) w).

Fixpoint sleeps (w : World) : list Z :=
  match w with
  | [] => []
  | EvSleep s :: w' => s :: sleeps w'
  | _ :: w' => sleeps w'
  end.

(** ** Crawling *)

(** Visiting every page of a list in order, with the pause after each, and
    no early stop: the records of each page, page by page. *)
Fixpoint visit_all
    (transport : World -> string -> result Response)
    (clock : World -> Datetime.datetime)
    (urljoin : string -> string -> result string)
    (BeautifulSoup : string -> result Bs4.node)
    (max_str_digits : nat)
    (Timedelta_days : Number.number -> result Pandas.Timedelta)
    (year_width : nat)
    (page_urls : list string) : M World (list (list Dict.dict)) :=
  match page_urls with
  | [] => ret []
  | url :: rest =>
      bind (scrape_rfq_page transport clock urljoin BeautifulSoup
          max_str_digits Timedelta_days year_width url)
        (fun page_data =>
           bind (sleep 2)
             (fun _ =>
                bind (visit_all transport clock urljoin BeautifulSoup
                    max_str_digits Timedelta_days year_width rest)
                  (fun datas => ret (page_data :: datas))))
  end.

(** ** Records *)

Definition flag_columns : list string :=
  ["Email Confirmed"; "Experienced Buyer"; "Complete Order via RFQ";
   "Typical Replies"; "Interactive User"].

(** The default of a column: ["No"] for a flag, the empty string otherwise. *)
Definition default_of (col : string) : string :=
  if existsb (String.eqb col) flag_columns then "No" else "".

(** For each column that is looked up in the markup, the lookup that finds
    the element it is read from. *)
Definition lookups : list (string * (Bs4.node -> option Bs4.node)) :=
  [("RFQ ID", Bs4.find (Bs4.with_href ["a"]));
   ("Title", find_title);
   ("Buyer Name", Bs4.find (Bs4.by_class ["span"; "div"] re_buyer));
   ("Buyer Image", Bs4.find (Bs4.by_name ["img"]));
   ("Inquiry Time", Bs4.find (Bs4.by_string ["span"; "div"] false re_when));
   ("Quotes Left", Bs4.find (Bs4.by_string ["span"; "div"] false re_quotes));
   ("Country", Bs4.find (Bs4.by_class ["span"; "div"] re_country));
   ("Quantity Required",
      Bs4.find (Bs4.by_string ["span"; "div"] false re_quantity));
   ("Email Confirmed", Bs4.find (Bs4.by_class ["span"; "div"; "i"] re_email));
   ("Experienced Buyer",
      Bs4.find (Bs4.by_class ["span"; "div"; "i"] re_experienced));
   ("Complete Order via RFQ",
      Bs4.find (Bs4.by_class ["span"; "div"; "i"] re_complete));
   ("Typical Replies", Bs4.find (Bs4.by_class ["span"; "div"; "i"] re_typical));
   ("Interactive User",
      Bs4.find (Bs4.by_class ["span"; "div"; "i"] re_interactive));
   ("Inquiry URL", Bs4.find (Bs4.with_href ["a"]));
   ("Inquiry Date", Bs4.find (Bs4.by_string ["span"; "div"] false re_when))].

(** A record as the output needs it: the sixteen columns, each with a
    string, the flags being Yes or No. *)
Definition rectangular (d : Dict.dict) : Prop :=
  Dict.keys d = required_columns
  /\ (forall col, In col required_columns -> exists v, Dict.get col d = Some v)
  /\ (forall col, In col flag_columns ->
        Dict.get col d = Some "Yes" \/ Dict.get col d = Some "No").

Definition has_title (d : Dict.dict) : Prop :=
  exists t, Dict.get "Title" d = Some t /\ t <> "".

(** The value of each field taken on its own, as the extraction policy
    words it: the text of the first element found for it, or the default. *)
Definition text_or_empty (o : option Bs4.node) : string :=
  match o with
  | Some e => Bs4.get_text_strip e
  | None => ""
  end.

Definition href_of (el : Bs4.node) : option string :=
  match Bs4.find (Bs4.with_href ["a"]) el with
  | Some a => Bs4.get "href" a
  | None => None
  end.

Definition id_of (el : Bs4.node) : string :=
  match href_of el with
  | Some href =>
      if Text.contains "ID" href then
        match Re.search re_id href with
        | Some m => group_text 1 m
        | None => ""
        end
      else ""
  | None => ""
  end.

Definition url_of (urljoin : string -> string -> result string) (el : Bs4.node)
  : string :=
  match href_of el with
  | Some href =>
      match urljoin self_base_url href with
      | Ok u => u
      | Raise _ => ""
      end
  | None => ""
  end.

Definition image_of (el : Bs4.node) : string :=
  match Bs4.find (Bs4.by_name ["img"]) el with
  | Some img => match Bs4.get "src" img with Some src => src | None => "" end
  | None => ""
  end.

Definition time_text_of (el : Bs4.node) : string :=
  text_or_empty (Bs4.find (Bs4.by_string ["span"; "div"] false re_when) el).

Definition date_of (clock : World -> Datetime.datetime)
    (max_str_digits : nat)
    (Timedelta_days : Number.number -> result Pandas.Timedelta)
    (year_width : nat) (el : Bs4.node)
    (w : World) : string :=
  match Bs4.find (Bs4.by_string ["span"; "div"] false re_when) el with
  | Some e =>
      match fst (parse_time_ago clock
          max_str_digits Timedelta_days year_width
          (Bs4.get_text_strip e) w) with
      | Ok date => date
      | Raise _ => ""
      end
  | None => ""
  end.

Definition quotes_of (el : Bs4.node) : string :=
  match Bs4.find (Bs4.by_string ["span"; "div"] false re_quotes) el with
  | Some e =>
      match Re.search re_number (Bs4.get_text_strip e) with
      | Some m => group_text 1 m
      | None => ""
      end
  | None => ""
  end.

Definition flag_of (r : Re.regex) (el : Bs4.node) : string :=
  match Bs4.find (Bs4.by_class ["span"; "div"; "i"] r) el with
  | Some _ => "Yes"
  | None => "No"
  end.

(** The record whose every field is extracted on its own, given the
    inquiry date and the scraping date. *)
Definition record_with
    (urljoin : string -> string -> result string)
    (el : Bs4.node) (date today : string) : Dict.dict :=
  [("RFQ ID", id_of el);
   ("Title", text_or_empty (find_title el));
   ("Buyer Name",
      text_or_empty (Bs4.find (Bs4.by_class ["span"; "div"] re_buyer) el));
   ("Buyer Image", image_of el);
   ("Inquiry Time", time_text_of el);
   ("Quotes Left", quotes_of el);
   ("Country",
      text_or_empty (Bs4.find (Bs4.by_class ["span"; "div"] re_country) el));
   ("Quantity Required",
      text_or_empty
        (Bs4.find (Bs4.by_string ["span"; "div"] false re_quantity) el));
   ("Email Confirmed", flag_of re_email el);
   ("Experienced Buyer", flag_of re_experienced el);
   ("Complete Order via RFQ", flag_of re_complete el);
   ("Typical Replies", flag_of re_typical el);
   ("Interactive User", flag_of re_interactive el);
   ("Inquiry URL", url_of urljoin el);
   ("Inquiry Date", date);
   ("Scraping Date", today)].

(** The clock is read once for the scraping date, and the inquiry date is
    worked out after that. *)
Definition expected_record
    (clock : World -> Datetime.datetime)
    (urljoin : string -> string -> result string)
    (max_str_digits : nat)
    (Timedelta_days : Number.number -> result Pandas.Timedelta)
    (year_width : nat)
    (el : Bs4.node) (w : World) : Dict.dict :=
  record_with urljoin el
    (date_of clock max_str_digits Timedelta_days year_width el (w ++ [EvNow]))
    (Datetime.strftime_dmy year_width (clock w)).

(** Failures are local to their field: whatever happens to one field, every
    field of the record is what its own extraction gives. *)
Definition every_field_on_its_own
    (clock : World -> Datetime.datetime)
    (urljoin : string -> string -> result string)
    (max_str_digits : nat)
    (Timedelta_days : Number.number -> result Pandas.Timedelta)
    (year_width : nat)
    (el : Bs4.node) (w : World) : Prop :=
  record_of (extract_rfq_data clock urljoin
      max_str_digits Timedelta_days year_width el w)
  = expected_record clock urljoin max_str_digits Timedelta_days year_width el w.

(** No step of the extraction raises: the URL of the first anchor with an
    href resolves, and the text of the time element normalises. *)
Definition link_resolves (urljoin : string -> string -> result string)
    (el : Bs4.node) : Prop :=
  forall href, href_of el = Some href ->
    exists u, urljoin self_base_url href = Ok u.

Definition time_normalises (clock : World -> Datetime.datetime)
    (max_str_digits : nat)
    (Timedelta_days : Number.number -> result Pandas.Timedelta)
    (year_width : nat)
    (el : Bs4.node) (w : World) : Prop :=
  forall e,
    Bs4.find (Bs4.by_string ["span"; "div"] false re_when) el = Some e ->
    exists date,
      fst (parse_time_ago clock
          max_str_digits Timedelta_days year_width
          (Bs4.get_text_strip e) w) = Ok date.

(** A step of the extraction raises: resolving the URL of the first anchor
    with an href does, or normalising the text of the time element does. *)
Definition link_raises (urljoin : string -> string -> result string)
    (el : Bs4.node) : Prop :=
  exists href ex,
    href_of el = Some href /\ urljoin self_base_url href = Raise ex.

Definition time_raises (clock : World -> Datetime.datetime)
    (max_str_digits : nat)
    (Timedelta_days : Number.number -> result Pandas.Timedelta)
    (year_width : nat)
    (el : Bs4.node) (w : World) : Prop :=
  exists e ex,
    Bs4.find (Bs4.by_string ["span"; "div"] false re_when) el = Some e
    /\ fst (parse_time_ago clock
        max_str_digits Timedelta_days year_width
        (Bs4.get_text_strip e) w) = Raise ex.

(** The record when the normaliser raises: the fields up to the inquiry
    time are extracted, the later ones are at their defaults. *)
Definition record_until_time
    (urljoin : string -> string -> result string)
    (el : Bs4.node) (today : string) : Dict.dict :=
  [("RFQ ID", id_of el);
   ("Title", text_or_empty (find_title el));
   ("Buyer Name",
      text_or_empty (Bs4.find (Bs4.by_class ["span"; "div"] re_buyer) el));
   ("Buyer Image", image_of el);
   ("Inquiry Time", time_text_of el);
   ("Quotes Left", ""); ("Country", ""); ("Quantity Required", "");
   ("Email Confirmed", "No"); ("Experienced Buyer", "No");
   ("Complete Order via RFQ", "No"); ("Typical Replies", "No");
   ("Interactive User", "No");
   ("Inquiry URL", url_of urljoin el);
   ("Inquiry Date", "");
   ("Scraping Date", today)].

(** A record whose looked-up fields are at their default wherever the
    lookup in the node it was extracted from found nothing. *)
Definition absent_fields_default
    (clock : World -> Datetime.datetime)
    (urljoin : string -> string -> result string)
    (max_str_digits : nat)
    (Timedelta_days : Number.number -> result Pandas.Timedelta)
    (year_width : nat)
    (d : Dict.dict) : Prop :=
  exists el w,
    Bs4.find (Bs4.with_href ["a"]) el <> None
    /\ d = record_of (extract_rfq_data clock urljoin
        max_str_digits Timedelta_days year_width el w)
    /\ forall col look,
         In (col, look) lookups -> look el = None ->
         Dict.get col d = Some (default_of col).

(** The state the [try] block of [extract_rfq_data] ends in, whether it
    raised or not. *)
Definition extraction_end
    (clock : World -> Datetime.datetime)
    (urljoin : string -> string -> result string)
    (max_str_digits : nat)
    (Timedelta_days : Number.number -> result Pandas.Timedelta)
    (year_width : nat)
    (el : Bs4.node) (w : World) : Dict.dict * World :=
  snd (try_except (extract_fields clock urljoin
      max_str_digits Timedelta_days year_width el) (fun _ => ret tt)
         (initial_data (Datetime.strftime_dmy year_width (clock w)), w ++ [EvNow])).

(** The property of a dict that the inquiry date is the lower-cased,
    stripped inquiry time whenever that text holds no number-unit pattern. *)
Definition date_follows_time (d : Dict.dict) : Prop :=
  forall t,
    Dict.get "Inquiry Time" d = Some t ->
    Re.search re_time_ago (Text.strip (Text.lower t)) = None ->
    Dict.get "Inquiry Date" d = Some (Text.strip (Text.lower t)).

(** The claim that a node without anchor gives a record without link whose
    title is empty. *)
Definition anchorless_title_is_empty
    (clock : World -> Datetime.datetime)
    (urljoin : string -> string -> result string)
    (max_str_digits : nat)
    (Timedelta_days : Number.number -> result Pandas.Timedelta)
    (year_width : nat)
    (el : Bs4.node) (w : World) : Prop :=
  Bs4.find (Bs4.by_name ["a"]) el = None ->
  Dict.get "Inquiry URL" (record_of (extract_rfq_data clock urljoin
      max_str_digits Timedelta_days year_width el w)) = Some ""
  /\ Dict.get "RFQ ID" (record_of (extract_rfq_data clock urljoin
      max_str_digits Timedelta_days year_width el w)) = Some ""
  /\ Dict.get "Title" (record_of (extract_rfq_data clock urljoin
      max_str_digits Timedelta_days year_width el w)) = Some "".

(** The claim that a text without number-unit pattern is returned as it
    is. *)
Definition passes_raw_text (clock : World -> Datetime.datetime)
    (max_str_digits : nat)
    (Timedelta_days : Number.number -> result Pandas.Timedelta)
    (year_width : nat)
    (text : string) (w : World) : Prop :=
  Re.search re_time_ago (Text.strip (Text.lower text)) = None ->
  parse_time_ago clock
      max_str_digits Timedelta_days year_width text w = (Ok text, w).

(** ** Discovery *)

(** A crawl plan for [start]: it begins with [start] and lists no URL
    twice. *)
Definition plan_for (start : string) (urls : list string) : Prop :=
  hd_error urls = Some start /\ NoDup urls.



(** ** The output table *)

(** The field a record contributes under a column: its value, or the empty
    field when the record has no such key. *)
Definition field_of (d : Dict.dict) (col : string) : string :=
  match Dict.get col d with
  | Some v => v
  | None => EmptyString
  end.

(** One row per record, one field per required column, in that order. *)
Definition expected_rows (data : list Dict.dict) : list (list string) :=
  map (fun d => map (field_of d) required_columns) data.

(** The cell of a record under a label while the missing columns are being
    added: its own value under a label of the frame built from the data,
    the empty string under an added one. *)
Definition cell_during (cols0 : list string) (d : Dict.dict) (c : string)
  : option string :=
  if Pandas.has_column c cols0 then Dict.get c d else Some EmptyString.

(** [save_to_csv] writes the table of the sixteen columns for [data]. *)
Definition writes_table (data : list Dict.dict) (filename : string) (w : World)
  : Prop :=
  exists df,
    save_to_csv data filename w
    = (Ok (Some df), w ++ [EvToCsv filename required_columns (expected_rows data)])
    /\ Pandas.columns df = required_columns
    /\ Pandas.csv_rows df = expected_rows data
    /\ List.length required_columns = 16
    /\ List.length (expected_rows data) = List.length data
    /\ Forall (fun row => List.length row = 16) (expected_rows data).

(** ** What [get_page] does to the world *)

(** An event of fetching [url]: a request for it, or a pause. *)
Definition get_or_sleep (url : string) (ev : event) : Prop :=
  ev = EvGet url \/ exists secs, ev = EvSleep secs.

(** A step over a local variable that does nothing to the world. *)
Definition leaves_world {X A} (c : M (X * World) A) : Prop :=
  forall x w, snd (snd (c (x, w))) = w.

(** A step over a local variable that reads the clock once or leaves the
    world alone. *)
Definition reads_clock_at_most_once {X A} (c : M (X * World) A) : Prop :=
  forall x w,
    snd (snd (c (x, w))) = w \/ snd (snd (c (x, w))) = w ++ [EvNow].

(** ** The id in a link *)

(** A character other than the capital I, and one other than the
    ampersand. *)
Definition not_I (c : ascii) : bool := negb (Ascii.eqb "I" c).
Definition not_amp (c : ascii) : bool := negb (existsb (Ascii.eqb c) ["&"%char]).

(** The rest of a link after the id: nothing, or a further parameter. *)
Definition ends_id (tail : string) : Prop :=
  tail = "" \/ exists r, tail = String "&" r.

(** ** Normalised texts *)

(** A character of a date: a digit or the dash. *)
Definition date_char (c : ascii) : bool :=
  Text.is_digit c || Ascii.eqb c "-".


(** ** The program *)

(** The name [main] gives the file, from the time read after the crawl. *)
Definition stamped_name (year_width : nat) (t : Datetime.datetime) : string :=
  ("alibaba_rfq_" ++ Program.strftime_stamp year_width t ++ ".csv")%string.

(** What [main] prints after saving [n] records in [filename], the text
    of the first rows being [shown]. *)
Definition report (n : nat) (filename shown : string) : list string :=
  [(Program.newline ++ "Scraping completed successfully!")%string;
   ("Total RFQs scraped: " ++ Text.str_of_nat n)%string;
   ("Data saved to: " ++ filename)%string;
   (Program.newline ++ "First 5 rows of scraped data:")%string;
   shown].

End Spec.

(* ================================================================== *)
(** * Fixtures: concrete surroundings for the examples *)
(* ================================================================== *)

Module Fixture.

(** 20 January 2024, midnight. *)
Definition clock0 : World -> Datetime.datetime :=
  fun _ => Datetime.of_ordinal 738905.

(** Seven hours less a microsecond after that midnight. *)
Definition clock_0659 : World -> Datetime.datetime :=
  fun _ => (Datetime.of_ordinal 738905 + 7 * 3600000000 - 1)%Z.

(** A platform that pads the year. *)
Definition year_width0 : nat := 4.

(** The default limit of [int] since Python 3.11. *)
Definition max_str_digits0 : nat := 4300.

(** [int(f)] for a [float]: towards zero. *)
Definition int_of_float (f : Number.float) : result Z :=
  match f with
  | SpecFloat.S754_zero _ => Ok 0%Z
  | SpecFloat.S754_finite s m e =>
      let magnitude :=
        match e with
        | Zneg k => (Zpos m / 2 ^ Zpos k)%Z
        | _ => (Zpos m * 2 ^ e)%Z
        end in
      Ok (if s then (- magnitude)%Z else magnitude)
  | SpecFloat.S754_infinity _ => Raise OverflowError
  | SpecFloat.S754_nan => Raise ValueError
  end.

(** A pandas: [pd.Timedelta(days=d)] takes the nanoseconds
    [int(d * 24 * 3600 * 1_000_000_000)], in the arithmetic of [d], and
    leaves whole microseconds to [datetime].  The bound of pandas on the
    nanoseconds is left out: the examples stay far below it. *)
Definition Timedelta_days0 (d : Number.number) : result Pandas.Timedelta :=
  match d with
  | Number.PyInt z => Ok (z * 24 * 3600 * 1000000000 / 1000)%Z
  | Number.PyFloat f =>
      let times k x := SpecFloat.SFmul Number.prec Number.emax x (Number.nearest k) in
      match int_of_float (times 1000000000%Z (times 3600%Z (times 24%Z f))) with
      | Ok ns => Ok (ns / 1000)%Z
      | Raise e => Raise e
      end
  end.

(** [urljoin] on the origin and an absolute path. *)
Definition urljoin0 (base href : string) : result string :=
  Ok (String.append base href).

Definition resp_ok : Response := {| status_code := 200; content := "ok" |}.

(** An endpoint that is down. *)
Definition transport_down : World -> string -> result Response :=
  fun _ _ => Raise (RequestException "connection refused").

(** An endpoint that fails twice (two attempts and two pauses are four
    events) and then answers. *)
Definition transport_flaky : World -> string -> result Response :=
  fun w _ =>
    if (List.length w <? 4)%nat then Raise (RequestException "timeout")
    else Ok resp_ok.

(** A candidate with an anchor, a time text whose date lies before the
    first year of [datetime], and a country. *)
Definition item_overflow : Bs4.node :=
  Bs4.Tag "div" (Some ["rfq-item"]) []
    [Bs4.Tag "a" None [("href", "/rfq?ID77")] [Bs4.NavigableString "Need bolts"];
     Bs4.Tag "span" None [] [Bs4.NavigableString "999999 days ago"];
     Bs4.Tag "span" (Some ["country"]) [] [Bs4.NavigableString "UAE"]].

(** A candidate with every kind of element the extraction looks for. *)
Definition item_full : Bs4.node :=
  Bs4.Tag "div" (Some ["rfq-item"]) []
    [Bs4.Tag "a" None [("href", "/rfq?ID123&x=1")]
       [Bs4.NavigableString " Need widgets "];
     Bs4.Tag "img" None [("src", "/img/b.png")] [];
     Bs4.Tag "span" None [] [Bs4.NavigableString "12 days ago"];
     Bs4.Tag "div" None [] [Bs4.NavigableString "7 quotes left"];
     Bs4.Tag "i" (Some ["icon"; "email-ok"]) [] [];
     Bs4.Tag "span" (Some ["country"]) [] [Bs4.NavigableString "UAE"]].

(** A node with a titled span and no anchor. *)
Definition item_no_anchor : Bs4.node :=
  Bs4.Tag "div" (Some ["rfq-item"]) []
    [Bs4.Tag "span" (Some ["title"]) [] [Bs4.NavigableString "Bulk order"]].

(** A site of three listing pages; the body of a response is the URL it
    was asked for, and the parser turns it into the page below. *)
Definition site_start : string := "https://sourcing.alibaba.com/list".
Definition site_page2 : string := "https://sourcing.alibaba.com/list?page=2".
Definition site_page3 : string := "https://sourcing.alibaba.com/list?page=3".

Definition transport_site : World -> string -> result Response :=
  fun _ url => Ok {| status_code := 200; content := url |}.

Definition rfq_item (href title when : string) : Bs4.node :=
  Bs4.Tag "div" (Some ["rfq-item"]) []
    [Bs4.Tag "a" None [("href", href)] [Bs4.NavigableString title];
     Bs4.Tag "span" None [] [Bs4.NavigableString when]].

Definition page1 : Bs4.node :=
  Bs4.Tag "[document]" None []
    [rfq_item "/rfq?ID1001&lang=en" " Need widgets " "12 days ago";
     Bs4.Tag "ul" (Some ["pagination"]) []
       [Bs4.Tag "a" None [("href", "/list?page=2")] [Bs4.NavigableString "2"];
        Bs4.Tag "a" None [("href", "/list?page=3")] [Bs4.NavigableString "3"]]].

Definition page2 : Bs4.node :=
  Bs4.Tag "[document]" None []
    [Bs4.Tag "p" None [] [Bs4.NavigableString "No results"]].

Definition page3 : Bs4.node :=
  Bs4.Tag "[document]" None []
    [rfq_item "/rfq?ID1003" "Need gears" "1 Hour before"].

Definition BeautifulSoup_site (html : string) : result Bs4.node :=
  if String.eqb html site_start then Ok page1
  else if String.eqb html site_page2 then Ok page2
  else Ok page3.

Definition record1 : Dict.dict :=
  [("RFQ ID", "1001"); ("Title", "Need widgets"); ("Buyer Name", "");
   ("Buyer Image", ""); ("Inquiry Time", "12 days ago"); ("Quotes Left", "");
   ("Country", ""); ("Quantity Required", ""); ("Email Confirmed", "No");
   ("Experienced Buyer", "No"); ("Complete Order via RFQ", "No");
   ("Typical Replies", "No"); ("Interactive User", "No");
   ("Inquiry URL", "https://sourcing.alibaba.com/rfq?ID1001&lang=en");
   ("Inquiry Date", "08-01-2024"); ("Scraping Date", "20-01-2024")].

(** A transport that fails with an exception that is no
    [RequestException]. *)
Definition transport_crash : World -> string -> result Response :=
  fun _ _ => Raise ValueError.




(** A candidate whose link carries the id between other parameters. *)
Definition item_with_id : Bs4.node :=
  Bs4.Tag "div" (Some ["rfq-item"]) []
    [Bs4.Tag "a" None [("href", "/rfq/detail?spm=a27&ID4521-x&country=AE")]
       [Bs4.NavigableString "Need valves"]].

End Fixture.

(* ================================================================== *)
(** * Properties *)
(* ================================================================== *)

Example strftime_2024_01_20 :
  Datetime.strftime_dmy 4 (Datetime.of_ordinal 738905) = "20-01-2024".
Proof. reflexivity. Qed.

Example strftime_leap_day :
  Datetime.strftime_dmy 4 (Datetime.of_ordinal 738945) = "29-02-2024".
Proof. reflexivity. Qed.

Example strftime_last_day :
  Datetime.strftime_dmy 4 (Datetime.of_ordinal 3652059) = "31-12-9999".
Proof. reflexivity. Qed.

(** A year below 1000 on the two kinds of platform. *)
Example strftime_year_929 :
  Datetime.strftime_dmy 4 (Datetime.of_ordinal 339008) = "04-03-0929"
  /\ Datetime.strftime_dmy 1 (Datetime.of_ordinal 339008) = "04-03-929".
Proof. split; reflexivity. Qed.


(** ** get_page *)

Section GetPage.

Import Scraper Spec.

Variable transport : World -> string -> result Response.

Lemma attempt_get_error (url : string) (w : World) (e : exn) :
  transport_error (transport w url) = Some e ->
  attempt_get transport url w = (Raise e, w ++ [EvGet url])
  /\ is_RequestException e = true.
Proof.
  unfold transport_error, attempt_get, bind, session_get, lift, ret.
  destruct (transport w url) as [r|e0]; simpl.
  - unfold raise_for_status.
    destruct ((400 <=? status_code r)%Z && (status_code r <? 600)%Z);
      intros H; inversion H; subst; auto.
  - destruct (is_RequestException e0) eqn:He; intros H; inversion H; subst; auto.
Qed.

Lemma attempt_get_success (url : string) (w : World) (r : Response) :
  transport w url = Ok r -> raise_for_status r = Ok tt ->
  attempt_get transport url w = (Ok r, w ++ [EvGet url]).
Proof.
  intros Ht Hs. unfold attempt_get, bind, session_get, lift, ret.
  rewrite Ht, Hs. reflexivity.
Qed.

(** [k] failing attempts that are not the last one take the loop [k] rounds
    further and leave the back-off trace behind. *)
Lemma get_page_from_backoff (url : string) (retries : Z) :
  forall (k todo : nat) (a : Z) (w : World),
    (k <= todo)%nat ->
    (a + Z.of_nat k <= retries - 1)%Z ->
    (forall i, (i < k)%nat ->
       transport_error (transport (w ++ backoff_from url a i) url) <> None) ->
    get_page_from transport todo a url retries w
    = get_page_from transport (todo - k) (a + Z.of_nat k) url retries
        (w ++ backoff_from url a k).
Proof.
  induction k as [|k IH]; intros todo a w Hk Ha Hfail.
  - simpl. rewrite Nat.sub_0_r, Z.add_0_r, app_nil_r. reflexivity.
  - destruct todo as [|todo]; [lia|].
    assert (H0 : transport_error (transport w url) <> None).
    { specialize (Hfail 0%nat ltac:(lia)). simpl in Hfail.
      rewrite app_nil_r in Hfail. exact Hfail. }
    destruct (transport_error (transport w url)) as [e|] eqn:He; [|congruence].
    destruct (attempt_get_error url w e He) as [Hrun Hreq].
    cbn [get_page_from]. rewrite Hrun, Hreq.
    replace (a <? retries - 1)%Z with true by (symmetry; apply Z.ltb_lt; lia).
    unfold bind at 1, sleep at 1.
    rewrite (IH todo (a + 1)%Z).
    + cbn [backoff_from Nat.sub].
      rewrite <- app_assoc. cbn [app].
      f_equal; [lia|].
      rewrite <- app_assoc. reflexivity.
    + lia.
    + lia.
    + intros i Hi. specialize (Hfail (S i) ltac:(lia)).
      cbn [backoff_from] in Hfail.
      rewrite <- !app_assoc. cbn [app]. exact Hfail.
Qed.

Lemma attempts_backoff (url : string) (k : nat) (a : Z) :
  attempts (backoff_from url a k ++ [EvGet url]) = S k.
Proof.
  unfold attempts. revert a.
  induction k as [|k IH]; intros a; cbn; [reflexivity|].
  f_equal. apply IH.
Qed.

Lemma sleeps_backoff (url : string) (k : nat) (a : Z) :
  sleeps (backoff_from url a k ++ [EvGet url])
  = map (fun i => (2 ^ (a + Z.of_nat i))%Z) (seq 0 k).
Proof.
  revert a. induction k as [|k IH]; intros a; cbn -[Z.pow Z.of_nat]; [reflexivity|].
  rewrite Z.add_0_r. f_equal.
  rewrite IH, <- seq_shift, map_map.
  apply map_ext. intros i. f_equal. lia.
Qed.

(** C10. With a retry count of 0 [get_page] makes no HTTP attempt and
    returns [None] without raising: the log is unchanged and the result is
    neither a response nor an error. *)
Theorem get_page_zero_retries_returns_none (url : string) (w : World) :
  get_page transport url 0 w = (Ok None, w).
Proof. reflexivity. Qed.

(** C2 (amended). For a retry count of at least 1, when the attempts
    before the last one all fail with a transport error, [get_page] pauses
    [2^attempt] after each of them and makes the last attempt without a
    pause after it: if that one fails too its error is propagated, if it
    succeeds its response is returned.  Either way exactly [retries]
    attempts are made, with the pauses 1, 2, 4, ... between them. *)
Theorem get_page_retries_with_backoff (url : string) (retries : Z) (w : World) :
  (1 <= retries)%Z ->
  (forall i, (i < Z.to_nat retries - 1)%nat ->
     transport_error (transport (w ++ backoff_trace url i) url) <> None) ->
  (forall e,
     transport_error
       (transport (w ++ backoff_trace url (Z.to_nat retries - 1)) url) = Some e ->
     get_page transport url retries w
     = (Raise e, w ++ backoff_trace url (Z.to_nat retries - 1) ++ [EvGet url]))
  /\ (forall r,
     transport (w ++ backoff_trace url (Z.to_nat retries - 1)) url = Ok r ->
     raise_for_status r = Ok tt ->
     get_page transport url retries w
     = (Ok (Some r), w ++ backoff_trace url (Z.to_nat retries - 1) ++ [EvGet url]))
  /\ attempts (backoff_trace url (Z.to_nat retries - 1) ++ [EvGet url])
     = Z.to_nat retries
  /\ sleeps (backoff_trace url (Z.to_nat retries - 1) ++ [EvGet url])
     = map (fun i => (2 ^ Z.of_nat i)%Z) (seq 0 (Z.to_nat retries - 1)).
Proof.
  intros Hr Hfail.
  assert (Hloop :
    get_page transport url retries w
    = get_page_from transport 1 (retries - 1) url retries
        (w ++ backoff_trace url (Z.to_nat retries - 1))).
  { unfold get_page, backoff_trace.
    rewrite (get_page_from_backoff url retries (Z.to_nat retries - 1)
               (Z.to_nat retries) 0 w); [|lia|lia|exact Hfail].
    f_equal; lia. }
  split; [|split; [|split]].
  - intros e He. rewrite Hloop.
    destruct (attempt_get_error url _ e He) as [Hrun Hreq].
    cbn [get_page_from]. rewrite Hrun, Hreq, Z.ltb_irrefl, <- app_assoc.
    reflexivity.
  - intros r Ht Hs. rewrite Hloop.
    cbn [get_page_from].
    rewrite (attempt_get_success url _ r Ht Hs), <- app_assoc. reflexivity.
  - unfold backoff_trace. rewrite attempts_backoff. lia.
  - unfold backoff_trace. rewrite sleeps_backoff. reflexivity.
Qed.

End GetPage.

(** An endpoint that fails twice and then answers: three attempts, pauses
    of 1 and 2, the response returned.  An endpoint that is down: three
    attempts, the same pauses, the last error propagated. *)
Lemma get_page_retries_with_backoff_witness :
  Scraper.get_page Fixture.transport_flaky "u" 3 []
  = (Ok (Some Fixture.resp_ok),
     [EvGet "u"; EvSleep 1; EvGet "u"; EvSleep 2; EvGet "u"])
  /\ Scraper.get_page Fixture.transport_down "u" 3 []
     = (Raise (RequestException "connection refused"),
        [EvGet "u"; EvSleep 1; EvGet "u"; EvSleep 2; EvGet "u"]).
Proof.
  split.
  - assert (Hfail : forall i, (i < Z.to_nat 3 - 1)%nat ->
              Spec.transport_error
                (Fixture.transport_flaky ([] ++ Spec.backoff_trace "u" i) "u")
              <> None).
    { intros i Hi. destruct i as [|[|i]]; [discriminate|discriminate|].
      exfalso. revert Hi. vm_compute. lia. }
    destruct (get_page_retries_with_backoff Fixture.transport_flaky "u" 3 []
                ltac:(lia) Hfail) as [_ [Hok _]].
    exact (Hok Fixture.resp_ok eq_refl eq_refl).
  - assert (Hfail : forall i, (i < Z.to_nat 3 - 1)%nat ->
              Spec.transport_error
                (Fixture.transport_down ([] ++ Spec.backoff_trace "u" i) "u")
              <> None).
    { intros i _. discriminate. }
    destruct (get_page_retries_with_backoff Fixture.transport_down "u" 3 []
                ltac:(lia) Hfail) as [Hraise _].
    exact (Hraise (RequestException "connection refused") eq_refl).
Defined.

(** C2, as stated, fails for a retry count of 0: against an endpoint that
    is down no attempt is made and no failure is propagated, [None] is
    returned. *)
Lemma get_page_zero_retries_propagates_nothing :
  Scraper.get_page Fixture.transport_down "u" 0 [] = (Ok None, [])
  /\ ~ Spec.exhausts_then_raises Fixture.transport_down "u" 0 [].
Proof.
  split; [reflexivity|].
  intros H. destruct H as [e [w' Hrun]]; [intros w'; discriminate|].
  discriminate Hrun.
Qed.

(** ** scrape_all_pages *)

Section Crawl.

Import Scraper Spec.

Variable transport : World -> string -> result Response.
Variable clock : World -> Datetime.datetime.
Variable urljoin : string -> string -> result string.
Variable BeautifulSoup : string -> result Bs4.node.
Variable max_str_digits : nat.
Variable Timedelta_days : Number.number -> result Pandas.Timedelta.
Variable year_width : nat.

Local Abbreviation scrape_rfq_page' :=
  (scrape_rfq_page transport clock urljoin BeautifulSoup
      max_str_digits Timedelta_days year_width).
Local Abbreviation scrape_pages' :=
  (scrape_pages transport clock urljoin BeautifulSoup
      max_str_digits Timedelta_days year_width).
Local Abbreviation visit_all' :=
  (visit_all transport clock urljoin BeautifulSoup
      max_str_digits Timedelta_days year_width).

(** The page scraper catches everything: it always returns a list. *)
Lemma scrape_rfq_page_returns (url : string) (w : World) :
  exists page_data w', scrape_rfq_page' url w = (Ok page_data, w').
Proof.
  unfold scrape_rfq_page, try_except.
  match goal with
  | |- context [match ?c with _ => _ end] => destruct c as [[l|e] w']
  end; unfold ret; eauto.
Qed.

(** Pages that all yield records are passed one after the other. *)
Lemma scrape_pages_passes_nonempty :
  forall (before rest : list string) (acc : list Dict.dict) (w : World)
         (datas : list (list Dict.dict)) (w1 : World),
    visit_all' before w = (Ok datas, w1) ->
    Forall (fun page_data => page_data <> []) datas ->
    scrape_pages' (before ++ rest) acc w
    = scrape_pages' rest (acc ++ List.concat datas) w1.
Proof.
  induction before as [|url before IH]; intros rest acc w datas w1 Hvisit Hne.
  - cbn in Hvisit. inversion Hvisit; subst. cbn. rewrite app_nil_r. reflexivity.
  - cbn [visit_all] in Hvisit.
    cbn [app scrape_pages].
    unfold bind at 1 in Hvisit. unfold bind at 1.
    destruct (scrape_rfq_page_returns url w) as [page_data [wa Hpage]].
    rewrite Hpage in *.
    unfold bind at 1, sleep at 1 in Hvisit. unfold bind at 1, sleep at 1.
    unfold bind at 1 in Hvisit.
    destruct (visit_all' before (wa ++ [EvSleep 2])) as [[ds|e] wb] eqn:Hrest;
      [|discriminate].
    cbn in Hvisit. inversion Hvisit; subst.
    inversion Hne as [|? ? Hhead Htail]; subst.
    destruct page_data as [|d page_data]; [congruence|].
    rewrite (IH rest (acc ++ d :: page_data) _ ds w1 Hrest Htail).
    cbn [List.concat]. rewrite <- app_assoc. reflexivity.
Qed.

(** C3. When a page of the crawl plan yields zero records, the crawl ends
    with that page: the result is the records of the pages visited before
    it, page by page in visit order, and the log ends with the pause after
    the empty page, so none of the remaining pages is processed. *)
Theorem scrape_all_pages_stops_at_first_empty_page
    (start_url : string) (max_pages : Z) (w : World)
    (urls : list string) (w0 : World)
    (before : list string) (p : string) (after : list string)
    (datas : list (list Dict.dict)) (w1 w2 : World) :
  get_all_page_urls transport urljoin BeautifulSoup start_url w = (Ok urls, w0) ->
  slice_to max_pages urls = before ++ p :: after ->
  visit_all' before w0 = (Ok datas, w1) ->
  Forall (fun page_data => page_data <> []) datas ->
  scrape_rfq_page' p w1 = (Ok [], w2) ->
  scrape_all_pages transport clock urljoin BeautifulSoup
      max_str_digits Timedelta_days year_width start_url max_pages w
  = (Ok (List.concat datas), w2 ++ [EvSleep 2]).
Proof.
  intros Hurls Hslice Hvisit Hne Hempty.
  unfold scrape_all_pages. unfold bind at 1. rewrite Hurls, Hslice.
  rewrite (scrape_pages_passes_nonempty before (p :: after) [] w0 datas w1 Hvisit Hne).
  cbn [scrape_pages app].
  unfold bind at 1. rewrite Hempty.
  unfold bind at 1, sleep at 1. rewrite app_nil_r. reflexivity.
Qed.

End Crawl.

(** The site of three pages whose second page is empty: the result holds
    the record of the first page only, and the third page is never asked
    for. *)
Lemma scrape_all_pages_stops_at_first_empty_page_witness :
  Scraper.scrape_all_pages Fixture.transport_site Fixture.clock0 Fixture.urljoin0
    Fixture.BeautifulSoup_site
        Fixture.max_str_digits0 Fixture.Timedelta_days0 Fixture.year_width0
        Fixture.site_start 10 []
  = (Ok (List.concat [[Fixture.record1]]),
     [EvGet Fixture.site_start; EvGet Fixture.site_start; EvNow; EvNow;
      EvSleep 2; EvGet Fixture.site_page2] ++ [EvSleep 2]).
Proof.
  apply (scrape_all_pages_stops_at_first_empty_page
           Fixture.transport_site Fixture.clock0 Fixture.urljoin0
           Fixture.BeautifulSoup_site
               Fixture.max_str_digits0 Fixture.Timedelta_days0 Fixture.year_width0
               Fixture.site_start 10 []
           [Fixture.site_start; Fixture.site_page2; Fixture.site_page3]
           [EvGet Fixture.site_start]
           [Fixture.site_start] Fixture.site_page2 [Fixture.site_page3]
           [[Fixture.record1]]
           [EvGet Fixture.site_start; EvGet Fixture.site_start; EvNow; EvNow;
            EvSleep 2]).
  - vm_compute. reflexivity.
  - reflexivity.
  - vm_compute. reflexivity.
  - constructor; [discriminate | constructor].
  - vm_compute. reflexivity.
Defined.

(** ** save_to_csv *)

Section SaveToCsv.

Import Scraper Spec Pandas.

Lemma has_column_app (c : string) (l1 l2 : list string) :
  has_column c (l1 ++ l2) = has_column c l1 || has_column c l2.
Proof. unfold has_column. apply existsb_app. Qed.

Lemma has_column_In (c : string) (l : list string) :
  has_column c l = true <-> In c l.
Proof.
  unfold has_column. rewrite existsb_exists. split.
  - intros [x [Hin Heq]]. apply String.eqb_eq in Heq. subst. exact Hin.
  - intros Hin. exists c. split; [exact Hin | apply String.eqb_refl].
Qed.

Lemma dict_get_key (k : string) (d : Dict.dict) (v : string) :
  Dict.get k d = Some v -> In k (Dict.keys d).
Proof.
  induction d as [|[k' v'] d IH]; cbn; [discriminate|].
  destruct (String.eqb k k') eqn:Hk.
  - apply String.eqb_eq in Hk. auto.
  - auto.
Qed.

(** The labels collected from one dict: what was seen stays, its keys come. *)
Lemma collect_keys_spec (ks seen : list string) (c : string) :
  has_column c
    (fold_left (fun acc k => if has_column k acc then acc else acc ++ [k]) ks seen)
  = has_column c seen || has_column c ks.
Proof.
  revert seen. induction ks as [|k ks IH]; intros seen; cbn [fold_left].
  - cbn. rewrite orb_false_r. reflexivity.
  - rewrite IH. destruct (has_column k seen) eqn:Hk.
    + cbn [has_column existsb]. fold (has_column c ks).
      destruct (String.eqb c k) eqn:Hck; [|reflexivity].
      apply String.eqb_eq in Hck. subst. rewrite Hk. reflexivity.
    + rewrite has_column_app. cbn [has_column existsb].
      fold (has_column c ks). rewrite orb_false_r, orb_assoc. reflexivity.
Qed.

Lemma columns_of_spec (data : list Dict.dict) (seen : list string) (c : string) :
  has_column c (columns_of seen data)
  = has_column c seen || existsb (fun d => has_column c (Dict.keys d)) data.
Proof.
  revert seen. induction data as [|d data IH]; intros seen; cbn [columns_of existsb].
  - rewrite orb_false_r. reflexivity.
  - rewrite IH, collect_keys_spec, orb_assoc. reflexivity.
Qed.

Lemma ensure_columns_invariant (cols0 : list string) (data : list Dict.dict) :
  forall (want : list string) (df : DataFrame),
    rows df = map (fun d => map (cell_during cols0 d) (columns df)) data ->
    (forall c, has_column c cols0 = true -> has_column c (columns df) = true) ->
    let df' :=
      fold_left
        (fun df col =>
           if has_column col (columns df) then df else add_column col "" df)
        want df in
    rows df' = map (fun d => map (cell_during cols0 d) (columns df')) data
    /\ (forall c, In c want -> has_column c (columns df') = true)
    /\ (forall c, has_column c (columns df) = true ->
                  has_column c (columns df') = true).
Proof.
  induction want as [|col want IH]; intros df Hrows Hsub; cbn [fold_left].
  - split; [exact Hrows|]. split; [intros c []|auto].
  - destruct (has_column col (columns df)) eqn:Hcol.
    + destruct (IH df Hrows Hsub) as [H1 [H2 H3]].
      split; [exact H1|]. split; [|exact H3].
      intros c [Hc|Hc]; [subst; auto|auto].
    + assert (Hnew : has_column col cols0 = false).
      { destruct (has_column col cols0) eqn:H0; [|reflexivity].
        rewrite (Hsub col H0) in Hcol. discriminate. }
      destruct (IH (add_column col "" df)) as [H1 [H2 H3]].
      * cbn [add_column rows columns]. rewrite Hrows, map_map.
        apply map_ext. intros d. rewrite map_app. cbn [map].
        unfold cell_during at 3. rewrite Hnew. reflexivity.
      * intros c Hc. cbn [add_column columns]. rewrite has_column_app.
        rewrite (Hsub c Hc). reflexivity.
      * split; [exact H1|]. split.
        -- intros c [Hc|Hc]; [subst|auto].
           apply H3. cbn [add_column columns]. rewrite has_column_app.
           cbn. rewrite String.eqb_refl. apply orb_true_r.
        -- intros c Hc. apply H3. cbn [add_column columns].
           rewrite has_column_app, Hc. reflexivity.
Qed.

Lemma ensure_columns_spec (data : list Dict.dict) (df : DataFrame) :
  rows df = map (fun d => map (cell_during (columns df) d) (columns df)) data ->
  rows (ensure_columns df)
  = map (fun d => map (cell_during (columns df) d) (columns (ensure_columns df))) data
  /\ (forall c, In c required_columns ->
                has_column c (columns (ensure_columns df)) = true).
Proof.
  intros Hrows. unfold ensure_columns.
  destruct (ensure_columns_invariant (columns df) data required_columns df Hrows)
    as [H1 [H2 _]]; auto.
Qed.

Lemma cell_of_map (f : string -> option string) (c : string) (cols : list string) :
  has_column c cols = true -> cell_of c cols (map f cols) = Some (f c).
Proof.
  induction cols as [|c' cols IH]; cbn; [discriminate|].
  destruct (String.eqb c c') eqn:Hc.
  - apply String.eqb_eq in Hc. subst. reflexivity.
  - exact IH.
Qed.

Lemma select_row_map (f : string -> option string) (cols : list string) :
  forall want,
    (forall c, In c want -> has_column c cols = true) ->
    select_row want cols (map f cols) = map f want.
Proof.
  induction want as [|c want IH]; intros Hall; cbn [select_row map]; [reflexivity|].
  rewrite cell_of_map by (apply Hall; left; reflexivity).
  f_equal. apply IH. intros c' Hc'. apply Hall. right. exact Hc'.
Qed.

Lemma select_all_present (want : list string) (df : DataFrame) :
  (forall c, In c want -> has_column c (columns df) = true) ->
  select want df
  = Ok {| columns := want;
          rows := map (select_row want (columns df)) (rows df) |}.
Proof.
  intros Hall. unfold select.
  destruct (List.find (fun c => negb (has_column c (columns df))) want) as [c|] eqn:Hf;
    [|reflexivity].
  apply find_some in Hf. destruct Hf as [Hin Hneg].
  rewrite (Hall c Hin) in Hneg. discriminate.
Qed.

(** C9 (amended). For every non-empty list of records, of whatever keys,
    [save_to_csv] writes a table whose header is the sixteen required
    columns in their fixed order, with one row per record and sixteen fields
    per row; the field of a record under a column is its value, and the
    empty field when the record lacks the column.  For the empty list no
    table is produced and nothing is written. *)
Theorem save_to_csv_writes_the_sixteen_columns
    (data : list Dict.dict) (filename : string) (w : World) :
  (data <> [] -> writes_table data filename w)
  /\ save_to_csv [] filename w = (Ok None, w).
Proof.
  split; [|reflexivity].
  intros Hne. unfold writes_table.
  destruct data as [|d0 data0] eqn:Hdata; [congruence|]. rewrite <- Hdata.
  set (df0 := DataFrame_of_dicts data).
  destruct (ensure_columns_spec data df0) as [Hrows Hwant].
  { unfold df0, DataFrame_of_dicts. cbn [rows columns].
    apply map_ext. intros d. apply map_ext_in. intros c Hc.
    unfold cell_during. apply has_column_In in Hc. rewrite Hc. reflexivity. }
  assert (Hcsv : map (map field_of_cell)
                   (map (select_row required_columns (columns (ensure_columns df0)))
                        (rows (ensure_columns df0)))
                 = expected_rows data).
  { rewrite Hrows, !map_map. unfold expected_rows.
    apply map_ext_in. intros d Hd.
    rewrite select_row_map by exact Hwant.
    rewrite map_map. apply map_ext. intros c.
    unfold cell_during, field_of.
    destruct (has_column c (columns df0)) eqn:Hc; [reflexivity|].
    destruct (Dict.get c d) as [v|] eqn:Hget; [|reflexivity].
    exfalso. apply dict_get_key in Hget.
    unfold df0, DataFrame_of_dicts in Hc. cbn [columns] in Hc.
    rewrite columns_of_spec in Hc. cbn [has_column existsb orb] in Hc.
    assert (Hex : existsb (fun d => has_column c (Dict.keys d)) data = true).
    { apply existsb_exists. exists d. split; [exact Hd|].
      apply has_column_In. exact Hget. }
    rewrite Hex in Hc. discriminate. }
  eexists. split; [|split; [|split; [|split; [|split]]]].
  - rewrite Hdata at 1. cbn [save_to_csv]. rewrite <- Hdata. fold df0.
    unfold bind at 1, lift at 1.
    rewrite (select_all_present required_columns (ensure_columns df0) Hwant).
    unfold bind, to_csv, ret. cbn [columns]. unfold csv_rows. cbn [rows].
    rewrite Hcsv. reflexivity.
  - reflexivity.
  - unfold csv_rows. cbn [rows]. exact Hcsv.
  - reflexivity.
  - unfold expected_rows. apply length_map.
  - unfold expected_rows. apply Forall_forall. intros row Hrow.
    apply in_map_iff in Hrow. destruct Hrow as [d [Hd _]]. subst.
    rewrite length_map. reflexivity.
Qed.

End SaveToCsv.

(** Two records, one lacking every column but the title and one carrying a
    key that is no column. *)
Lemma save_to_csv_writes_the_sixteen_columns_witness :
  Spec.writes_table [[("Title", "x")]; [("Foo", "y"); ("Country", "AE")]]
    "alibaba_rfq_data.csv" [].
Proof.
  apply (save_to_csv_writes_the_sixteen_columns
           [[("Title", "x")]; [("Foo", "y"); ("Country", "AE")]]
           "alibaba_rfq_data.csv" []).
  discriminate.
Defined.

(** C9, as stated, fails for the empty result: the guard [if not data]
    returns before any table is built, and nothing is written. *)
Lemma save_to_csv_empty_result_writes_nothing :
  Scraper.save_to_csv [] "alibaba_rfq_data.csv" [] = (Ok None, [])
  /\ ~ Spec.writes_table [] "alibaba_rfq_data.csv" [].
Proof.
  split; [reflexivity|].
  intros [df [Hrun _]]. cbn in Hrun. discriminate.
Qed.

(** ** Steps that keep a property of the local variable *)

Section Keeps.

Import Spec.

Context {X : Type}.
Variable P : X -> Prop.

Lemma keeps_ret {A} (a : A) : keeps P (ret a).
Proof. intros x w H. exact H. Qed.

Lemma keeps_lift {A} (r : result A) : keeps P (lift r).
Proof. intros x w H. exact H. Qed.

Lemma keeps_read : keeps P (@read X).
Proof. intros x w H. exact H. Qed.

Lemma keeps_in_world {A} (c : M World A) : keeps P (in_world c).
Proof.
  intros x w H. unfold in_world. destruct (c w) as [r w']. exact H.
Qed.

Lemma keeps_bind {A B} (c : M (X * World) A)
    (k : A -> M (X * World) B) :
  keeps P c -> (forall a, keeps P (k a)) -> keeps P (bind c k).
Proof.
  intros Hc Hk x w H. unfold bind.
  specialize (Hc x w H).
  destruct (c (x, w)) as [[a|e] [x' w']]; cbn in Hc.
  - apply Hk. exact Hc.
  - exact Hc.
Qed.

Lemma keeps_try_except {A} (c : M (X * World) A)
    (h : exn -> M (X * World) A) :
  keeps P c -> (forall e, keeps P (h e)) -> keeps P (try_except c h).
Proof.
  intros Hc Hh x w H. unfold try_except.
  specialize (Hc x w H).
  destruct (c (x, w)) as [[a|e] [x' w']]; cbn in Hc.
  - exact Hc.
  - apply Hh. exact Hc.
Qed.

End Keeps.

(** ** get_all_page_urls *)

Section Discovery.

Import Scraper Spec.

Variable transport : World -> string -> result Response.
Variable urljoin : string -> string -> result string.
Variable BeautifulSoup : string -> result Bs4.node.


Lemma in_list_In (x : string) (l : list string) :
  in_list x l = false -> ~ In x l.
Proof.
  unfold in_list. intros H Hin.
  assert (Ht : existsb (String.eqb x) l = true).
  { apply existsb_exists. exists x. split; [exact Hin | apply String.eqb_refl]. }
  congruence.
Qed.

Lemma plan_for_append (start u : string) (urls : list string) :
  plan_for start urls -> ~ In u urls -> plan_for start (urls ++ [u]).
Proof.
  intros [Hhd Hnd] Hnew. split.
  - destruct urls as [|x urls]; [discriminate | exact Hhd].
  - apply NoDup_app; [exact Hnd | repeat constructor; intros [] | ].
    intros a Ha [Hb|[]]. subst. exact (Hnew Ha).
Qed.

Lemma keeps_append_new (start u : string) :
  keeps (plan_for start) (append_new u).
Proof.
  intros urls w H. unfold append_new, bind, read.
  destruct (in_list u urls) eqn:Hin; cbn.
  - exact H.
  - apply plan_for_append; [exact H | apply in_list_In; exact Hin].
Qed.

Lemma keeps_collect_page_links (start : string) (page_links : list Bs4.node) :
  keeps (plan_for start) (collect_page_links urljoin page_links).
Proof.
  induction page_links as [|link rest IH]; cbn [collect_page_links].
  - apply keeps_ret.
  - apply keeps_bind; [apply keeps_lift|]. intros href.
    apply keeps_bind; [|intros _; exact IH].
    destruct (Text.contains "page" (Text.lower href)
              || Re.matches false re_p_param href).
    + apply keeps_bind; [apply keeps_lift|]. intros u. apply keeps_append_new.
    + apply keeps_ret.
Qed.

Lemma keeps_discover (start base_url : string) :
  keeps (plan_for start) (discover transport urljoin BeautifulSoup base_url).
Proof.
  unfold discover.
  apply keeps_bind; [apply keeps_in_world|]. intros response.
  apply keeps_bind; [apply keeps_lift|]. intros html.
  apply keeps_bind; [apply keeps_lift|]. intros soup.
  apply keeps_bind.
  - destruct (Bs4.find _ soup); [apply keeps_collect_page_links | apply keeps_ret].
  - intros _. destruct (Bs4.find _ soup) as [next_link|]; [|apply keeps_ret].
    destruct (Bs4.get "href" next_link) as [h|]; [|apply keeps_ret].
    destruct (Text.nonempty h); [|apply keeps_ret].
    apply keeps_bind; [apply keeps_lift|]. intros href.
    apply keeps_bind; [apply keeps_lift|]. intros u. apply keeps_append_new.
Qed.


End Discovery.



(** ** extract_rfq_data and scrape_rfq_page *)

Section DictFacts.

Lemma get_set_eq (k v : string) (d : Dict.dict) :
  Dict.get k (Dict.set k v d) = Some v.
Proof.
  induction d as [|[k' v'] d IH]; cbn.
  - rewrite String.eqb_refl. reflexivity.
  - destruct (String.eqb k k') eqn:E; cbn; rewrite ?String.eqb_refl, ?E; auto.
Qed.

Lemma get_set_ne (c k v : string) (d : Dict.dict) :
  String.eqb c k = false -> Dict.get c (Dict.set k v d) = Dict.get c d.
Proof.
  intros Hck. induction d as [|[k' v'] d IH]; cbn.
  - rewrite Hck. reflexivity.
  - destruct (String.eqb k k') eqn:E; cbn.
    + apply String.eqb_eq in E. subst k'. rewrite Hck. reflexivity.
    + rewrite IH. reflexivity.
Qed.

Lemma keys_set_present (k v : string) (d : Dict.dict) :
  In k (Dict.keys d) -> Dict.keys (Dict.set k v d) = Dict.keys d.
Proof.
  unfold Dict.keys. induction d as [|[k' v'] d IH]; cbn; [intros []|].
  destruct (String.eqb k k') eqn:E; cbn.
  - apply String.eqb_eq in E. subst. reflexivity.
  - intros [H|H]; [subst; rewrite String.eqb_refl in E; discriminate|].
    rewrite IH by exact H. reflexivity.
Qed.

Lemma set_same (k v : string) (d : Dict.dict) :
  Dict.get k d = Some v -> Dict.set k v d = d.
Proof.
  induction d as [|[k' v'] d IH]; cbn; [discriminate|].
  destruct (String.eqb k k') eqn:E.
  - apply String.eqb_eq in E. intros H. inversion H. subst. reflexivity.
  - intros H. rewrite IH by exact H. reflexivity.
Qed.

Lemma get_in_keys (k : string) (d : Dict.dict) :
  In k (Dict.keys d) -> exists v, Dict.get k d = Some v.
Proof.
  unfold Dict.keys. induction d as [|[k' v'] d IH]; cbn; [intros []|].
  destruct (String.eqb k k') eqn:E; [eauto|].
  intros [H|H]; [subst; rewrite String.eqb_refl in E; discriminate | auto].
Qed.

End DictFacts.

Section Records.

Import Scraper Spec.

Variable clock : World -> Datetime.datetime.
Variable urljoin : string -> string -> result string.
Variable max_str_digits : nat.
Variable Timedelta_days : Number.number -> result Pandas.Timedelta.
Variable year_width : nat.

Local Abbreviation extract_fields' := (extract_fields clock urljoin
    max_str_digits Timedelta_days year_width).
Local Abbreviation extract_rfq_data' := (extract_rfq_data clock urljoin
    max_str_digits Timedelta_days year_width).
Local Abbreviation extraction_end' := (extraction_end clock urljoin
    max_str_digits Timedelta_days year_width).

(** *** Properties kept by [data[k] = v] *)

Lemma keeps_set_item_keys (k v : string) :
  In k required_columns ->
  keeps (fun d => Dict.keys d = required_columns) (set_item k v).
Proof.
  intros Hk d w H. unfold set_item, modify. cbn [fst snd].
  rewrite keys_set_present; [exact H | rewrite H; exact Hk].
Qed.

Lemma keeps_set_item_other (c k v : string) (o : option string) :
  String.eqb c k = false ->
  keeps (fun d => Dict.get c d = o) (set_item k v).
Proof.
  intros Hck d w H. unfold set_item, modify. cbn [fst snd].
  rewrite get_set_ne by exact Hck. exact H.
Qed.

Lemma keeps_set_item_flag (c k v : string) :
  String.eqb c k = false \/ v = "Yes" ->
  keeps (fun d => Dict.get c d = Some "Yes" \/ Dict.get c d = Some "No")
        (set_item k v).
Proof.
  intros Hside d w H. unfold set_item, modify. cbn [fst snd].
  destruct (String.eqb c k) eqn:Hck.
  - destruct Hside as [Hf|Hv]; [discriminate|]. subst v.
    apply String.eqb_eq in Hck. subst k. left. apply get_set_eq.
  - rewrite get_set_ne by exact Hck. exact H.
Qed.

Lemma keeps_set_item_date_follows (k v : string) :
  String.eqb "Inquiry Time" k = false ->
  String.eqb "Inquiry Date" k = false ->
  keeps date_follows_time (set_item k v).
Proof.
  intros H1 H2 d w H. unfold set_item, modify. cbn [fst snd].
  unfold date_follows_time in *. intros t.
  rewrite !get_set_ne by assumption. apply H.
Qed.

(** Walks through a step of the extraction: every branch ends in a
    return, a lifted result, the normaliser or an assignment, and
    [solve_set] settles the assignments. *)
Ltac keeps_auto solve_set :=
  repeat first
    [ apply keeps_ret
    | apply keeps_lift
    | apply keeps_in_world
    | apply keeps_bind; [|intros ?]
    | solve_set
    | match goal with
      | |- keeps _ (match ?o with _ => _ end) => destruct o
      | |- keeps _ (if ?b then _ else _) => destruct b
      end ].

Ltac unfold_steps :=
  unfold extract_link, extract_title, extract_buyer, extract_image,
         extract_time, extract_quotes, extract_country, extract_quantity,
         extract_flag.

Ltac split_steps :=
  unfold extract_fields; repeat (apply keeps_bind; [|intros _]).

Lemma extract_fields_keeps_keys (el : Bs4.node) :
  keeps (fun d => Dict.keys d = required_columns) (extract_fields' el).
Proof.
  split_steps; unfold_steps;
    keeps_auto ltac:(apply keeps_set_item_keys; cbn; tauto).
Qed.

Lemma extract_fields_keeps_flag (c : string) (el : Bs4.node) :
  In c flag_columns ->
  keeps (fun d => Dict.get c d = Some "Yes" \/ Dict.get c d = Some "No")
        (extract_fields' el).
Proof.
  intros Hc. cbn in Hc.
  destruct Hc as [Hc|[Hc|[Hc|[Hc|[Hc|[]]]]]]; subst c;
    split_steps; unfold_steps;
    keeps_auto ltac:(apply keeps_set_item_flag;
                     first [left; reflexivity | right; reflexivity]).
Qed.

(** *** The run of [extract_rfq_data] *)

Lemma extract_rfq_data_run (el : Bs4.node) (w : World) :
  extract_rfq_data' el w
  = (Ok (fst (extraction_end' el w)), snd (extraction_end' el w)).
Proof.
  unfold extract_rfq_data, extraction_end, bind, datetime_now.
  destruct (try_except _ _ _) as [r [d w']]. reflexivity.
Qed.

Lemma record_of_extract (el : Bs4.node) (w : World) :
  record_of (extract_rfq_data' el w) = fst (extraction_end' el w).
Proof. rewrite extract_rfq_data_run. reflexivity. Qed.

(** A property of the initial dict that every step keeps holds of the
    record. *)
Lemma extract_rfq_data_keeps (P : Dict.dict -> Prop) (el : Bs4.node) (w : World) :
  keeps P (extract_fields' el) ->
  P (initial_data (Datetime.strftime_dmy year_width (clock w))) ->
  P (record_of (extract_rfq_data' el w)).
Proof.
  intros Hk H0. rewrite record_of_extract. unfold extraction_end.
  apply (keeps_try_except P _ _ Hk (fun e => keeps_ret P tt) _ _ H0).
Qed.

Lemma extract_rfq_data_rectangular (el : Bs4.node) (w : World) :
  rectangular (record_of (extract_rfq_data' el w)).
Proof.
  assert (Hkeys : Dict.keys (record_of (extract_rfq_data' el w)) = required_columns).
  { apply (extract_rfq_data_keeps (fun d => Dict.keys d = required_columns));
      [apply extract_fields_keeps_keys | reflexivity]. }
  split; [exact Hkeys|]. split.
  - intros col Hcol. apply get_in_keys. rewrite Hkeys. exact Hcol.
  - intros col Hcol.
    apply (extract_rfq_data_keeps
             (fun d => Dict.get col d = Some "Yes" \/ Dict.get col d = Some "No"));
      [apply extract_fields_keeps_flag; exact Hcol|].
    cbn in Hcol. destruct Hcol as [Hc|[Hc|[Hc|[Hc|[Hc|[]]]]]]; subst col;
      right; reflexivity.
Qed.

(** A field whose lookup finds nothing is left at its default, whatever
    happens to the other fields. *)
Lemma extract_rfq_data_miss_default
    (col : string) (look : Bs4.node -> option Bs4.node)
    (el : Bs4.node) (w : World) :
  In (col, look) lookups -> look el = None ->
  Dict.get col (record_of (extract_rfq_data' el w)) = Some (default_of col).
Proof.
  intros Hin Hmiss.
  apply (extract_rfq_data_keeps (fun d => Dict.get col d = Some (default_of col))).
  - unfold lookups in Hin. cbn [In] in Hin.
    repeat (destruct Hin as [Hin|Hin];
            [ injection Hin as Hcol Hlook; subst col look;
              split_steps; unfold_steps; try rewrite Hmiss;
              solve [keeps_auto ltac:(apply keeps_set_item_other; reflexivity)]
            | ]).
    contradiction.
  - unfold lookups in Hin. cbn [In] in Hin.
    repeat (destruct Hin as [Hin|Hin];
            [injection Hin as Hcol Hlook; subst col look; reflexivity|]).
    contradiction.
Qed.

Lemma find_href_needs_anchor (el : Bs4.node) :
  Bs4.find (Bs4.by_name ["a"]) el = None ->
  Bs4.find (Bs4.with_href ["a"]) el = None.
Proof.
  unfold Bs4.find. intros Hnone.
  destruct (List.find (Bs4.tag_matches (Bs4.with_href ["a"])) (Bs4.descendants el))
    as [a|] eqn:Hfind; [|reflexivity].
  apply find_some in Hfind. destruct Hfind as [Hin Hm].
  pose proof (find_none _ _ Hnone a Hin) as Hno.
  destruct a as [t|name cls attrs cs]; [discriminate|].
  cbn in Hm, Hno.
  destruct (String.eqb name "a"); cbn in Hm, Hno; discriminate.
Qed.

(** *** The loop over the containers *)

Lemma scan_containers_skips (el : Bs4.node) (rest : list Bs4.node)
    (acc : list Dict.dict) (w : World) :
  Bs4.find (Bs4.with_href ["a"]) el = None ->
  scan_containers clock urljoin
      max_str_digits Timedelta_days year_width (el :: rest) acc w
  = scan_containers clock urljoin
      max_str_digits Timedelta_days year_width rest acc w.
Proof. intros H. cbn [scan_containers]. rewrite H. reflexivity. Qed.

Lemma scan_containers_records (containers : list Bs4.node) :
  forall (acc : list Dict.dict) (w : World),
  exists out w',
    scan_containers clock urljoin
        max_str_digits Timedelta_days year_width containers acc w = (Ok out, w')
    /\ (Forall (fun d => has_title d /\ rectangular d
                         /\ absent_fields_default clock urljoin
                             max_str_digits Timedelta_days year_width d) acc ->
        Forall (fun d => has_title d /\ rectangular d
                         /\ absent_fields_default clock urljoin
                             max_str_digits Timedelta_days year_width d) out).
Proof.
  induction containers as [|el rest IH]; intros acc w; cbn [scan_containers].
  - exists acc, w. split; [reflexivity | auto].
  - destruct (Bs4.find (Bs4.with_href ["a"]) el) as [a|] eqn:Ha; [|apply IH].
    unfold bind at 1. rewrite extract_rfq_data_run.
    set (d := fst (extraction_end' el w)).
    set (w1 := snd (extraction_end' el w)).
    assert (Hd : d = record_of (extract_rfq_data' el w)).
    { rewrite record_of_extract. reflexivity. }
    pose proof (extract_rfq_data_rectangular el w) as Hrect. rewrite <- Hd in Hrect.
    destruct Hrect as [Hkeys [Hall Hflags]].
    destruct (Hall "Title") as [t Ht]; [cbn; tauto|].
    unfold bind at 1, lift at 1, dict_getitem. rewrite Ht.
    destruct (Text.nonempty t) eqn:Hne; [|apply IH].
    destruct (IH (acc ++ [d]) w1) as [out [w' [Hrun Hgood]]].
    exists out, w'. split; [exact Hrun|].
    intros Hacc. apply Hgood. apply Forall_app. split; [exact Hacc|].
    constructor; [|constructor].
    split; [|split].
    + exists t. split; [exact Ht|]. intros E. subst t. discriminate.
    + split; [exact Hkeys | split; [exact Hall | exact Hflags]].
    + exists el, w. split; [rewrite Ha; discriminate|]. split; [exact Hd|].
      intros col look Hin Hmiss. rewrite Hd.
      apply extract_rfq_data_miss_default with (look := look); assumption.
Qed.

(** *** The run when no step raises *)

Lemma find_with_href_get (names : list string) (el a : Bs4.node) :
  Bs4.find (Bs4.with_href names) el = Some a ->
  exists h, Bs4.get "href" a = Some h.
Proof.
  unfold Bs4.find. intros Hfind. apply find_some in Hfind.
  destruct Hfind as [_ Hm].
  destruct a as [t|name cls attrs cs]; [discriminate|].
  cbn in Hm. cbn [Bs4.get].
  destruct (Bs4.attr_get "href" attrs) as [h|]; [eauto|].
  rewrite andb_false_r in Hm. discriminate.
Qed.

Lemma extract_link_run (el : Bs4.node) (d : Dict.dict) (w : World) :
  link_resolves urljoin el ->
  Dict.get "RFQ ID" d = Some "" -> Dict.get "Inquiry URL" d = Some "" ->
  extract_link urljoin el (d, w)
  = (Ok tt, (Dict.set "RFQ ID" (id_of el)
               (Dict.set "Inquiry URL" (url_of urljoin el) d), w)).
Proof.
  intros Hres Hid Hurl.
  unfold extract_link, id_of, url_of, href_of. unfold link_resolves, href_of in Hres.
  destruct (Bs4.find (Bs4.with_href ["a"]) el) as [a|] eqn:Ha.
  - destruct (find_with_href_get _ _ _ Ha) as [h Hh].
    destruct (Hres h Hh) as [u Hu].
    unfold bind at 1, lift at 1, getitem. rewrite Hh.
    unfold bind at 1, lift at 1. rewrite Hu.
    unfold bind at 1, set_item at 1, modify.
    destruct (Text.contains "ID" h);
      [destruct (Re.search re_id h)|]; unfold set_item, modify, ret;
      try reflexivity;
      rewrite (set_same "RFQ ID" "") by (rewrite get_set_ne by reflexivity; exact Hid);
      reflexivity.
  - unfold ret. rewrite (set_same "Inquiry URL" "") by exact Hurl.
    rewrite (set_same "RFQ ID" "") by exact Hid. reflexivity.
Qed.

Lemma extract_title_run (el : Bs4.node) (d : Dict.dict) (w : World) :
  Dict.get "Title" d = Some "" ->
  extract_title el (d, w)
  = (Ok tt, (Dict.set "Title" (text_or_empty (find_title el)) d, w)).
Proof.
  intros H. unfold extract_title, text_or_empty.
  destruct (find_title el); unfold set_item, modify, ret;
    [reflexivity | rewrite set_same by exact H; reflexivity].
Qed.

Lemma extract_buyer_run (el : Bs4.node) (d : Dict.dict) (w : World) :
  Dict.get "Buyer Name" d = Some "" ->
  extract_buyer el (d, w)
  = (Ok tt,
     (Dict.set "Buyer Name"
        (text_or_empty (Bs4.find (Bs4.by_class ["span"; "div"] re_buyer) el)) d,
      w)).
Proof.
  intros H. unfold extract_buyer, text_or_empty.
  destruct (Bs4.find _ el); unfold set_item, modify, ret;
    [reflexivity | rewrite set_same by exact H; reflexivity].
Qed.

Lemma extract_image_run (el : Bs4.node) (d : Dict.dict) (w : World) :
  Dict.get "Buyer Image" d = Some "" ->
  extract_image el (d, w)
  = (Ok tt, (Dict.set "Buyer Image" (image_of el) d, w)).
Proof.
  intros H. unfold extract_image, image_of.
  destruct (Bs4.find _ el) as [img|];
    [destruct (Bs4.get "src" img) as [src|] eqn:Hsrc; [destruct src as [|c src]|]|];
    cbn [Text.nonempty];
    try (unfold ret; rewrite set_same by exact H; reflexivity).
  unfold bind, lift, getitem. rewrite Hsrc. reflexivity.
Qed.

Lemma extract_time_run (el : Bs4.node) (d : Dict.dict) (w : World) :
  time_normalises clock max_str_digits Timedelta_days year_width el w ->
  Dict.get "Inquiry Time" d = Some "" -> Dict.get "Inquiry Date" d = Some "" ->
  exists w',
    extract_time clock max_str_digits Timedelta_days year_width el (d, w)
    = (Ok tt, (Dict.set "Inquiry Date" (date_of clock
        max_str_digits Timedelta_days year_width el w)
                 (Dict.set "Inquiry Time" (time_text_of el) d), w')).
Proof.
  intros Hnorm Htime Hdate.
  unfold extract_time, date_of, time_text_of, text_or_empty.
  unfold time_normalises in Hnorm.
  destruct (Bs4.find _ el) as [e|].
  - destruct (Hnorm e eq_refl) as [date Hd].
    destruct (parse_time_ago clock
        max_str_digits Timedelta_days year_width
        (Bs4.get_text_strip e) w) as [r w'] eqn:Hrun.
    cbn [fst] in Hd. subst r. exists w'.
    unfold bind at 1, set_item at 1, modify.
    unfold bind at 1, in_world. rewrite Hrun. reflexivity.
  - exists w. unfold ret.
    rewrite (set_same "Inquiry Time" "") by exact Htime.
    rewrite (set_same "Inquiry Date" "") by exact Hdate. reflexivity.
Qed.

Lemma extract_quotes_run (el : Bs4.node) (d : Dict.dict) (w : World) :
  Dict.get "Quotes Left" d = Some "" ->
  extract_quotes el (d, w)
  = (Ok tt, (Dict.set "Quotes Left" (quotes_of el) d, w)).
Proof.
  intros H. unfold extract_quotes, quotes_of.
  destruct (Bs4.find _ el) as [e|];
    [destruct (Re.search re_number (Bs4.get_text_strip e))|];
    unfold set_item, modify, ret;
    first [reflexivity | rewrite set_same by exact H; reflexivity].
Qed.

Lemma extract_country_run (el : Bs4.node) (d : Dict.dict) (w : World) :
  Dict.get "Country" d = Some "" ->
  extract_country el (d, w)
  = (Ok tt,
     (Dict.set "Country"
        (text_or_empty (Bs4.find (Bs4.by_class ["span"; "div"] re_country) el)) d,
      w)).
Proof.
  intros H. unfold extract_country, text_or_empty.
  destruct (Bs4.find _ el); unfold set_item, modify, ret;
    [reflexivity | rewrite set_same by exact H; reflexivity].
Qed.

Lemma extract_quantity_run (el : Bs4.node) (d : Dict.dict) (w : World) :
  Dict.get "Quantity Required" d = Some "" ->
  extract_quantity el (d, w)
  = (Ok tt,
     (Dict.set "Quantity Required"
        (text_or_empty
           (Bs4.find (Bs4.by_string ["span"; "div"] false re_quantity) el)) d,
      w)).
Proof.
  intros H. unfold extract_quantity, text_or_empty.
  destruct (Bs4.find _ el); unfold set_item, modify, ret;
    [reflexivity | rewrite set_same by exact H; reflexivity].
Qed.

Lemma extract_flag_run (k : string) (r : Re.regex) (el : Bs4.node)
    (d : Dict.dict) (w : World) :
  Dict.get k d = Some "No" ->
  extract_flag k r el (d, w) = (Ok tt, (Dict.set k (flag_of r el) d, w)).
Proof.
  intros H. unfold extract_flag, flag_of.
  destruct (Bs4.find _ el); unfold set_item, modify, ret;
    [reflexivity | rewrite set_same by exact H; reflexivity].
Qed.

(** The value of a key that the assignments made so far did not touch. *)
Ltac untouched := repeat rewrite get_set_ne by reflexivity; reflexivity.

Lemma extract_fields_run (el : Bs4.node) (today : string) (w : World) :
  link_resolves urljoin el ->
  time_normalises clock max_str_digits Timedelta_days year_width el w ->
  exists w',
    extract_fields' el (initial_data today, w)
    = (Ok tt, (record_with urljoin el (date_of clock
        max_str_digits Timedelta_days year_width el w) today, w')).
Proof.
  intros Hlink Htime.
  destruct (extract_time_run el
              (Dict.set "Buyer Image" (image_of el)
                 (Dict.set "Buyer Name"
                    (text_or_empty
                       (Bs4.find (Bs4.by_class ["span"; "div"] re_buyer) el))
                    (Dict.set "Title" (text_or_empty (find_title el))
                       (Dict.set "RFQ ID" (id_of el)
                          (Dict.set "Inquiry URL" (url_of urljoin el)
                             (initial_data today))))))
              w Htime) as [w' Ht]; [untouched | untouched |].
  exists w'. unfold extract_fields.
  unfold bind at 1. rewrite extract_link_run by (exact Hlink || reflexivity).
  unfold bind at 1. rewrite extract_title_run by untouched.
  unfold bind at 1. rewrite extract_buyer_run by untouched.
  unfold bind at 1. rewrite extract_image_run by untouched.
  unfold bind at 1. rewrite Ht.
  unfold bind at 1. rewrite extract_quotes_run by untouched.
  unfold bind at 1. rewrite extract_country_run by untouched.
  unfold bind at 1. rewrite extract_quantity_run by untouched.
  unfold bind at 1. rewrite extract_flag_run by untouched.
  unfold bind at 1. rewrite extract_flag_run by untouched.
  unfold bind at 1. rewrite extract_flag_run by untouched.
  unfold bind at 1. rewrite extract_flag_run by untouched.
  rewrite extract_flag_run by untouched.
  reflexivity.
Qed.

(** *** The run when a step raises *)

Lemma extract_link_raises (el : Bs4.node) (d : Dict.dict) (w : World) :
  link_raises urljoin el ->
  exists ex, extract_link urljoin el (d, w) = (Raise ex, (d, w)).
Proof.
  intros [href [ex [Hhref Hraise]]]. exists ex.
  unfold extract_link. unfold href_of in Hhref.
  destruct (Bs4.find (Bs4.with_href ["a"]) el) as [a|]; [|discriminate].
  unfold bind at 1, lift at 1, getitem. rewrite Hhref.
  unfold bind at 1, lift at 1. rewrite Hraise. reflexivity.
Qed.

Lemma extract_time_raises (el : Bs4.node) (d : Dict.dict) (w : World) :
  time_raises clock max_str_digits Timedelta_days year_width el w ->
  exists ex w',
    extract_time clock max_str_digits Timedelta_days year_width el (d, w)
    = (Raise ex, (Dict.set "Inquiry Time" (time_text_of el) d, w')).
Proof.
  intros [e [ex [Hfind Hraise]]].
  unfold extract_time, time_text_of, text_or_empty. rewrite Hfind.
  destruct (parse_time_ago clock
      max_str_digits Timedelta_days year_width
      (Bs4.get_text_strip e) w) as [r w'] eqn:Hrun.
  cbn [fst] in Hraise. subst r. exists ex, w'.
  unfold bind at 1, set_item at 1, modify.
  unfold bind at 1, in_world. rewrite Hrun. reflexivity.
Qed.

Lemma extract_fields_link_raises (el : Bs4.node) (today : string) (w : World) :
  link_raises urljoin el ->
  exists ex,
    extract_fields' el (initial_data today, w)
    = (Raise ex, (initial_data today, w)).
Proof.
  intros Hlink.
  destruct (extract_link_raises el (initial_data today) w Hlink) as [ex Hrun].
  exists ex. unfold extract_fields. unfold bind at 1. rewrite Hrun. reflexivity.
Qed.

Lemma extract_fields_time_raises (el : Bs4.node) (today : string) (w : World) :
  link_resolves urljoin el ->
  time_raises clock max_str_digits Timedelta_days year_width el w ->
  exists ex w',
    extract_fields' el (initial_data today, w)
    = (Raise ex, (record_until_time urljoin el today, w')).
Proof.
  intros Hlink Htime.
  destruct (extract_time_raises el
              (Dict.set "Buyer Image" (image_of el)
                 (Dict.set "Buyer Name"
                    (text_or_empty
                       (Bs4.find (Bs4.by_class ["span"; "div"] re_buyer) el))
                    (Dict.set "Title" (text_or_empty (find_title el))
                       (Dict.set "RFQ ID" (id_of el)
                          (Dict.set "Inquiry URL" (url_of urljoin el)
                             (initial_data today))))))
              w Htime) as [ex [w' Ht]].
  exists ex, w'. unfold extract_fields.
  unfold bind at 1. rewrite extract_link_run by (exact Hlink || reflexivity).
  unfold bind at 1. rewrite extract_title_run by untouched.
  unfold bind at 1. rewrite extract_buyer_run by untouched.
  unfold bind at 1. rewrite extract_image_run by untouched.
  unfold bind at 1. rewrite Ht.
  reflexivity.
Qed.

(** C5 (amended). [extract_rfq_data] never raises: it returns a dict for
    every node.  A field whose lookup finds no element is left at its
    default, whatever happens to the other fields.  When no step raises,
    that is when the URL of the anchor resolves and the time text
    normalises, every field of the record is the value extracted for it on
    its own.  When a step raises, the one [except] clause ends the
    extraction of the whole record: if resolving the URL raises, every
    field is at its default; if normalising the time raises, the fields up
    to the inquiry time are extracted and the later ones are at their
    defaults. *)
Theorem extract_rfq_data_never_raises_and_misses_are_local
    (el : Bs4.node) (w : World) :
  (exists d w', extract_rfq_data' el w = (Ok d, w'))
  /\ (forall col look,
        In (col, look) lookups -> look el = None ->
        Dict.get col (record_of (extract_rfq_data' el w)) = Some (default_of col))
  /\ (link_resolves urljoin el ->
      time_normalises clock
          max_str_digits Timedelta_days year_width el (w ++ [EvNow]) ->
      every_field_on_its_own clock urljoin
          max_str_digits Timedelta_days year_width el w)
  /\ (link_raises urljoin el ->
      record_of (extract_rfq_data' el w)
      = initial_data (Datetime.strftime_dmy year_width (clock w)))
  /\ (link_resolves urljoin el ->
      time_raises clock
          max_str_digits Timedelta_days year_width el (w ++ [EvNow]) ->
      record_of (extract_rfq_data' el w)
      = record_until_time urljoin el (Datetime.strftime_dmy year_width (clock w))).
Proof.
  split; [|split; [|split; [|split]]].
  - rewrite extract_rfq_data_run. eauto.
  - intros col look Hin Hmiss.
    apply extract_rfq_data_miss_default with (look := look); assumption.
  - intros Hlink Htime. unfold every_field_on_its_own, expected_record.
    rewrite record_of_extract. unfold extraction_end, try_except.
    destruct (extract_fields_run el (Datetime.strftime_dmy year_width (clock w))
                (w ++ [EvNow]) Hlink Htime) as [w' Hrun].
    destruct (extract_fields' el _) as [r st].
    inversion Hrun. reflexivity.
  - intros Hlink.
    rewrite record_of_extract. unfold extraction_end, try_except.
    destruct (extract_fields_link_raises el (Datetime.strftime_dmy year_width (clock w))
                (w ++ [EvNow]) Hlink) as [ex Hrun].
    destruct (extract_fields' el _) as [r st].
    inversion Hrun. reflexivity.
  - intros Hlink Htime.
    rewrite record_of_extract. unfold extraction_end, try_except.
    destruct (extract_fields_time_raises el (Datetime.strftime_dmy year_width (clock w))
                (w ++ [EvNow]) Hlink Htime) as [ex [w' Hrun]].
    destruct (extract_fields' el _) as [r st].
    inversion Hrun. reflexivity.
Qed.

(** *** Anchors *)

(** C8 (amended). A node with no anchor element gives a record whose
    inquiry URL and RFQ id are empty, and as a container it is passed over
    by the loop of [scrape_rfq_page] before any extraction, because it has
    no anchor with an href: the loop goes on with the same records and the
    same log, whatever the title of the node is. *)
Theorem anchorless_node_has_no_link_and_is_skipped (el : Bs4.node) :
  Bs4.find (Bs4.by_name ["a"]) el = None ->
  (forall w,
     Dict.get "Inquiry URL" (record_of (extract_rfq_data' el w)) = Some ""
     /\ Dict.get "RFQ ID" (record_of (extract_rfq_data' el w)) = Some "")
  /\ (forall rest acc w,
        scan_containers clock urljoin
            max_str_digits Timedelta_days year_width (el :: rest) acc w
        = scan_containers clock urljoin
            max_str_digits Timedelta_days year_width rest acc w).
Proof.
  intros Hno. pose proof (find_href_needs_anchor el Hno) as Hhref.
  split.
  - intros w. split.
    + apply (extract_rfq_data_miss_default "Inquiry URL"
               (Bs4.find (Bs4.with_href ["a"])) el w); [|exact Hhref].
      unfold lookups. cbn [In]. tauto.
    + apply (extract_rfq_data_miss_default "RFQ ID"
               (Bs4.find (Bs4.with_href ["a"])) el w); [|exact Hhref].
      unfold lookups. cbn [In]. tauto.
  - intros rest acc w. apply scan_containers_skips. exact Hhref.
Qed.

(** *** The inquiry date of a text without pattern *)

Lemma parse_time_ago_no_pattern (text : string) (w : World) :
  Re.search re_time_ago (Text.strip (Text.lower text)) = None ->
  parse_time_ago clock
      max_str_digits Timedelta_days year_width
      text w = (Ok (Text.strip (Text.lower text)), w).
Proof.
  intros Hnone. unfold parse_time_ago.
  destruct text as [|c text]; [reflexivity|].
  cbn [Text.nonempty negb]. rewrite Hnone. reflexivity.
Qed.

Lemma keeps_extract_time_date_follows (el : Bs4.node) :
  keeps date_follows_time (extract_time clock
      max_str_digits Timedelta_days year_width el).
Proof.
  intros d w H. unfold extract_time.
  destruct (Bs4.find _ el) as [e|]; [|exact H].
  set (text := Bs4.get_text_strip e).
  unfold bind at 1, set_item at 1, modify.
  unfold bind at 1, in_world.
  destruct (parse_time_ago clock
      max_str_digits Timedelta_days year_width text w) as [[date|ex] w'] eqn:Hp;
    unfold set_item, modify; cbn [fst snd];
    intros t Ht Hnone.
  - rewrite get_set_ne in Ht by reflexivity. rewrite get_set_eq in Ht.
    inversion Ht; subst t.
    rewrite (parse_time_ago_no_pattern text w Hnone) in Hp.
    inversion Hp; subst. apply get_set_eq.
  - rewrite get_set_eq in Ht. inversion Ht; subst t.
    rewrite (parse_time_ago_no_pattern text w Hnone) in Hp. discriminate.
Qed.

Lemma extract_fields_keeps_date_follows (el : Bs4.node) :
  keeps date_follows_time (extract_fields' el).
Proof.
  split_steps;
    try apply keeps_extract_time_date_follows;
    unfold_steps;
    keeps_auto ltac:(apply keeps_set_item_date_follows; reflexivity).
Qed.

(** C7 (amended). A text in which no number-unit pattern occurs is returned
    lower-cased and stripped of surrounding whitespace, without an error and
    without the clock being read; the empty text gives the empty text; and
    in every record the inquiry date is the lower-cased, stripped inquiry
    time whenever that text holds no pattern. *)
Theorem parse_time_ago_without_pattern (text : string) (w : World) :
  (Re.search re_time_ago (Text.strip (Text.lower text)) = None ->
   parse_time_ago clock
       max_str_digits Timedelta_days year_width
       text w = (Ok (Text.strip (Text.lower text)), w))
  /\ parse_time_ago clock
      max_str_digits Timedelta_days year_width "" w = (Ok "", w)
  /\ (forall el, date_follows_time (record_of (extract_rfq_data' el w))).
Proof.
  split; [apply parse_time_ago_no_pattern|]. split; [reflexivity|].
  intros el.
  apply (extract_rfq_data_keeps date_follows_time);
    [apply extract_fields_keeps_date_follows|].
  intros t Ht _. cbn in Ht. inversion Ht. reflexivity.
Qed.

End Records.

Section Scan.

Import Scraper Spec.

Variable transport : World -> string -> result Response.
Variable clock : World -> Datetime.datetime.
Variable urljoin : string -> string -> result string.
Variable BeautifulSoup : string -> result Bs4.node.
Variable max_str_digits : nat.
Variable Timedelta_days : Number.number -> result Pandas.Timedelta.
Variable year_width : nat.

(** C4. For every page, whatever the transport answers and the parser
    yields, [scrape_rfq_page] returns a list of records each of which has a
    non-empty title and carries the sixteen columns, every one with a
    string: the flags are Yes or No, and a field whose lookup found nothing
    in the node holds its default, the empty string or No. *)
Theorem scrape_rfq_page_records_are_rectangular (url : string) (w : World) :
  exists records w',
    scrape_rfq_page transport clock urljoin BeautifulSoup
        max_str_digits Timedelta_days year_width url w = (Ok records, w')
    /\ Forall (fun d => has_title d /\ rectangular d
                        /\ absent_fields_default clock urljoin
                            max_str_digits Timedelta_days year_width d) records.
Proof.
  unfold scrape_rfq_page, try_except.
  unfold bind at 1.
  destruct (get_page transport url 3 w) as [[response|e] w1];
    [|exists [], w1; split; [reflexivity | constructor]].
  unfold bind at 1, lift at 1.
  destruct (content_of response) as [html|e];
    [|exists [], w1; split; [reflexivity | constructor]].
  unfold bind at 1, lift at 1.
  destruct (BeautifulSoup html) as [soup|e];
    [|exists [], w1; split; [reflexivity | constructor]].
  destruct (scan_containers_records clock urljoin
      max_str_digits Timedelta_days year_width (find_containers soup) [] w1)
    as [out [w' [Hrun Hgood]]].
  rewrite Hrun. exists out, w'. split; [reflexivity|].
  apply Hgood. constructor.
Qed.

End Scan.

(** C4 on the first page of the three-page site: one record, with its
    title. *)
Example scrape_rfq_page_first_page :
  Scraper.scrape_rfq_page Fixture.transport_site Fixture.clock0 Fixture.urljoin0
    Fixture.BeautifulSoup_site
        Fixture.max_str_digits0 Fixture.Timedelta_days0 Fixture.year_width0
        Fixture.site_start []
  = (Ok [Fixture.record1], [EvGet Fixture.site_start; EvNow; EvNow]).
Proof. vm_compute. reflexivity. Qed.

(** A node with every kind of element: the record is the field-by-field
    one. *)
Lemma extract_rfq_data_never_raises_and_misses_are_local_witness :
  Spec.every_field_on_its_own Fixture.clock0 Fixture.urljoin0
      Fixture.max_str_digits0 Fixture.Timedelta_days0 Fixture.year_width0
      Fixture.item_full [].
Proof.
  destruct (extract_rfq_data_never_raises_and_misses_are_local
              Fixture.clock0 Fixture.urljoin0
                  Fixture.max_str_digits0 Fixture.Timedelta_days0 Fixture.year_width0
                  Fixture.item_full [])
    as [_ [_ [Hlocal _]]].
  apply Hlocal.
  - intros href Hhref. unfold Fixture.urljoin0. eexists. reflexivity.
  - intros e He. vm_compute in He. inversion He; subst e.
    eexists. vm_compute. reflexivity.
Defined.

(** C5, as stated, fails where a step raises: the time text
    "999999 days ago" has no date, the normaliser raises, the exception
    ends the [try] block, and the country, which is there to be found,
    stays empty. *)
Lemma extract_rfq_data_overflow_empties_later_fields :
  Spec.text_or_empty
    (Bs4.find (Bs4.by_class ["span"; "div"] Scraper.re_country)
       Fixture.item_overflow) = "UAE"
  /\ Dict.get "Country"
       (Spec.record_of
          (Scraper.extract_rfq_data Fixture.clock0 Fixture.urljoin0
              Fixture.max_str_digits0 Fixture.Timedelta_days0 Fixture.year_width0
             Fixture.item_overflow [])) = Some ""
  /\ ~ Spec.every_field_on_its_own Fixture.clock0 Fixture.urljoin0
      Fixture.max_str_digits0 Fixture.Timedelta_days0 Fixture.year_width0
         Fixture.item_overflow [].
Proof.
  split; [vm_compute; reflexivity|]. split; [vm_compute; reflexivity|].
  unfold Spec.every_field_on_its_own. intros H.
  vm_compute in H. discriminate H.
Qed.

(** A node with a paragraph only: no link in its record, and the loop
    passes it over. *)
Lemma anchorless_node_has_no_link_and_is_skipped_witness :
  Dict.get "Inquiry URL"
    (Spec.record_of
       (Scraper.extract_rfq_data Fixture.clock0 Fixture.urljoin0
           Fixture.max_str_digits0 Fixture.Timedelta_days0 Fixture.year_width0
          Fixture.item_no_anchor [])) = Some ""
  /\ Scraper.scan_containers Fixture.clock0 Fixture.urljoin0
      Fixture.max_str_digits0 Fixture.Timedelta_days0 Fixture.year_width0
       [Fixture.item_no_anchor] [] []
     = Scraper.scan_containers Fixture.clock0 Fixture.urljoin0
         Fixture.max_str_digits0 Fixture.Timedelta_days0 Fixture.year_width0
         [] [] [].
Proof.
  destruct (anchorless_node_has_no_link_and_is_skipped
              Fixture.clock0 Fixture.urljoin0
                  Fixture.max_str_digits0 Fixture.Timedelta_days0 Fixture.year_width0
                  Fixture.item_no_anchor eq_refl)
    as [Hlink Hskip].
  split; [apply (Hlink [])|apply Hskip].
Defined.

(** C8, as stated, fails on the reason of the exclusion: a node without
    anchor can have a title, here the text of its span of class "title". *)
Lemma anchorless_node_can_have_a_title :
  Dict.get "Title"
    (Spec.record_of
       (Scraper.extract_rfq_data Fixture.clock0 Fixture.urljoin0
           Fixture.max_str_digits0 Fixture.Timedelta_days0 Fixture.year_width0
          Fixture.item_no_anchor [])) = Some "Bulk order"
  /\ ~ Spec.anchorless_title_is_empty Fixture.clock0 Fixture.urljoin0
      Fixture.max_str_digits0 Fixture.Timedelta_days0 Fixture.year_width0
         Fixture.item_no_anchor [].
Proof.
  split; [vm_compute; reflexivity|].
  intros H. destruct (H eq_refl) as [_ [_ Ht]].
  vm_compute in Ht. discriminate Ht.
Qed.

(** A text without pattern, in capitals and with blanks around it. *)
Lemma parse_time_ago_without_pattern_witness :
  Scraper.parse_time_ago Fixture.clock0
      Fixture.max_str_digits0 Fixture.Timedelta_days0 Fixture.year_width0
      " Yesterday " [] = (Ok "yesterday", []).
Proof.
  destruct (parse_time_ago_without_pattern Fixture.clock0 Fixture.urljoin0
      Fixture.max_str_digits0 Fixture.Timedelta_days0 Fixture.year_width0
              " Yesterday " []) as [H _].
  apply H. vm_compute. reflexivity.
Defined.

(** C7, as stated, fails for a text that is not already in lower case:
    "Yesterday" comes back as "yesterday". *)
Lemma parse_time_ago_lowers_the_text :
  Scraper.parse_time_ago Fixture.clock0
      Fixture.max_str_digits0 Fixture.Timedelta_days0 Fixture.year_width0
      "Yesterday" [] = (Ok "yesterday", [])
  /\ ~ Spec.passes_raw_text Fixture.clock0
      Fixture.max_str_digits0 Fixture.Timedelta_days0 Fixture.year_width0
      "Yesterday" [].
Proof.
  split; [vm_compute; reflexivity|].
  intros H. assert (Hnone : Re.search Scraper.re_time_ago
                              (Text.strip (Text.lower "Yesterday")) = None)
    by (vm_compute; reflexivity).
  specialize (H Hnone). vm_compute in H. discriminate H.
Qed.

(** ** parse_time_ago on a number and a unit *)

Section TextFacts.

Import Text.
Local Open Scope string_scope.

Lemma append_assoc (a b c : string) : (a ++ b) ++ c = a ++ (b ++ c).
Proof. induction a as [|x a IH]; cbn; [reflexivity | rewrite IH; reflexivity]. Qed.

Lemma length_append (a b : string) :
  String.length (a ++ b) = (String.length a + String.length b)%nat.
Proof. induction a as [|x a IH]; cbn; [reflexivity | rewrite IH; reflexivity]. Qed.

Lemma lower_append (a b : string) : lower (a ++ b) = lower a ++ lower b.
Proof. induction a as [|x a IH]; cbn; [reflexivity | rewrite IH; reflexivity]. Qed.

(** Facts on single characters, checked on each of the 256. *)
Lemma lower_char_is_digit (c : ascii) : is_digit (lower_char c) = is_digit c.
Proof. destruct c as [[] [] [] [] [] [] [] []]; vm_compute; reflexivity. Qed.

Lemma lower_char_of_digit (c : ascii) : is_digit c = true -> lower_char c = c.
Proof.
  destruct c as [[] [] [] [] [] [] [] []]; vm_compute; intros H;
    first [reflexivity | discriminate H].
Qed.

Lemma digit_is_not_space (c : ascii) : is_digit c = true -> is_space c = false.
Proof.
  destruct c as [[] [] [] [] [] [] [] []]; vm_compute; intros H;
    first [reflexivity | discriminate H].
Qed.

Lemma lower_of_digits (ds : string) :
  all_chars is_digit ds = true -> lower ds = ds.
Proof.
  induction ds as [|c ds IH]; cbn; [reflexivity|].
  intros H. apply andb_true_iff in H. destruct H as [Hc Hds].
  rewrite lower_char_of_digit by exact Hc. rewrite IH by exact Hds. reflexivity.
Qed.

Lemma lower_keeps_digit_free (p : string) :
  all_chars (fun c => negb (is_digit c)) p = true ->
  all_chars (fun c => negb (is_digit c)) (lower p) = true.
Proof.
  induction p as [|c p IH]; cbn; [reflexivity|].
  intros H. apply andb_true_iff in H. destruct H as [Hc Hp].
  rewrite lower_char_is_digit, Hc. cbn. apply IH. exact Hp.
Qed.

(** [lstrip] stops at the latest at a character that is no whitespace. *)
Lemma lstrip_stops (p : string) (c : ascii) (r : string) :
  is_space c = false ->
  all_chars (fun c => negb (is_digit c)) p = true ->
  exists p',
    lstrip (p ++ String c r) = p' ++ String c r
    /\ all_chars (fun c => negb (is_digit c)) p' = true.
Proof.
  intros Hc. induction p as [|x p IH]; intros Hp.
  - exists "". cbn. rewrite Hc. split; reflexivity.
  - cbn in Hp. apply andb_true_iff in Hp. destruct Hp as [Hx Hp].
    cbn [append lstrip]. destruct (is_space x).
    + apply IH. exact Hp.
    + exists (String x p). split; [reflexivity|]. cbn. rewrite Hx, Hp. reflexivity.
Qed.

(** [rstrip] keeps everything up to a character that is no whitespace. *)
Lemma rstrip_keeps_char (a : string) (c : ascii) (q : string) :
  is_space c = false ->
  exists q', rstrip (a ++ String c q) = a ++ String c q'.
Proof.
  intros Hc. induction a as [|x a IH]; cbn [append rstrip].
  - destruct (rstrip q) as [|y r]; [rewrite Hc; exists ""; reflexivity|].
    exists (String y r). reflexivity.
  - destruct IH as [q' Hq]. rewrite Hq. exists q'.
    destruct (a ++ String c q') as [|y r] eqn:E; [|reflexivity].
    destruct a; discriminate E.
Qed.

Lemma rstrip_keeps_word (b : string) :
  b <> "" -> all_chars (fun c => negb (is_space c)) b = true ->
  forall a q, exists q', rstrip (a ++ b ++ q) = a ++ b ++ q'.
Proof.
  induction b as [|c b IH]; intros Hne Hb a q; [congruence|].
  cbn in Hb. apply andb_true_iff in Hb. destruct Hb as [Hc Hb].
  apply negb_true_iff in Hc.
  destruct b as [|c' b].
  - cbn [append]. apply rstrip_keeps_char. exact Hc.
  - destruct (IH ltac:(discriminate) Hb (a ++ String c "") q) as [q' Hq].
    exists q'. rewrite !append_assoc in Hq. cbn [append] in Hq.
    cbn [append]. exact Hq.
Qed.

Lemma nonempty_append_r (a : string) (c : ascii) (r : string) :
  nonempty (a ++ String c r) = true.
Proof. destruct a; reflexivity. Qed.

(** The decimal digits of a number. *)
Lemma int_acc_append_digit (ds : string) (d : ascii) (acc : Z) :
  int_acc acc (ds ++ String d "") = (10 * int_acc acc ds + digit_val d)%Z.
Proof.
  revert acc. induction ds as [|c ds IH]; intros acc; cbn; [reflexivity | apply IH].
Qed.

Lemma digit_char_facts (d : nat) :
  (d < 10)%nat ->
  is_digit (digit_char d) = true /\ digit_val (digit_char d) = Z.of_nat d.
Proof.
  intros H.
  do 10 (destruct d as [|d]; [split; vm_compute; reflexivity|]). lia.
Qed.

Lemma digits_fuel_spec :
  forall (fuel n : nat) (acc : string),
    (n < fuel)%nat ->
    exists ds,
      digits_fuel fuel n acc = ds ++ acc
      /\ ds <> "" /\ all_chars is_digit ds = true /\ int ds = Z.of_nat n.
Proof.
  induction fuel as [|fuel IH]; intros n acc Hn; [lia|].
  cbn [digits_fuel].
  assert (Hmod : (n mod 10 < 10)%nat) by (apply Nat.mod_upper_bound; lia).
  destruct (digit_char_facts (n mod 10) Hmod) as [Hdig Hval].
  destruct (n <? 10)%nat eqn:Hlt.
  - apply Nat.ltb_lt in Hlt. exists (String (digit_char (n mod 10)) "").
    split; [reflexivity|]. split; [discriminate|]. split.
    + cbn [all_chars]. rewrite Hdig. reflexivity.
    + unfold int. cbn [int_acc]. rewrite Hval, Nat.mod_small by exact Hlt. lia.
  - apply Nat.ltb_ge in Hlt.
    assert (Hdiv : (n / 10 < fuel)%nat).
    { apply Nat.Div0.div_lt_upper_bound. lia. }
    destruct (IH (n / 10)%nat (String (digit_char (n mod 10)) acc) Hdiv)
      as [ds [Hrun [Hne [Hall Hint]]]].
    exists (ds ++ String (digit_char (n mod 10)) "").
    split; [rewrite Hrun, append_assoc; reflexivity|].
    split; [destruct ds; discriminate|]. split.
    + clear - Hall Hdig. induction ds as [|c ds IHds]; cbn [append all_chars].
      * rewrite Hdig. reflexivity.
      * cbn [all_chars] in Hall. apply andb_true_iff in Hall.
        destruct Hall as [Hc Hds].
        rewrite Hc. cbn [andb]. apply IHds. exact Hds.
    + unfold int in *. rewrite int_acc_append_digit, Hint, Hval.
      rewrite (Nat.div_mod_eq n 10) at 3. lia.
Qed.

Lemma str_of_nat_spec (n : nat) :
  exists d ds,
    str_of_nat n = String d ds
    /\ all_chars is_digit (String d ds) = true
    /\ int (String d ds) = Z.of_nat n.
Proof.
  unfold str_of_nat.
  destruct (digits_fuel_spec (S n) n "" ltac:(lia)) as [ds [Hrun [Hne [Hall Hint]]]].
  assert (Hnil : forall a, a ++ "" = a).
  { induction a as [|x a IH]; cbn; [reflexivity | rewrite IH; reflexivity]. }
  rewrite Hnil in Hrun. rewrite Hrun.
  destruct ds as [|d ds]; [congruence|]. exists d, ds. auto.
Qed.

End TextFacts.

Section TimePattern.

Import Text Re Scraper Spec.
Local Open Scope string_scope.

Lemma consumed_prefix (a b s : string) : s = a ++ b -> consumed s b = a.
Proof.
  intros ->. unfold consumed. rewrite length_append.
  replace (String.length a + String.length b - String.length b)%nat
    with (String.length a) by lia.
  induction a as [|x a IH]; cbn.
  - destruct b; reflexivity.
  - rewrite IH. reflexivity.
Qed.

(** The pattern starts with a digit: no match begins elsewhere. *)
Lemma match_here_needs_digit (c : ascii) (s : string) :
  is_digit c = false ->
  match_here false re_time_ago (String c s) = None.
Proof.
  intros Hc. unfold match_here, re_time_ago.
  cbn [rmatch one_char]. rewrite Hc. reflexivity.
Qed.

Lemma search_skips_digit_free (p s : string) :
  all_chars (fun c => negb (is_digit c)) p = true ->
  search re_time_ago (p ++ s) = search re_time_ago s.
Proof.
  unfold search. induction p as [|c p IH]; intros Hp; [reflexivity|].
  cbn [all_chars] in Hp. apply andb_true_iff in Hp. destruct Hp as [Hc Hp].
  apply negb_true_iff in Hc.
  cbn [append search_flags]. rewrite match_here_needs_digit by exact Hc.
  apply IH. exact Hp.
Qed.

(** The greedy loop over [\d] runs to the end of a run of digits when the
    rest of the pattern matches there. *)
Lemma star_digits {A}
    (step : string -> caps -> (string -> caps -> option A) -> option A)
    (ds : string) (c : ascii) (r : string) (cs : caps)
    (k : string -> caps -> option A) (x : A) :
  (forall s0 cs0 k0, step s0 cs0 k0 = one_char is_digit s0 cs0 k0) ->
  all_chars is_digit ds = true ->
  is_digit c = false ->
  k (String c r) cs = Some x ->
  forall fuel,
    (String.length ds <= fuel)%nat ->
    star_loop step fuel (ds ++ String c r) cs k = Some x.
Proof.
  intros Hstep Hds Hc Hk. induction ds as [|d ds IH]; intros fuel Hfuel.
  - cbn [append]. destruct fuel as [|fuel]; cbn [star_loop]; [exact Hk|].
    rewrite Hstep. cbn [one_char]. rewrite Hc. cbn [orelse]. exact Hk.
  - cbn [all_chars] in Hds. apply andb_true_iff in Hds. destruct Hds as [Hd Hds].
    cbn [String.length] in Hfuel.
    destruct fuel as [|fuel]; [lia|].
    cbn [append star_loop]. rewrite Hstep. cbn [one_char]. rewrite Hd.
    cbn [String.length].
    replace (String.length (ds ++ String c r) <? S (String.length (ds ++ String c r)))%nat
      with true by (symmetry; apply Nat.ltb_lt; lia).
    rewrite (IH Hds fuel) by lia. reflexivity.
Qed.

Lemma rmatch_group_digits {A} (i : nat) (d : ascii) (ds : string)
    (c : ascii) (r : string) (cs : caps)
    (k : string -> caps -> option A) (x : A) :
  all_chars is_digit (String d ds) = true ->
  is_digit c = false ->
  k (String c r) ((i, String d ds) :: cs) = Some x ->
  rmatch false (Group i (Plus Digit)) (String d ds ++ String c r) cs k = Some x.
Proof.
  intros Hds Hc Hk.
  cbn [all_chars] in Hds. apply andb_true_iff in Hds. destruct Hds as [Hd Hds].
  cbn [rmatch append one_char]. rewrite Hd.
  apply star_digits;
    [reflexivity | exact Hds | exact Hc | | rewrite length_append; lia].
  rewrite (consumed_prefix (String d ds) (String c r)) by reflexivity.
  exact Hk.
Qed.

Lemma rmatch_one_space {A} (c : ascii) (r : string) (cs : caps)
    (k : string -> caps -> option A) (x : A) :
  is_space c = false ->
  k (String c r) cs = Some x ->
  rmatch false (Star Space) (String " " (String c r)) cs k = Some x.
Proof.
  intros Hc Hk.
  cbn [rmatch String.length star_loop one_char].
  change (is_space " ") with true. cbv iota.
  replace (S (String.length r) <? S (S (String.length r)))%nat
    with true by (symmetry; apply Nat.ltb_lt; lia).
  rewrite Hc. cbn [orelse]. rewrite Hk. reflexivity.
Qed.

Lemma days_per_unit_cases (u : string) (per_unit : Q) :
  days_per_unit u = Some per_unit ->
  In (u, per_unit)
     [("hour", (1 # 24)%Q); ("hours", (1 # 24)%Q);
      ("day", inject_Z 1); ("days", inject_Z 1);
      ("week", inject_Z 7); ("weeks", inject_Z 7);
      ("month", inject_Z 30); ("months", inject_Z 30)].
Proof.
  unfold days_per_unit.
  destruct (String.eqb u "hour") eqn:E1;
    [apply String.eqb_eq in E1; subst u; intros H; injection H as <-; cbn; tauto|].
  destruct (String.eqb u "hours") eqn:E2;
    [apply String.eqb_eq in E2; subst u; intros H; injection H as <-; cbn; tauto|].
  destruct (String.eqb u "day") eqn:E3;
    [apply String.eqb_eq in E3; subst u; intros H; injection H as <-; cbn; tauto|].
  destruct (String.eqb u "days") eqn:E4;
    [apply String.eqb_eq in E4; subst u; intros H; injection H as <-; cbn; tauto|].
  destruct (String.eqb u "week") eqn:E5;
    [apply String.eqb_eq in E5; subst u; intros H; injection H as <-; cbn; tauto|].
  destruct (String.eqb u "weeks") eqn:E6;
    [apply String.eqb_eq in E6; subst u; intros H; injection H as <-; cbn; tauto|].
  destruct (String.eqb u "month") eqn:E7;
    [apply String.eqb_eq in E7; subst u; intros H; injection H as <-; cbn; tauto|].
  destruct (String.eqb u "months") eqn:E8;
    [apply String.eqb_eq in E8; subst u; intros H; injection H as <-; cbn; tauto|].
  cbn. discriminate.
Qed.

(** After the digits and one blank, the unit group. *)
Ltac match_unit_after_digits Hds :=
  split; [|vm_compute; reflexivity];
  unfold match_here, re_time_ago;
  change (rmatch false (Cat ?g ?rest) ?s [] ?k)
    with (rmatch false g s [] (fun s' cs' => rmatch false rest s' cs' k));
  apply rmatch_group_digits; [exact Hds | reflexivity |];
  change (rmatch false (Cat ?g ?rest) ?s ?cs ?k)
    with (rmatch false g s cs (fun s' cs' => rmatch false rest s' cs' k));
  cbn [append];
  apply rmatch_one_space; [reflexivity|];
  cbn -[consumed];
  do 3 f_equal; apply consumed_prefix; reflexivity.

(** The alternative of the unit group that matches a unit, with its days:
    the singular is tried first and matches the plural too. *)
Lemma match_here_number_unit (d : ascii) (ds u q : string) (per_unit : Q) :
  all_chars is_digit (String d ds) = true ->
  days_per_unit u = Some per_unit ->
  exists stem,
    match_here false re_time_ago (String d ds ++ String " " (u ++ q))
    = Some [(2, stem); (1, String d ds)]
    /\ mapping_get stem time_mapping = Some (factor_of per_unit).
Proof.
  intros Hds Hu. apply days_per_unit_cases in Hu. cbn [In] in Hu.
  destruct Hu as [Hu|[Hu|[Hu|[Hu|[Hu|[Hu|[Hu|[Hu|[]]]]]]]]];
    injection Hu as <- <-.
  - exists "hour". match_unit_after_digits Hds.
  - exists "hour". match_unit_after_digits Hds.
  - exists "day". match_unit_after_digits Hds.
  - exists "day". match_unit_after_digits Hds.
  - exists "week". match_unit_after_digits Hds.
  - exists "week". match_unit_after_digits Hds.
  - exists "month". match_unit_after_digits Hds.
  - exists "month". match_unit_after_digits Hds.
Qed.

Lemma unit_is_a_word (u : string) (per_unit : Q) :
  days_per_unit u = Some per_unit ->
  u <> "" /\ all_chars (fun c => negb (is_space c)) u = true.
Proof.
  intros Hu. apply days_per_unit_cases in Hu. cbn [In] in Hu.
  destruct Hu as [Hu|[Hu|[Hu|[Hu|[Hu|[Hu|[Hu|[Hu|[]]]]]]]]];
    injection Hu as <- <-; (split; [discriminate | vm_compute; reflexivity]).
Qed.

(** What [time_str.lower().strip()] leaves of a text with a number and a
    unit: the number, one blank and the unit in lower case, after a part
    without digit. *)
Lemma strip_lower_shape (pre U post : string) (d : ascii) (ds : string)
    (per_unit : Q) :
  all_chars (fun c => negb (is_digit c)) pre = true ->
  all_chars is_digit (String d ds) = true ->
  days_per_unit (lower U) = Some per_unit ->
  exists p q,
    strip (lower (pre ++ String d ds ++ " " ++ U ++ post))
    = p ++ String d ds ++ String " " (lower U ++ q)
    /\ all_chars (fun c => negb (is_digit c)) p = true.
Proof.
  intros Hpre Hds Hu.
  destruct (unit_is_a_word _ _ Hu) as [Hne Hword].
  rewrite !lower_append. rewrite (lower_of_digits _ Hds).
  change (lower " ") with " ".
  assert (Hd : is_space d = false).
  { apply digit_is_not_space. cbn [all_chars] in Hds.
    apply andb_true_iff in Hds. tauto. }
  unfold strip. cbn [append].
  destruct (lstrip_stops (lower pre) d
              (ds ++ String " " (lower U ++ lower post)) Hd
              (lower_keeps_digit_free pre Hpre)) as [p [Hl Hp]].
  rewrite Hl.
  destruct (rstrip_keeps_word (lower U) Hne Hword
              (p ++ String d ds ++ " ") (lower post)) as [q Hq].
  exists p, q. split; [|exact Hp].
  rewrite !append_assoc in Hq. cbn [append] in Hq. exact Hq.
Qed.

(** The instant a whole number of days before now. *)
Lemma minus_whole_days (now : Datetime.datetime) (days : Z) :
  minus_days now (inject_Z days) = (now - days * Datetime.us_per_day)%Z.
Proof.
  unfold minus_days, Qfloor, Qmult, inject_Z. cbn [Qnum Qden Pos.mul].
  rewrite Z.div_1_r. reflexivity.
Qed.

End TimePattern.

Section ParseTimeAgo.

Import Text Re Scraper Spec.
Local Open Scope string_scope.

Variable clock : World -> Datetime.datetime.
Variable max_str_digits : nat.
Variable Timedelta_days : Number.number -> result Pandas.Timedelta.
Variable year_width : nat.

Lemma int_of_digits_converts (digits : string) :
  converts max_str_digits digits ->
  int_of_digits max_str_digits digits = Ok (int digits).
Proof.
  unfold converts, int_of_digits. intros H. cbv zeta.
  destruct (Nat.ltb_spec 640 (String.length digits)); [|reflexivity].
  destruct (Nat.ltb_spec 0 max_str_digits); [|reflexivity].
  destruct (Nat.ltb_spec max_str_digits (String.length digits));
    [lia | reflexivity].
Qed.

(** The run of [parse_time_ago] on a text whose lower-cased, stripped form
    holds a match with the digits of [number] and a unit of the table. *)
Lemma parse_time_ago_found
    (text digits stem : string) (m : caps) (number : Z) (per_unit : Q)
    (w : World) :
  nonempty text = true ->
  search re_time_ago (strip (lower text)) = Some m ->
  group_text 1 m = digits ->
  group_text 2 m = stem ->
  converts max_str_digits digits ->
  int digits = number ->
  mapping_get stem time_mapping = Some (factor_of per_unit) ->
  parse_time_ago clock max_str_digits Timedelta_days year_width text w
  = date_ago clock Timedelta_days year_width (days_ago_of number per_unit) w.
Proof.
  intros Hne Hsearch Hg1 Hg2 Hconv Hint Hmap.
  unfold parse_time_ago. rewrite Hne. cbn [negb]. rewrite Hsearch.
  rewrite Hg1, Hg2, Hmap.
  unfold bind at 1, lift at 1.
  rewrite (int_of_digits_converts digits Hconv), Hint.
  unfold date_ago, days_ago_of.
  unfold bind at 1, lift at 1.
  destruct (Number.int_mul number (factor_of per_unit)) as [d|e];
    [|reflexivity].
  unfold bind at 1, datetime_now at 1.
  unfold bind at 1, lift at 1, date_before.
  destruct (Timedelta_days d) as [td|e]; [|reflexivity].
  unfold bind at 1, lift at 1.
  destruct (Pandas.datetime_sub (clock w) td); reflexivity.
Qed.

(** For a whole number of days that pandas holds, the date is the exact
    one, or it lies outside the years of [datetime]. *)
Lemma date_ago_whole_days (number k : Z) (w : World) :
  holds_days Timedelta_days (number * k) ->
  date_ago clock Timedelta_days year_width (days_ago_of number (inject_Z k)) w
  = (if Datetime.in_range
          (minus_days (clock w) (Qmult (inject_Z number) (inject_Z k)))
     then Ok (Datetime.strftime_dmy year_width
                (minus_days (clock w) (Qmult (inject_Z number) (inject_Z k))))
     else Raise OverflowError,
     (w ++ [EvNow])%list).
Proof.
  intros Hholds.
  change (Qmult (inject_Z number) (inject_Z k)) with (inject_Z (number * k)).
  rewrite minus_whole_days.
  unfold date_ago, days_ago_of, factor_of, inject_Z. cbn [Qden Qnum Pos.eqb].
  cbn [Number.int_mul]. unfold date_before. rewrite Hholds.
  unfold Pandas.datetime_sub. cbv zeta.
  destruct (Datetime.in_range _); reflexivity.
Qed.

(** C1 (amended). For every natural number, written in decimal with no
    more digits than [int] converts, and every unit whose lower case is one
    of hour, hours, day, days, week, weeks, month and months, normalising a
    text in which the number, a blank and the unit come after a part
    without digit (as in "{number} {unit} ago") multiplies the number by
    the days of the unit as Python holds them: the integer 1, 7 or 30, or
    the float nearest to 1/24, with which the product is rounded and fails
    for a number beyond the floats.  Then the clock is read once and the
    result is the date that lies what [pd.Timedelta] makes of these days
    before now, as DD-MM-YYYY, or what pandas or [datetime] raises.  For
    days, weeks and months, when pandas holds the whole number of days, that
    is the date number times days-per-unit before now, or an
    [OverflowError] when it lies outside the years of [datetime]. *)
Theorem parse_time_ago_number_unit
    (pre U post : string) (n : nat) (per_unit : Q) (w : World) :
  all_chars (fun c => negb (is_digit c)) pre = true ->
  days_per_unit (lower U) = Some per_unit ->
  converts max_str_digits (str_of_nat n) ->
  parse_time_ago clock max_str_digits Timedelta_days year_width
    (pre ++ str_of_nat n ++ " " ++ U ++ post) w
  = date_ago clock Timedelta_days year_width (days_ago_of (Z.of_nat n) per_unit) w
  /\ (forall k,
        per_unit = inject_Z k ->
        holds_days Timedelta_days (Z.of_nat n * k) ->
        parse_time_ago clock max_str_digits Timedelta_days year_width
          (pre ++ str_of_nat n ++ " " ++ U ++ post) w
        = (if Datetime.in_range
                (minus_days (clock w) (Qmult (inject_Z (Z.of_nat n)) per_unit))
           then Ok (Datetime.strftime_dmy year_width
                      (minus_days (clock w)
                         (Qmult (inject_Z (Z.of_nat n)) per_unit)))
           else Raise OverflowError,
           (w ++ [EvNow])%list)).
Proof.
  intros Hpre Hu Hconv.
  destruct (str_of_nat_spec n) as [d [ds [Hstr [Hds Hint]]]].
  rewrite Hstr in Hconv |- *.
  destruct (strip_lower_shape pre U post d ds per_unit Hpre Hds Hu)
    as [p [q [Hshape Hp]]].
  destruct (match_here_number_unit d ds (lower U) q per_unit Hds Hu)
    as [stem [Hmatch Hmap]].
  assert (Hrun :
    parse_time_ago clock max_str_digits Timedelta_days year_width
      (pre ++ String d ds ++ " " ++ U ++ post) w
    = date_ago clock Timedelta_days year_width (days_ago_of (Z.of_nat n) per_unit) w).
  { apply (parse_time_ago_found _ (String d ds) stem [(2, stem); (1, String d ds)]);
      try reflexivity; try assumption.
    - cbn [append]. apply nonempty_append_r.
    - rewrite Hshape, search_skips_digit_free by exact Hp.
      unfold search. cbn [append] in Hmatch |- *. cbn [search_flags].
      rewrite Hmatch. reflexivity. }
  split; [exact Hrun|].
  intros k -> Hholds. rewrite Hrun. apply date_ago_whole_days. exact Hholds.
Qed.

End ParseTimeAgo.

(** The example of the specification: twelve days before 20 January 2024. *)
Lemma parse_time_ago_number_unit_witness :
  Scraper.parse_time_ago Fixture.clock0 Fixture.max_str_digits0
    Fixture.Timedelta_days0 Fixture.year_width0 "12 days ago" []
  = (Ok "08-01-2024", [EvNow]).
Proof.
  assert (Hconv : Spec.converts Fixture.max_str_digits0 (Text.str_of_nat 12)).
  { left. vm_compute. lia. }
  destruct (parse_time_ago_number_unit Fixture.clock0 Fixture.max_str_digits0
              Fixture.Timedelta_days0 Fixture.year_width0 "" "days" " ago" 12 (inject_Z 1) []
              eq_refl eq_refl Hconv) as [_ Hdays].
  exact (Hdays 1%Z eq_refl eq_refl).
Defined.

(** C1, as stated, fails in four ways.  The pattern is searched from the
    left, so a text that contains "5 days" after "3 weeks" gives the date
    three weeks back; the pattern has no sign, so "-5 days ago" gives the
    date five days back, not five days ahead; a date before the first year
    of [datetime] is none, so "999999 days ago" raises; and the days of
    seven hours are the float 0.29166666666666663, below 7/24, so that
    seven hours before 06:59:59.999999 is the same day for the code and the
    day before for the claim. *)
Lemma parse_time_ago_takes_first_unsigned_bounded_number :
  ~ Spec.normalises_to_number_unit Fixture.clock0 Fixture.max_str_digits0
      Fixture.Timedelta_days0 Fixture.year_width0 "3 weeks 5 days ago" 5 "days" []
  /\ ~ Spec.normalises_to_number_unit Fixture.clock0 Fixture.max_str_digits0
         Fixture.Timedelta_days0 Fixture.year_width0 "-5 days ago" (-5) "days" []
  /\ ~ Spec.normalises_to_number_unit Fixture.clock0 Fixture.max_str_digits0
         Fixture.Timedelta_days0 Fixture.year_width0 "999999 days ago" 999999 "days" []
  /\ (Spec.days_ago_of 7 (1 # 24)
      = Ok (Number.PyFloat
              (SpecFloat.S754_finite false 5254199565265578 (-54)))
      /\ fst (Scraper.parse_time_ago Fixture.clock_0659 Fixture.max_str_digits0
                Fixture.Timedelta_days0 Fixture.year_width0 "7 hours ago" [])
         = Ok "20-01-2024"
      /\ ~ Spec.normalises_to_number_unit Fixture.clock_0659
             Fixture.max_str_digits0 Fixture.Timedelta_days0 Fixture.year_width0
             "7 hours ago" 7 "hours" []).
Proof.
  assert (Hno : forall clock text number unit,
            (forall per_unit,
               Spec.days_per_unit (Text.lower unit) = Some per_unit ->
               fst (Scraper.parse_time_ago clock Fixture.max_str_digits0
                      Fixture.Timedelta_days0 Fixture.year_width0 text [])
               <> Ok (Datetime.strftime_dmy Fixture.year_width0
                        (Spec.minus_days (clock [])
                           (Qmult (inject_Z number) per_unit)))) ->
            Text.contains
              (String.append (Spec.str_of_int number) (String.append " " unit))
              text = true ->
            ~ Spec.normalises_to_number_unit clock Fixture.max_str_digits0
                Fixture.Timedelta_days0 Fixture.year_width0 text number unit []).
  { intros clock text number unit Hdiff Hin H.
    destruct (H Hin) as [per_unit [Hu Hrun]]. exact (Hdiff per_unit Hu Hrun). }
  split; [|split; [|split; [|split; [|split]]]].
  - apply Hno; [|reflexivity]. intros per_unit Hu.
    vm_compute in Hu. injection Hu as <-. vm_compute. discriminate.
  - apply Hno; [|reflexivity]. intros per_unit Hu.
    vm_compute in Hu. injection Hu as <-. vm_compute. discriminate.
  - apply Hno; [|reflexivity]. intros per_unit Hu.
    vm_compute in Hu. injection Hu as <-. vm_compute. discriminate.
  - vm_compute. reflexivity.
  - vm_compute. reflexivity.
  - apply Hno; [|reflexivity]. intros per_unit Hu.
    vm_compute in Hu. injection Hu as <-. vm_compute. discriminate.
Qed.

(* ================================================================== *)
(** * Further properties *)
(* ================================================================== *)

(** ** get_page: early success, other exceptions, what is returned *)

Section GetPageMore.

Import Scraper Spec.

Variable transport : World -> string -> result Response.

Lemma attempt_get_other_exception (url : string) (w : World) (e : exn) :
  transport w url = Raise e ->
  attempt_get transport url w = (Raise e, w ++ [EvGet url]).
Proof.
  intros Ht. unfold attempt_get, bind, session_get. rewrite Ht. reflexivity.
Qed.

(** X1. When the first [k] attempts fail with a transport error and
    attempt [k], one of the [retries], succeeds, [get_page] returns its
    response at once: [k + 1] requests, the pauses 1, 2, ..., [2^(k-1)]
    between them and no pause after the success. *)
Theorem get_page_returns_first_success
    (url : string) (retries : Z) (w : World) (k : nat) (r : Response) :
  (k < Z.to_nat retries)%nat ->
  (forall i, (i < k)%nat ->
     transport_error (transport (w ++ backoff_trace url i) url) <> None) ->
  transport (w ++ backoff_trace url k) url = Ok r ->
  raise_for_status r = Ok tt ->
  get_page transport url retries w
  = (Ok (Some r), w ++ backoff_trace url k ++ [EvGet url])
  /\ attempts (backoff_trace url k ++ [EvGet url]) = S k
  /\ sleeps (backoff_trace url k ++ [EvGet url])
     = map (fun i => (2 ^ Z.of_nat i)%Z) (seq 0 k).
Proof.
  intros Hk Hfail Hok Hstatus. split; [|split].
  - unfold get_page, backoff_trace in *.
    rewrite (get_page_from_backoff transport url retries k (Z.to_nat retries) 0 w);
      [|lia|lia|exact Hfail].
    destruct (Z.to_nat retries - k)%nat as [|todo] eqn:Htodo; [lia|].
    cbn [get_page_from].
    rewrite (attempt_get_success transport url _ r Hok Hstatus), <- app_assoc.
    reflexivity.
  - unfold backoff_trace. apply attempts_backoff.
  - unfold backoff_trace. rewrite sleeps_backoff. reflexivity.
Qed.

(** X2. An exception of [session.get] that is no [RequestException] is
    not retried: raised at attempt [k] after [k] transport failures, it is
    propagated at once, without a pause and without a further request,
    however many attempts are left. *)
Theorem get_page_propagates_other_exception
    (url : string) (retries : Z) (w : World) (k : nat) (e : exn) :
  (k < Z.to_nat retries)%nat ->
  (forall i, (i < k)%nat ->
     transport_error (transport (w ++ backoff_trace url i) url) <> None) ->
  transport (w ++ backoff_trace url k) url = Raise e ->
  is_RequestException e = false ->
  get_page transport url retries w
  = (Raise e, w ++ backoff_trace url k ++ [EvGet url]).
Proof.
  intros Hk Hfail Hraise Hother.
  unfold get_page, backoff_trace in *.
  rewrite (get_page_from_backoff transport url retries k (Z.to_nat retries) 0 w);
    [|lia|lia|exact Hfail].
  destruct (Z.to_nat retries - k)%nat as [|todo] eqn:Htodo; [lia|].
  cbn [get_page_from].
  rewrite (attempt_get_other_exception url _ e Hraise), Hother, <- app_assoc.
  reflexivity.
Qed.

(** What every run of the loop satisfies. *)
Lemma get_page_from_invariant (url : string) (retries : Z) :
  forall (todo : nat) (a : Z) (w : World),
  exists t,
    snd (get_page_from transport todo a url retries w) = w ++ t
    /\ (attempts t <= todo)%nat
    /\ Forall (get_or_sleep url) t
    /\ (forall r,
          fst (get_page_from transport todo a url retries w) = Ok (Some r) ->
          raise_for_status r = Ok tt)
    /\ ((a + Z.of_nat todo = retries)%Z -> (0 < todo)%nat ->
        fst (get_page_from transport todo a url retries w) <> Ok None).
Proof.
  induction todo as [|todo IH]; intros a w.
  - exists []. cbn. rewrite app_nil_r.
    split; [reflexivity|]. split; [lia|]. split; [constructor|].
    split; [discriminate | lia].
  - cbn [get_page_from].
    unfold attempt_get, bind, session_get, lift, ret.
    destruct (transport w url) as [r|e] eqn:Ht.
    + destruct (raise_for_status r) as [[]|e] eqn:Hs.
      * exists [EvGet url]. cbn [fst snd].
        split; [reflexivity|]. split; [cbn; lia|].
        split; [repeat constructor|].
        split; [intros r' Hr; inversion Hr; subst; exact Hs | discriminate].
      * assert (He : is_RequestException e = true).
        { unfold raise_for_status in Hs.
          destruct ((400 <=? status_code r)%Z && (status_code r <? 600)%Z);
            inversion Hs; reflexivity. }
        rewrite He. destruct (a <? retries - 1)%Z eqn:Ha.
        -- unfold sleep.
           destruct (IH (a + 1)%Z ((w ++ [EvGet url]) ++ [EvSleep (2 ^ a)]))
             as [t [Hw [Hat [Hall [Hok Hnone]]]]].
           exists (EvGet url :: EvSleep (2 ^ a) :: t).
           split; [rewrite Hw, <- !app_assoc; reflexivity|].
           split; [unfold attempts in *; cbn; lia|].
           split; [constructor; [left; reflexivity|];
                   constructor; [right; eexists; reflexivity | exact Hall]|].
           split; [exact Hok|].
           intros Hsum _. apply Hnone; [lia|].
           apply Z.ltb_lt in Ha. lia.
        -- exists [EvGet url]. cbn [fst snd].
           split; [reflexivity|]. split; [cbn; lia|].
           split; [repeat constructor|]. split; discriminate.
    + destruct (is_RequestException e) eqn:He;
        [destruct (a <? retries - 1)%Z eqn:Ha|].
      * unfold sleep.
        destruct (IH (a + 1)%Z ((w ++ [EvGet url]) ++ [EvSleep (2 ^ a)]))
          as [t [Hw [Hat [Hall [Hok Hnone]]]]].
        exists (EvGet url :: EvSleep (2 ^ a) :: t).
        split; [rewrite Hw, <- !app_assoc; reflexivity|].
        split; [unfold attempts in *; cbn; lia|].
        split; [constructor; [left; reflexivity|];
                constructor; [right; eexists; reflexivity | exact Hall]|].
        split; [exact Hok|].
        intros Hsum _. apply Hnone; [lia|].
        apply Z.ltb_lt in Ha. lia.
      * exists [EvGet url]. cbn [fst snd].
        split; [reflexivity|]. split; [cbn; lia|].
        split; [repeat constructor|]. split; discriminate.
      * exists [EvGet url]. cbn [fst snd].
        split; [reflexivity|]. split; [cbn; lia|].
        split; [repeat constructor|]. split; discriminate.
Qed.

(** X3. A response that [get_page] returns passed [raise_for_status]: its
    status is no client or server error code.  And [None] is returned
    exactly when the retry count is not positive; with a positive count the
    caller gets a response or an exception. *)
Theorem get_page_returns_checked_response
    (url : string) (retries : Z) (w : World) :
  (forall r,
     fst (get_page transport url retries w) = Ok (Some r) ->
     (status_code r < 400 \/ 600 <= status_code r)%Z)
  /\ (fst (get_page transport url retries w) = Ok None <-> (retries <= 0)%Z).
Proof.
  unfold get_page.
  destruct (get_page_from_invariant url retries (Z.to_nat retries) 0 w)
    as [t [_ [_ [_ [Hok Hnone]]]]].
  split.
  - intros r Hr. specialize (Hok r Hr). unfold raise_for_status in Hok.
    destruct (400 <=? status_code r)%Z eqn:H4;
      destruct (status_code r <? 600)%Z eqn:H6; cbn in Hok;
      try discriminate Hok.
    + apply Z.ltb_ge in H6. lia.
    + apply Z.leb_gt in H4. lia.
    + apply Z.leb_gt in H4. lia.
  - split.
    + intros Hres. destruct (Z_le_gt_dec retries 0) as [Hle|Hgt]; [exact Hle|].
      exfalso. apply Hnone; [lia | lia | exact Hres].
    + intros Hle. replace (Z.to_nat retries) with 0%nat by lia. reflexivity.
Qed.

(** X4. Whatever the transport answers, [get_page] adds to the log only
    requests for its own [url] and pauses, and makes at most [retries]
    requests. *)
Theorem get_page_requests_only_its_url
    (url : string) (retries : Z) (w : World) :
  exists t,
    snd (get_page transport url retries w) = w ++ t
    /\ Forall (get_or_sleep url) t
    /\ (attempts t <= Z.to_nat retries)%nat.
Proof.
  unfold get_page.
  destruct (get_page_from_invariant url retries (Z.to_nat retries) 0 w)
    as [t [Hw [Hat [Hall _]]]].
  exists t. auto.
Qed.

End GetPageMore.

(** The flaky endpoint with five attempts allowed: the third one succeeds
    and the last two are never made. *)
Lemma get_page_returns_first_success_witness :
  Scraper.get_page Fixture.transport_flaky "u" 5 []
  = (Ok (Some Fixture.resp_ok),
     [EvGet "u"; EvSleep 1; EvGet "u"; EvSleep 2; EvGet "u"]).
Proof.
  assert (Hfail : forall i, (i < 2)%nat ->
            Spec.transport_error
              (Fixture.transport_flaky ([] ++ Spec.backoff_trace "u" i) "u") <> None).
  { intros i Hi. destruct i as [|[|i]]; [discriminate|discriminate|lia]. }
  destruct (get_page_returns_first_success Fixture.transport_flaky "u" 5 [] 2
              Fixture.resp_ok ltac:(vm_compute; lia) Hfail eq_refl eq_refl)
    as [Hrun _].
  exact Hrun.
Defined.

(** A transport whose failure is no [RequestException]: one request, no
    retry. *)
Lemma get_page_propagates_other_exception_witness :
  Scraper.get_page Fixture.transport_crash "u" 3 [] = (Raise ValueError, [EvGet "u"]).
Proof.
  apply (get_page_propagates_other_exception Fixture.transport_crash "u" 3 [] 0
           ValueError).
  - vm_compute. lia.
  - intros i Hi. lia.
  - reflexivity.
  - reflexivity.
Defined.

(** ** scrape_rfq_page: failures give no records, one record per container
    at most *)

Section ScanMore.

Import Scraper Spec.

Variable transport : World -> string -> result Response.
Variable clock : World -> Datetime.datetime.
Variable urljoin : string -> string -> result string.
Variable BeautifulSoup : string -> result Bs4.node.
Variable max_str_digits : nat.
Variable Timedelta_days : Number.number -> result Pandas.Timedelta.
Variable year_width : nat.

(** The loop only appends to the records it has, at most one per
    container. *)
Lemma scan_containers_appends (containers : list Bs4.node) :
  forall (acc : list Dict.dict) (w : World),
  exists new w',
    scan_containers clock urljoin
        max_str_digits Timedelta_days year_width
        containers acc w = (Ok (acc ++ new), w')
    /\ (List.length new <= List.length containers)%nat.
Proof.
  induction containers as [|el rest IH]; intros acc w; cbn [scan_containers].
  - exists [], w. rewrite app_nil_r. split; [reflexivity | cbn; lia].
  - destruct (Bs4.find (Bs4.with_href ["a"]) el) as [a|].
    + unfold bind at 1. rewrite extract_rfq_data_run.
      destruct (extract_rfq_data_rectangular clock urljoin
          max_str_digits Timedelta_days year_width el w) as [_ [Hall _]].
      rewrite record_of_extract in Hall.
      destruct (Hall "Title") as [t Ht]; [cbn; tauto|].
      unfold bind at 1, lift at 1, dict_getitem. rewrite Ht.
      destruct (Text.nonempty t).
      * destruct (IH (acc ++ [fst (extraction_end clock urljoin
          max_str_digits Timedelta_days year_width el w)])
                     (snd (extraction_end clock urljoin
                         max_str_digits Timedelta_days year_width el w)))
          as [new [w' [Hrun Hlen]]].
        exists (fst (extraction_end clock urljoin
            max_str_digits Timedelta_days year_width el w) :: new), w'.
        rewrite Hrun, <- app_assoc. split; [reflexivity | cbn; lia].
      * destruct (IH acc (snd (extraction_end clock urljoin
          max_str_digits Timedelta_days year_width el w)))
          as [new [w' [Hrun Hlen]]].
        exists new, w'. split; [exact Hrun | cbn; lia].
    + destruct (IH acc w) as [new [w' [Hrun Hlen]]].
      exists new, w'. split; [exact Hrun | cbn; lia].
Qed.

(** X5. A page that cannot be fetched, or whose body cannot be parsed,
    yields zero records and no exception: the error stays inside
    [scrape_rfq_page], and the log is the one [get_page] left. *)
Theorem scrape_rfq_page_isolates_failures (url : string) (w : World) :
  (forall e w1,
     get_page transport url 3 w = (Raise e, w1) ->
     scrape_rfq_page transport clock urljoin BeautifulSoup
         max_str_digits Timedelta_days year_width url w = (Ok [], w1))
  /\ (forall r w1 e,
        get_page transport url 3 w = (Ok (Some r), w1) ->
        BeautifulSoup (content r) = Raise e ->
        scrape_rfq_page transport clock urljoin BeautifulSoup
            max_str_digits Timedelta_days year_width url w = (Ok [], w1)).
Proof.
  split.
  - intros e w1 Hget. unfold scrape_rfq_page, try_except.
    unfold bind at 1. rewrite Hget. reflexivity.
  - intros r w1 e Hget Hparse. unfold scrape_rfq_page, try_except.
    unfold bind at 1. rewrite Hget.
    unfold bind at 1, lift at 1. cbn [content_of].
    unfold bind at 1, lift at 1. rewrite Hparse. reflexivity.
Qed.

(** X6. A page that is fetched and parsed gives at most one record per
    candidate container, the containers being those of the narrow pattern
    or, when there is none, those of the broad one. *)
Theorem scrape_rfq_page_one_record_per_container
    (url : string) (w : World) (r : Response) (w1 : World) (soup : Bs4.node) :
  get_page transport url 3 w = (Ok (Some r), w1) ->
  BeautifulSoup (content r) = Ok soup ->
  exists records w',
    scrape_rfq_page transport clock urljoin BeautifulSoup
        max_str_digits Timedelta_days year_width url w = (Ok records, w')
    /\ (List.length records <= List.length (find_containers soup))%nat.
Proof.
  intros Hget Hparse. unfold scrape_rfq_page, try_except.
  unfold bind at 1. rewrite Hget.
  unfold bind at 1, lift at 1. cbn [content_of].
  unfold bind at 1, lift at 1. rewrite Hparse.
  destruct (scan_containers_appends (find_containers soup) [] w1)
    as [new [w' [Hrun Hlen]]].
  rewrite Hrun. exists new, w'. split; [reflexivity | exact Hlen].
Qed.

End ScanMore.

(** The endpoint is down: zero records, and the three attempts in the
    log. *)
Lemma scrape_rfq_page_isolates_failures_witness :
  Scraper.scrape_rfq_page Fixture.transport_down Fixture.clock0 Fixture.urljoin0
    Fixture.BeautifulSoup_site
        Fixture.max_str_digits0 Fixture.Timedelta_days0 Fixture.year_width0
        "u" []
  = (Ok [], [EvGet "u"; EvSleep 1; EvGet "u"; EvSleep 2; EvGet "u"]).
Proof.
  destruct (scrape_rfq_page_isolates_failures Fixture.transport_down
              Fixture.clock0 Fixture.urljoin0 Fixture.BeautifulSoup_site
                  Fixture.max_str_digits0 Fixture.Timedelta_days0 Fixture.year_width0
                  "u" [])
    as [Hfetch _].
  apply (Hfetch (RequestException "connection refused")).
  vm_compute. reflexivity.
Defined.

(** The first page of the site: two candidate containers at most, one
    record. *)
Lemma scrape_rfq_page_one_record_per_container_witness :
  exists records w',
    Scraper.scrape_rfq_page Fixture.transport_site Fixture.clock0
      Fixture.urljoin0 Fixture.BeautifulSoup_site
          Fixture.max_str_digits0 Fixture.Timedelta_days0 Fixture.year_width0
          Fixture.site_start []
    = (Ok records, w')
    /\ (List.length records
        <= List.length (Scraper.find_containers Fixture.page1))%nat.
Proof.
  apply (scrape_rfq_page_one_record_per_container Fixture.transport_site
           Fixture.clock0 Fixture.urljoin0 Fixture.BeautifulSoup_site
               Fixture.max_str_digits0 Fixture.Timedelta_days0 Fixture.year_width0
           Fixture.site_start []
           {| status_code := 200; content := Fixture.site_start |}
           [EvGet Fixture.site_start] Fixture.page1).
  - vm_compute. reflexivity.
  - reflexivity.
Defined.

(** ** get_all_page_urls: only the start page is fetched *)

Section LeavesWorld.

Import Spec.

Context {X : Type}.

Lemma leaves_world_ret {A} (a : A) : leaves_world (@ret (X * World) A a).
Proof. intros x w. reflexivity. Qed.

Lemma leaves_world_lift {A} (r : result A) : leaves_world (@lift (X * World) A r).
Proof. intros x w. reflexivity. Qed.

Lemma leaves_world_read : leaves_world (@read X).
Proof. intros x w. reflexivity. Qed.

Lemma leaves_world_modify (f : X -> X) : leaves_world (modify f).
Proof. intros x w. reflexivity. Qed.

Lemma leaves_world_bind {A B} (c : M (X * World) A) (k : A -> M (X * World) B) :
  leaves_world c -> (forall a, leaves_world (k a)) -> leaves_world (bind c k).
Proof.
  intros Hc Hk x w. unfold bind. specialize (Hc x w).
  destruct (c (x, w)) as [[a|e] [x' w']]; cbn [snd] in Hc; subst w'.
  - apply Hk.
  - reflexivity.
Qed.

End LeavesWorld.

Section DiscoveryMore.

Import Scraper Spec.

Variable transport : World -> string -> result Response.
Variable urljoin : string -> string -> result string.
Variable BeautifulSoup : string -> result Bs4.node.

Lemma leaves_world_append_new (u : string) : leaves_world (append_new u).
Proof.
  unfold append_new. apply leaves_world_bind; [apply leaves_world_read|].
  intros urls. destruct (in_list u urls);
    [apply leaves_world_ret | apply leaves_world_modify].
Qed.

Lemma leaves_world_collect_page_links (page_links : list Bs4.node) :
  leaves_world (collect_page_links urljoin page_links).
Proof.
  induction page_links as [|link rest IH]; cbn [collect_page_links].
  - apply leaves_world_ret.
  - apply leaves_world_bind; [apply leaves_world_lift|]. intros href.
    apply leaves_world_bind; [|intros _; exact IH].
    destruct (Text.contains "page" (Text.lower href)
              || Re.matches false re_p_param href).
    + apply leaves_world_bind; [apply leaves_world_lift|]. intros u.
      apply leaves_world_append_new.
    + apply leaves_world_ret.
Qed.

(** What follows the fetch and the parsing in [discover]. *)
Lemma leaves_world_links (soup : Bs4.node) :
  leaves_world
    (bind
       match Bs4.find (Bs4.by_class ["div"; "ul"] re_pagination) soup with
       | Some pagination =>
           collect_page_links urljoin
             (Bs4.find_all (Bs4.with_href ["a"]) pagination)
       | None => ret tt
       end
       (fun _ =>
          match Bs4.find (Bs4.by_string ["a"] true re_next) soup with
          | Some next_link =>
              match Bs4.get "href" next_link with
              | Some h =>
                  if Text.nonempty h then
                    bind (lift (getitem "href" next_link))
                      (fun href =>
                         bind (lift (urljoin self_base_url href))
                           (fun next_url => append_new next_url))
                  else ret tt
              | None => ret tt
              end
          | None => ret tt
          end)).
Proof.
  apply leaves_world_bind.
  - destruct (Bs4.find _ soup);
      [apply leaves_world_collect_page_links | apply leaves_world_ret].
  - intros _. destruct (Bs4.find _ soup) as [next_link|]; [|apply leaves_world_ret].
    destruct (Bs4.get "href" next_link) as [h|]; [|apply leaves_world_ret].
    destruct (Text.nonempty h); [|apply leaves_world_ret].
    apply leaves_world_bind; [apply leaves_world_lift|]. intros href.
    apply leaves_world_bind; [apply leaves_world_lift|]. intros u.
    apply leaves_world_append_new.
Qed.

(** After the fetch of the start page, discovery works on the parsed page
    alone. *)
Lemma get_all_page_urls_world (base_url : string) (w : World) :
  snd (get_all_page_urls transport urljoin BeautifulSoup base_url w)
  = snd (get_page transport base_url 3 w).
Proof.
  unfold get_all_page_urls, try_except, discover.
  unfold bind at 1, in_world at 1.
  destruct (get_page transport base_url 3 w) as [[response|e] w1];
    [|reflexivity].
  unfold bind at 1, lift at 1.
  destruct (content_of response) as [html|e]; [|reflexivity].
  unfold bind at 1, lift at 1.
  destruct (BeautifulSoup html) as [soup|e]; [|reflexivity].
  pose proof (leaves_world_links soup [base_url] w1) as Hkeep.
  destruct (bind _ _ ([base_url], w1)) as [[u|e] [urls w']];
    cbn [snd] in Hkeep; subst w'; reflexivity.
Qed.

(** X7. Discovery follows no link: the only thing [get_all_page_urls] does
    to the world is the [get_page] of the start URL, so it requests the
    start URL alone, three times at most. *)
Theorem get_all_page_urls_fetches_only_the_start (base_url : string) (w : World) :
  snd (get_all_page_urls transport urljoin BeautifulSoup base_url w)
  = snd (get_page transport base_url 3 w)
  /\ exists t,
       snd (get_all_page_urls transport urljoin BeautifulSoup base_url w) = w ++ t
       /\ Forall (get_or_sleep base_url) t
       /\ (attempts t <= 3)%nat.
Proof.
  pose proof (get_all_page_urls_world base_url w) as Hsame.
  split; [exact Hsame|].
  rewrite Hsame.
  unfold get_page.
  destruct (get_page_from_invariant transport base_url 3 (Z.to_nat 3) 0 w)
    as [t [Hw [Hat [Hall _]]]].
  exists t. split; [exact Hw|]. split; [exact Hall|].
  change (Z.to_nat 3) with 3%nat in Hat. exact Hat.
Qed.

End DiscoveryMore.

(** ** scrape_all_pages: the pages visited are a prefix of the plan *)

Section CrawlMore.

Import Scraper Spec.

Variable transport : World -> string -> result Response.
Variable clock : World -> Datetime.datetime.
Variable urljoin : string -> string -> result string.
Variable BeautifulSoup : string -> result Bs4.node.
Variable max_str_digits : nat.
Variable Timedelta_days : Number.number -> result Pandas.Timedelta.
Variable year_width : nat.

Local Abbreviation scrape_rfq_page' :=
  (scrape_rfq_page transport clock urljoin BeautifulSoup
      max_str_digits Timedelta_days year_width).
Local Abbreviation scrape_pages' :=
  (scrape_pages transport clock urljoin BeautifulSoup
      max_str_digits Timedelta_days year_width).
Local Abbreviation visit_all' :=
  (visit_all transport clock urljoin BeautifulSoup
      max_str_digits Timedelta_days year_width).

(** Discovery returns a list in every world. *)
Lemma get_all_page_urls_returns (base_url : string) (w : World) :
  exists urls w0,
    get_all_page_urls transport urljoin BeautifulSoup base_url w = (Ok urls, w0).
Proof.
  unfold get_all_page_urls.
  destruct (try_except _ _ ([base_url], w)) as [r [urls w0]]. eauto.
Qed.

(** The loop is the plain visit of the pages up to the first empty one. *)
Lemma scrape_pages_visits_a_prefix (page_urls : list string) :
  forall (acc : list Dict.dict) (w : World),
  exists k datas w',
    (k <= List.length page_urls)%nat
    /\ visit_all' (firstn k page_urls) w = (Ok datas, w')
    /\ scrape_pages' page_urls acc w = (Ok (acc ++ List.concat datas), w').
Proof.
  induction page_urls as [|url rest IH]; intros acc w.
  - exists 0%nat, [], w. cbn. rewrite app_nil_r. auto.
  - destruct (scrape_rfq_page_returns transport clock urljoin BeautifulSoup
      max_str_digits Timedelta_days year_width url w)
      as [page_data [wa Hpage]].
    destruct page_data as [|d page_data].
    + exists 1%nat, [[]], (wa ++ [EvSleep 2]).
      split; [cbn; lia|]. split.
      * cbn [firstn visit_all]. unfold bind at 1. rewrite Hpage.
        unfold bind at 1, sleep at 1. reflexivity.
      * cbn [scrape_pages]. unfold bind at 1. rewrite Hpage.
        unfold bind at 1, sleep at 1. cbn. reflexivity.
    + destruct (IH (acc ++ d :: page_data) (wa ++ [EvSleep 2]))
        as [k [datas [w' [Hk [Hvisit Hrun]]]]].
      exists (S k), ((d :: page_data) :: datas), w'.
      split; [cbn; lia|]. split.
      * cbn [firstn visit_all]. unfold bind at 1. rewrite Hpage.
        unfold bind at 1, sleep at 1. unfold bind at 1. rewrite Hvisit.
        reflexivity.
      * cbn [scrape_pages]. unfold bind at 1. rewrite Hpage.
        unfold bind at 1, sleep at 1. rewrite Hrun.
        cbn [List.concat]. rewrite <- app_assoc. reflexivity.
Qed.

(** X8. [scrape_all_pages] never raises, and what it returns is the records,
    page by page, of the first [k] discovered pages, visited one after the
    other with the pause after each; [k] is at most the number of discovered
    pages and, for a limit that is not negative, at most [max_pages]. *)
Theorem scrape_all_pages_visits_a_bounded_prefix
    (start_url : string) (max_pages : Z) (w : World) :
  exists urls w0 k datas w',
    get_all_page_urls transport urljoin BeautifulSoup start_url w = (Ok urls, w0)
    /\ (k <= List.length urls)%nat
    /\ ((0 <= max_pages)%Z -> (k <= Z.to_nat max_pages)%nat)
    /\ visit_all' (firstn k urls) w0 = (Ok datas, w')
    /\ scrape_all_pages transport clock urljoin BeautifulSoup
        max_str_digits Timedelta_days year_width
         start_url max_pages w
       = (Ok (List.concat datas), w').
Proof.
  destruct (get_all_page_urls_returns start_url w) as [urls [w0 Hurls]].
  destruct (scrape_pages_visits_a_prefix (slice_to max_pages urls) [] w0)
    as [k [datas [w' [Hk [Hvisit Hrun]]]]].
  assert (Hslice : exists j, slice_to max_pages urls = firstn j urls
                             /\ ((0 <= max_pages)%Z -> j = Z.to_nat max_pages)).
  { unfold slice_to. destruct (0 <=? max_pages)%Z eqn:Hm.
    - eexists. split; [reflexivity | auto].
    - eexists. split; [reflexivity|]. apply Z.leb_gt in Hm. lia. }
  destruct Hslice as [j [Hj Hbound]].
  rewrite Hj in Hk, Hvisit. rewrite firstn_firstn in Hvisit.
  rewrite length_firstn in Hk.
  exists urls, w0, (Nat.min k j), datas, w'.
  split; [exact Hurls|]. split; [lia|].
  split; [intros Hm; rewrite <- (Hbound Hm); lia|].
  split; [exact Hvisit|].
  unfold scrape_all_pages. unfold bind at 1. rewrite Hurls. exact Hrun.
Qed.


End CrawlMore.


(** ** save_to_csv after extract_rfq_data: records are written as they
    are *)

Section SaveRecords.

Import Scraper Spec.

Lemma field_of_own_keys (d : Dict.dict) :
  NoDup (Dict.keys d) -> map (field_of d) (Dict.keys d) = map snd d.
Proof.
  unfold Dict.keys. induction d as [|[k v] d IH]; intros Hnd; [reflexivity|].
  cbn [map fst snd]. inversion Hnd as [|? ? Hnotin Hnd']; subst.
  f_equal.
  - unfold field_of. cbn [Dict.get]. rewrite String.eqb_refl. reflexivity.
  - rewrite <- (IH Hnd'). apply map_ext_in. intros k' Hk'.
    unfold field_of. cbn [Dict.get].
    destruct (String.eqb k' k) eqn:E; [|reflexivity].
    apply String.eqb_eq in E. subst k'. contradiction.
Qed.

Lemma required_columns_nodup : NoDup required_columns.
Proof.
  unfold required_columns.
  repeat (constructor; [cbn; intuition discriminate|]). constructor.
Qed.

(** The run of [save_to_csv] on a list that is not empty. *)
Lemma save_to_csv_run (data : list Dict.dict) (filename : string) (w : World) :
  data <> [] ->
  exists df,
    save_to_csv data filename w
    = (Ok (Some df),
       w ++ [EvToCsv filename required_columns (expected_rows data)])
    /\ Pandas.columns df = required_columns
    /\ Pandas.csv_rows df = expected_rows data.
Proof.
  intros Hne.
  destruct data as [|d0 data0] eqn:Hdata; [congruence|]. rewrite <- Hdata.
  set (df0 := Pandas.DataFrame_of_dicts data).
  destruct (ensure_columns_spec data df0) as [Hrows Hwant].
  { unfold df0, Pandas.DataFrame_of_dicts. cbn [Pandas.rows Pandas.columns].
    apply map_ext. intros d. apply map_ext_in. intros c Hc.
    unfold cell_during. apply has_column_In in Hc. rewrite Hc. reflexivity. }
  assert (Hcsv : map (map Pandas.field_of_cell)
                   (map (Pandas.select_row required_columns
                           (Pandas.columns (ensure_columns df0)))
                        (Pandas.rows (ensure_columns df0)))
                 = expected_rows data).
  { rewrite Hrows, !map_map. unfold expected_rows.
    apply map_ext_in. intros d Hd.
    rewrite select_row_map by exact Hwant.
    rewrite map_map. apply map_ext. intros c.
    unfold cell_during, field_of.
    destruct (Pandas.has_column c (Pandas.columns df0)) eqn:Hc; [reflexivity|].
    destruct (Dict.get c d) as [v|] eqn:Hget; [|reflexivity].
    exfalso. apply dict_get_key in Hget.
    unfold df0, Pandas.DataFrame_of_dicts in Hc. cbn [Pandas.columns] in Hc.
    rewrite columns_of_spec in Hc. cbn [Pandas.has_column existsb orb] in Hc.
    assert (Hex : existsb (fun d => Pandas.has_column c (Dict.keys d)) data
                  = true).
    { apply existsb_exists. exists d. split; [exact Hd|].
      apply has_column_In. exact Hget. }
    rewrite Hex in Hc. discriminate. }
  eexists. split; [|split].
  - rewrite Hdata at 1. cbn [save_to_csv]. rewrite <- Hdata. fold df0.
    unfold bind at 1, lift at 1.
    rewrite (select_all_present required_columns (ensure_columns df0) Hwant).
    unfold bind, to_csv, ret. cbn [Pandas.columns]. unfold Pandas.csv_rows.
    cbn [Pandas.rows]. rewrite Hcsv. reflexivity.
  - reflexivity.
  - unfold Pandas.csv_rows. cbn [Pandas.rows]. exact Hcsv.
Qed.

(** X10. Records with exactly the sixteen columns, as the page scraper
    returns them, are written as they are: for a list of such records that
    is not empty, the table under the fixed header has one row per record,
    and the row is the values of the record in their order. *)
Theorem save_to_csv_writes_records_verbatim
    (data : list Dict.dict) (filename : string) (w : World) :
  data <> [] ->
  Forall (fun d => Dict.keys d = required_columns) data ->
  exists df,
    save_to_csv data filename w
    = (Ok (Some df),
       w ++ [EvToCsv filename required_columns (map (map snd) data)]).
Proof.
  intros Hne Hrect.
  destruct (save_to_csv_run data filename w Hne) as [df [Hrun _]].
  exists df. rewrite Hrun. do 4 f_equal.
  unfold expected_rows. apply map_ext_in. intros d Hd.
  rewrite Forall_forall in Hrect. specialize (Hrect d Hd).
  rewrite <- Hrect. apply field_of_own_keys.
  rewrite Hrect. apply required_columns_nodup.
Qed.

End SaveRecords.

(** The record of the first page of the site. *)
Lemma save_to_csv_writes_records_verbatim_witness :
  exists df,
    Scraper.save_to_csv [Fixture.record1] "out.csv" []
    = (Ok (Some df),
       [] ++ [EvToCsv "out.csv" Scraper.required_columns
                (map (map snd) [Fixture.record1])]).
Proof.
  apply save_to_csv_writes_records_verbatim.
  - discriminate.
  - constructor; [reflexivity | constructor].
Defined.

(** ** extract_rfq_data: the clock and nothing else *)

Section ExtractWorld.

Import Scraper Spec.

Variable clock : World -> Datetime.datetime.
Variable urljoin : string -> string -> result string.
Variable max_str_digits : nat.
Variable Timedelta_days : Number.number -> result Pandas.Timedelta.
Variable year_width : nat.

Lemma parse_time_ago_world (text : string) (w : World) :
  snd (parse_time_ago clock max_str_digits Timedelta_days year_width text w) = w
  \/ snd (parse_time_ago clock
      max_str_digits Timedelta_days year_width text w) = w ++ [EvNow].
Proof.
  unfold parse_time_ago.
  destruct (negb (Text.nonempty text)); [left; reflexivity|].
  destruct (Re.search re_time_ago _) as [m|]; [|left; reflexivity].
  unfold bind, datetime_now, lift. cbv beta.
  destruct (int_of_digits max_str_digits _) as [number|e]; [|left; reflexivity].
  destruct (mapping_get _ time_mapping) as [per_unit|]; [|left; reflexivity].
  cbv beta.
  destruct (Number.int_mul number per_unit) as [days_ago|e];
    [|left; reflexivity].
  right.
  destruct (Timedelta_days days_ago) as [delta|e]; [|reflexivity].
  destruct (Pandas.datetime_sub _ delta); reflexivity.
Qed.

(** Walks through a step that only assigns. *)
Ltac leaves_world_auto :=
  repeat first
    [ apply leaves_world_ret
    | apply leaves_world_lift
    | apply leaves_world_modify
    | apply leaves_world_bind; [|intros ?]
    | match goal with
      | |- leaves_world (match ?o with _ => _ end) => destruct o
      | |- leaves_world (if ?b then _ else _) => destruct b
      end ].

Lemma leaves_world_extract_link (el : Bs4.node) :
  leaves_world (extract_link urljoin el).
Proof. unfold extract_link, set_item. leaves_world_auto. Qed.

Lemma leaves_world_extract_title (el : Bs4.node) : leaves_world (extract_title el).
Proof. unfold extract_title, set_item. leaves_world_auto. Qed.

Lemma leaves_world_extract_buyer (el : Bs4.node) : leaves_world (extract_buyer el).
Proof. unfold extract_buyer, set_item. leaves_world_auto. Qed.

Lemma leaves_world_extract_image (el : Bs4.node) : leaves_world (extract_image el).
Proof. unfold extract_image, set_item. leaves_world_auto. Qed.

Lemma leaves_world_extract_quotes (el : Bs4.node) : leaves_world (extract_quotes el).
Proof. unfold extract_quotes, set_item. leaves_world_auto. Qed.

Lemma leaves_world_extract_country (el : Bs4.node) :
  leaves_world (extract_country el).
Proof. unfold extract_country, set_item. leaves_world_auto. Qed.

Lemma leaves_world_extract_quantity (el : Bs4.node) :
  leaves_world (extract_quantity el).
Proof. unfold extract_quantity, set_item. leaves_world_auto. Qed.

Lemma leaves_world_extract_flag (k : string) (r : Re.regex) (el : Bs4.node) :
  leaves_world (extract_flag k r el).
Proof. unfold extract_flag, set_item. leaves_world_auto. Qed.

Lemma extract_time_reads_clock_at_most_once (el : Bs4.node) :
  reads_clock_at_most_once (extract_time clock
      max_str_digits Timedelta_days year_width el).
Proof.
  intros d w. unfold extract_time.
  destruct (Bs4.find _ el) as [e|]; [|left; reflexivity].
  pose proof (parse_time_ago_world (Bs4.get_text_strip e) w) as Hw.
  unfold bind, set_item, modify, in_world. cbv beta iota.
  destruct (parse_time_ago clock
      max_str_digits Timedelta_days year_width
      (Bs4.get_text_strip e) w) as [[date|ex] w'];
    cbv beta iota; cbn [snd] in Hw |- *; exact Hw.
Qed.

Lemma once_after_none {A B}
    (c : M (Dict.dict * World) A) (k : A -> M (Dict.dict * World) B) :
  leaves_world c -> (forall a, reads_clock_at_most_once (k a)) ->
  reads_clock_at_most_once (bind c k).
Proof.
  intros Hc Hk d w. unfold bind. specialize (Hc d w).
  destruct (c (d, w)) as [[a|e] [d' w']]; cbn [snd] in Hc; subst w'.
  - apply Hk.
  - left. reflexivity.
Qed.

Lemma none_after_once {A B}
    (c : M (Dict.dict * World) A) (k : A -> M (Dict.dict * World) B) :
  reads_clock_at_most_once c -> (forall a, leaves_world (k a)) ->
  reads_clock_at_most_once (bind c k).
Proof.
  intros Hc Hk d w. unfold bind. specialize (Hc d w).
  destruct (c (d, w)) as [[a|e] [d' w']]; cbn [snd] in Hc.
  - rewrite (Hk a d' w'). exact Hc.
  - exact Hc.
Qed.

Lemma extract_fields_reads_clock_at_most_once (el : Bs4.node) :
  reads_clock_at_most_once (extract_fields clock urljoin
      max_str_digits Timedelta_days year_width el).
Proof.
  unfold extract_fields.
  apply once_after_none; [apply leaves_world_extract_link|]. intros _.
  apply once_after_none; [apply leaves_world_extract_title|]. intros _.
  apply once_after_none; [apply leaves_world_extract_buyer|]. intros _.
  apply once_after_none; [apply leaves_world_extract_image|]. intros _.
  apply none_after_once; [apply extract_time_reads_clock_at_most_once|]. intros _.
  repeat (apply leaves_world_bind; [|intros _]);
    first [ apply leaves_world_extract_quotes
          | apply leaves_world_extract_country
          | apply leaves_world_extract_quantity
          | apply leaves_world_extract_flag ].
Qed.

Lemma extract_fields_keeps_scraping_date (today : string) (el : Bs4.node) :
  keeps (fun d => Dict.get "Scraping Date" d = Some today)
        (extract_fields clock urljoin
            max_str_digits Timedelta_days year_width el).
Proof.
  unfold extract_fields; repeat (apply keeps_bind; [|intros _]);
    unfold extract_link, extract_title, extract_buyer, extract_image,
           extract_time, extract_quotes, extract_country, extract_quantity,
           extract_flag;
    repeat first
      [ apply keeps_ret
      | apply keeps_lift
      | apply keeps_in_world
      | apply keeps_bind; [|intros ?]
      | apply keeps_set_item_other; reflexivity
      | match goal with
        | |- keeps _ (match ?o with _ => _ end) => destruct o
        | |- keeps _ (if ?b then _ else _) => destruct b
        end ].
Qed.

(** X11. Extracting a record makes no request and no pause: it reads the
    clock once, for the scraping date, and at most once more, for the
    inquiry date.  The scraping date of the record is the date of the first
    reading, whatever the node holds and whatever is raised. *)
Theorem extract_rfq_data_reads_only_the_clock (el : Bs4.node) (w : World) :
  (snd (extract_rfq_data clock urljoin
      max_str_digits Timedelta_days year_width el w) = w ++ [EvNow]
   \/ snd (extract_rfq_data clock urljoin
       max_str_digits Timedelta_days year_width el w) = w ++ [EvNow; EvNow])
  /\ Dict.get "Scraping Date" (record_of (extract_rfq_data clock urljoin
      max_str_digits Timedelta_days year_width el w))
     = Some (Datetime.strftime_dmy year_width (clock w)).
Proof.
  split.
  - rewrite extract_rfq_data_run. cbn [snd]. unfold extraction_end, try_except.
    pose proof (extract_fields_reads_clock_at_most_once el
                  (initial_data (Datetime.strftime_dmy year_width (clock w)))
                  (w ++ [EvNow])) as Hw.
    destruct (extract_fields clock urljoin
        max_str_digits Timedelta_days year_width el _) as [[u|e] [d w']];
      cbn [snd] in Hw |- *;
      (destruct Hw as [Hw|Hw]; subst w';
       [left; reflexivity | right; rewrite <- app_assoc; reflexivity]).
  - apply (extract_rfq_data_keeps clock urljoin
      max_str_digits Timedelta_days year_width
             (fun d => Dict.get "Scraping Date" d
                       = Some (Datetime.strftime_dmy year_width (clock w))));
      [apply extract_fields_keeps_scraping_date | reflexivity].
Qed.

End ExtractWorld.

(** ** extract_rfq_data: the id taken from the link *)

Section IdPattern.

Import Text Re Scraper Spec.
Local Open Scope string_scope.

(** The greedy loop over one class of characters runs to the end of a run
    of them when the rest of the pattern matches there. *)
Lemma star_run {A}
    (step : string -> caps -> (string -> caps -> option A) -> option A)
    (p : ascii -> bool) (ds rest : string) (cs : caps)
    (k : string -> caps -> option A) (x : A) :
  (forall s0 cs0 k0, step s0 cs0 k0 = one_char p s0 cs0 k0) ->
  all_chars p ds = true ->
  (rest = "" \/ exists c r, rest = String c r /\ p c = false) ->
  k rest cs = Some x ->
  forall fuel,
    (String.length ds <= fuel)%nat ->
    star_loop step fuel (ds ++ rest) cs k = Some x.
Proof.
  intros Hstep Hds Hrest Hk. induction ds as [|d ds IH]; intros fuel Hfuel.
  - cbn [append]. destruct fuel as [|fuel]; cbn [star_loop]; [exact Hk|].
    rewrite Hstep.
    destruct Hrest as [->|[c [r [-> Hc]]]]; cbn [one_char];
      [|rewrite Hc]; cbn [orelse]; exact Hk.
  - cbn [all_chars] in Hds. apply andb_true_iff in Hds. destruct Hds as [Hd Hds].
    cbn [String.length] in Hfuel.
    destruct fuel as [|fuel]; [lia|].
    cbn [append star_loop]. rewrite Hstep. cbn [one_char]. rewrite Hd.
    cbn [String.length].
    replace (String.length (ds ++ rest) <? S (String.length (ds ++ rest)))%nat
      with true by (symmetry; apply Nat.ltb_lt; lia).
    rewrite (IH Hds fuel) by lia. reflexivity.
Qed.

Lemma match_here_id_needs_I (c : ascii) (s : string) :
  not_I c = true -> match_here false re_id (String c s) = None.
Proof.
  unfold not_I. intros Hc. apply negb_true_iff in Hc.
  unfold match_here, re_id. cbn [lits rmatch one_char lit_eq]. rewrite Hc.
  reflexivity.
Qed.

Lemma search_id_skips (p s : string) :
  all_chars not_I p = true -> search re_id (p ++ s) = search re_id s.
Proof.
  unfold search. induction p as [|c p IH]; intros Hp; [reflexivity|].
  cbn [all_chars] in Hp. apply andb_true_iff in Hp. destruct Hp as [Hc Hp].
  cbn [append search_flags]. rewrite match_here_id_needs_I by exact Hc.
  apply IH. exact Hp.
Qed.

Lemma search_id_none (s : string) :
  all_chars not_I s = true -> search re_id s = None.
Proof.
  unfold search. induction s as [|c s IH]; intros Hs; [reflexivity|].
  cbn [all_chars] in Hs. apply andb_true_iff in Hs. destruct Hs as [Hc Hs].
  cbn [search_flags]. rewrite match_here_id_needs_I by exact Hc.
  apply IH. exact Hs.
Qed.

Lemma contains_infix (sub pre rest : string) :
  contains sub (pre ++ sub ++ rest) = true.
Proof.
  assert (Hstart : forall a b, startswith a (a ++ b) = true).
  { induction a as [|x a IH]; intros b; cbn; [reflexivity|].
    rewrite Ascii.eqb_refl. apply IH. }
  induction pre as [|c pre IH]; cbn [append].
  - destruct (sub ++ rest) eqn:E; cbn [contains];
      rewrite <- E, Hstart; reflexivity.
  - cbn [contains]. rewrite IH. apply orb_true_r.
Qed.

(** The id of a link: what follows the first "ID" up to the next
    ampersand, when that is not empty. *)
Lemma search_id_found (pre body tail : string) :
  all_chars not_I pre = true ->
  body <> "" ->
  all_chars not_amp body = true ->
  ends_id tail ->
  search re_id (pre ++ "ID" ++ body ++ tail) = Some [(1, body)].
Proof.
  intros Hpre Hne Hbody Htail.
  rewrite search_id_skips by exact Hpre.
  destruct body as [|b bs]; [congruence|].
  cbn [all_chars] in Hbody. apply andb_true_iff in Hbody.
  destruct Hbody as [Hb Hbs].
  unfold search. cbn [append search_flags].
  assert (Hmatch :
    match_here false re_id (String "I" (String "D" (String b (bs ++ tail))))
    = Some [(1, String b bs)]).
  { unfold match_here, re_id. cbn [lits rmatch one_char lit_eq].
    change (Ascii.eqb "I" "I") with true. change (Ascii.eqb "D" "D") with true.
    cbv iota. fold (not_amp b). rewrite Hb.
    apply (star_run _ not_amp);
      [reflexivity | exact Hbs | | | rewrite length_append; lia].
    - destruct Htail as [->|[r ->]]; [left; reflexivity|].
      right. exists "&"%char, r. split; reflexivity.
    - rewrite (consumed_prefix (String b bs) tail) by reflexivity. reflexivity. }
  rewrite Hmatch. reflexivity.
Qed.

(** Nothing follows "ID" before the ampersand or the end: no id. *)
Lemma search_id_empty (pre tail : string) :
  all_chars not_I pre = true ->
  all_chars not_I tail = true ->
  ends_id tail ->
  search re_id (pre ++ "ID" ++ tail) = None.
Proof.
  intros Hpre Htail_I Htail.
  rewrite search_id_skips by exact Hpre.
  unfold search. cbn [append search_flags].
  assert (Hmatch : match_here false re_id (String "I" (String "D" tail)) = None).
  { unfold match_here, re_id. cbn [lits rmatch one_char lit_eq].
    change (Ascii.eqb "I" "I") with true. change (Ascii.eqb "D" "D") with true.
    cbv iota. destruct Htail as [->|[r ->]]; reflexivity. }
  rewrite Hmatch.
  apply (search_id_none (String "D" tail)).
  cbn [all_chars]. rewrite Htail_I. reflexivity.
Qed.

Variable clock : World -> Datetime.datetime.
Variable urljoin : string -> string -> result string.
Variable max_str_digits : nat.
Variable Timedelta_days : Number.number -> result Pandas.Timedelta.
Variable year_width : nat.

Lemma time_normalises_or_raises (el : Bs4.node) (w : World) :
  time_normalises clock
      max_str_digits Timedelta_days year_width
      el w \/ time_raises clock max_str_digits Timedelta_days year_width el w.
Proof.
  unfold time_normalises, time_raises.
  destruct (Bs4.find (Bs4.by_string ["span"; "div"] false re_when) el) as [e|].
  - destruct (fst (parse_time_ago clock
      max_str_digits Timedelta_days year_width (Bs4.get_text_strip e) w))
      as [date|ex] eqn:Hrun.
    + left. intros e' He'. inversion He'; subst e'. eauto.
    + right. exists e, ex. auto.
  - left. intros e He. discriminate He.
Qed.

(** Once the URL of the link resolves, the id of the record is the id of
    the link, whatever happens later in the extraction. *)
Lemma record_id_is_id_of (el : Bs4.node) (w : World) :
  link_resolves urljoin el ->
  Dict.get "RFQ ID" (record_of (extract_rfq_data clock urljoin
      max_str_digits Timedelta_days year_width el w))
  = Some (id_of el).
Proof.
  intros Hlink.
  rewrite (record_of_extract clock urljoin
      max_str_digits Timedelta_days year_width
      ). unfold extraction_end, try_except.
  destruct (time_normalises_or_raises el (w ++ [EvNow])%list) as [Ht|Ht].
  - destruct (extract_fields_run clock urljoin
      max_str_digits Timedelta_days year_width el
                (Datetime.strftime_dmy year_width (clock w)) (w ++ [EvNow])%list Hlink Ht)
      as [w' Hrun].
    destruct (extract_fields clock urljoin
        max_str_digits Timedelta_days year_width el _) as [r st].
    inversion Hrun. reflexivity.
  - destruct (extract_fields_time_raises clock urljoin
      max_str_digits Timedelta_days year_width el
                (Datetime.strftime_dmy year_width (clock w)) (w ++ [EvNow])%list Hlink Ht)
      as [ex [w' Hrun]].
    destruct (extract_fields clock urljoin
        max_str_digits Timedelta_days year_width el _) as [r st].
    inversion Hrun. reflexivity.
Qed.

(** X12. When the URL of the first link with an href resolves and that
    href reads: a part without capital I, "ID", a body without ampersand,
    and then nothing or an ampersand with the rest, the RFQ id of the record
    is the body if the body is not empty; and it is empty if the body is
    empty and no capital I follows. *)
Theorem extract_rfq_data_id_follows_ID
    (el : Bs4.node) (w : World) (pre body tail : string) :
  href_of el = Some (pre ++ "ID" ++ body ++ tail) ->
  all_chars not_I pre = true ->
  all_chars not_amp body = true ->
  ends_id tail ->
  link_resolves urljoin el ->
  (body <> "" ->
   Dict.get "RFQ ID" (record_of (extract_rfq_data clock urljoin
       max_str_digits Timedelta_days year_width el w))
   = Some body)
  /\ (body = "" -> all_chars not_I tail = true ->
      Dict.get "RFQ ID" (record_of (extract_rfq_data clock urljoin
          max_str_digits Timedelta_days year_width el w))
      = Some "").
Proof.
  intros Hhref Hpre Hbody Htail Hlink.
  rewrite (record_id_is_id_of el w Hlink).
  unfold id_of. rewrite Hhref, contains_infix.
  split.
  - intros Hne. rewrite (search_id_found pre body tail Hpre Hne Hbody Htail).
    reflexivity.
  - intros -> Htail_I.
    change (pre ++ "ID" ++ "" ++ tail) with (pre ++ "ID" ++ tail).
    rewrite (search_id_empty pre tail Hpre Htail_I Htail). reflexivity.
Qed.

End IdPattern.

(** A link with the id between two other parameters. *)
Lemma extract_rfq_data_id_follows_ID_witness :
  Dict.get "RFQ ID"
    (Spec.record_of
       (Scraper.extract_rfq_data Fixture.clock0 Fixture.urljoin0
           Fixture.max_str_digits0 Fixture.Timedelta_days0 Fixture.year_width0
          Fixture.item_with_id []))
  = Some "4521-x".
Proof.
  destruct (extract_rfq_data_id_follows_ID Fixture.clock0 Fixture.urljoin0
      Fixture.max_str_digits0 Fixture.Timedelta_days0 Fixture.year_width0
              Fixture.item_with_id [] "/rfq/detail?spm=a27&" "4521-x"
              "&country=AE" eq_refl eq_refl eq_refl)
    as [Hid _].
  - right. eexists. reflexivity.
  - intros href _. unfold Fixture.urljoin0. eexists. reflexivity.
  - apply Hid. discriminate.
Defined.

(** ** parse_time_ago: the blank between number and unit is optional *)

Section TimePatternMore.

Import Text Re Scraper Spec.
Local Open Scope string_scope.

Lemma lower_char_of_space (c : ascii) : is_space c = true -> lower_char c = c.
Proof.
  destruct c as [[] [] [] [] [] [] [] []]; vm_compute; intros H;
    first [reflexivity | discriminate H].
Qed.

Lemma space_is_not_digit (c : ascii) : is_space c = true -> is_digit c = false.
Proof.
  destruct c as [[] [] [] [] [] [] [] []]; vm_compute; intros H;
    first [reflexivity | discriminate H].
Qed.

Lemma lower_of_spaces (ws : string) :
  all_chars is_space ws = true -> lower ws = ws.
Proof.
  induction ws as [|c ws IH]; cbn [all_chars lower]; [reflexivity|].
  intros H. apply andb_true_iff in H. destruct H as [Hc Hws].
  rewrite lower_char_of_space by exact Hc. rewrite IH by exact Hws. reflexivity.
Qed.

Lemma strip_lower_shape_blanks (pre ws U post : string) (d : ascii) (ds : string)
    (per_unit : Q) :
  all_chars (fun c => negb (is_digit c)) pre = true ->
  all_chars is_digit (String d ds) = true ->
  all_chars is_space ws = true ->
  days_per_unit (lower U) = Some per_unit ->
  exists p q,
    strip (lower (pre ++ String d ds ++ ws ++ U ++ post))
    = p ++ String d ds ++ ws ++ lower U ++ q
    /\ all_chars (fun c => negb (is_digit c)) p = true.
Proof.
  intros Hpre Hds Hws Hu.
  destruct (unit_is_a_word _ _ Hu) as [Hne Hword].
  rewrite !lower_append. rewrite (lower_of_digits _ Hds), (lower_of_spaces _ Hws).
  assert (Hd : is_space d = false).
  { apply digit_is_not_space. cbn [all_chars] in Hds.
    apply andb_true_iff in Hds. tauto. }
  unfold strip. cbn [append].
  destruct (lstrip_stops (lower pre) d
              (ds ++ ws ++ lower U ++ lower post) Hd
              (lower_keeps_digit_free pre Hpre)) as [p [Hl Hp]].
  rewrite Hl.
  destruct (rstrip_keeps_word (lower U) Hne Hword
              (p ++ String d ds ++ ws) (lower post)) as [q Hq].
  exists p, q. split; [|exact Hp].
  rewrite !append_assoc in Hq. cbn [append] in Hq. exact Hq.
Qed.

Lemma rmatch_group_digits_then {A} (i : nat) (d : ascii) (ds rest : string)
    (cs : caps) (k : string -> caps -> option A) (x : A) :
  all_chars is_digit (String d ds) = true ->
  (exists c r, rest = String c r /\ is_digit c = false) ->
  k rest ((i, String d ds) :: cs) = Some x ->
  rmatch false (Group i (Plus Digit)) (String d ds ++ rest) cs k = Some x.
Proof.
  intros Hds [c [r [-> Hc]]] Hk. apply rmatch_group_digits; assumption.
Qed.

(** After the digits and any run of whitespace, the unit group. *)
Ltac match_unit_after_blanks Hds Hws ws :=
  split; [|reflexivity];
  unfold match_here, re_time_ago;
  change (rmatch false (Cat ?g ?rest) ?s [] ?k)
    with (rmatch false g s [] (fun s' cs' => rmatch false rest s' cs' k));
  apply rmatch_group_digits_then;
    [ exact Hds
    | destruct ws as [|b ws'];
      [ eexists; eexists; split; reflexivity
      | cbn [all_chars] in Hws; apply andb_true_iff in Hws;
        exists b; eexists; split;
        [reflexivity | apply space_is_not_digit; tauto] ]
    | ];
  change (rmatch false (Cat (Star Space) ?rest) ?s ?cs ?k)
    with (star_loop (fun s0 cs0 k0 => rmatch false Space s0 cs0 k0)
            (String.length s) s cs
            (fun s' cs' => rmatch false rest s' cs' k));
  apply (star_run _ is_space);
    [ reflexivity
    | exact Hws
    | right; eexists; eexists; split; reflexivity
    | cbn -[consumed]; do 3 f_equal; apply consumed_prefix; reflexivity
    | rewrite length_append; lia ].

Lemma match_here_number_blanks_unit (d : ascii) (ds ws u q : string)
    (per_unit : Q) :
  all_chars is_digit (String d ds) = true ->
  all_chars is_space ws = true ->
  days_per_unit u = Some per_unit ->
  exists stem,
    match_here false re_time_ago (String d ds ++ ws ++ u ++ q)
    = Some [(2, stem); (1, String d ds)]
    /\ mapping_get stem time_mapping = Some (factor_of per_unit).
Proof.
  intros Hds Hws Hu. apply days_per_unit_cases in Hu. cbn [In] in Hu.
  destruct Hu as [Hu|[Hu|[Hu|[Hu|[Hu|[Hu|[Hu|[Hu|[]]]]]]]]];
    injection Hu as <- <-.
  - exists "hour". match_unit_after_blanks Hds Hws ws.
  - exists "hour". match_unit_after_blanks Hds Hws ws.
  - exists "day". match_unit_after_blanks Hds Hws ws.
  - exists "day". match_unit_after_blanks Hds Hws ws.
  - exists "week". match_unit_after_blanks Hds Hws ws.
  - exists "week". match_unit_after_blanks Hds Hws ws.
  - exists "month". match_unit_after_blanks Hds Hws ws.
  - exists "month". match_unit_after_blanks Hds Hws ws.
Qed.

Variable clock : World -> Datetime.datetime.
Variable max_str_digits : nat.
Variable Timedelta_days : Number.number -> result Pandas.Timedelta.
Variable year_width : nat.

(** X13. The number and the unit may be joined directly or by any run of
    whitespace: for a text in which a natural number in decimal, with no
    more digits than [int] converts, such a run and a unit (in any case)
    come after a part without digit, [parse_time_ago] does what it does for
    the number, one blank and the unit.  The number is multiplied by the
    days of the unit as Python holds them, the float nearest to 1/24 for
    the hour; then the clock is read once and the result is the date that
    lies what [pd.Timedelta] makes of these days before now, or what pandas
    or [datetime] raises.  For days, weeks and months, when pandas holds
    the whole number of days, that is the date number times days-per-unit
    before now, or an [OverflowError] outside the years of [datetime]. *)
Theorem parse_time_ago_number_blanks_unit
    (pre ws U post : string) (n : nat) (per_unit : Q) (w : World) :
  all_chars (fun c => negb (is_digit c)) pre = true ->
  all_chars is_space ws = true ->
  days_per_unit (lower U) = Some per_unit ->
  converts max_str_digits (str_of_nat n) ->
  parse_time_ago clock max_str_digits Timedelta_days year_width
    (pre ++ str_of_nat n ++ ws ++ U ++ post) w
  = date_ago clock Timedelta_days year_width (days_ago_of (Z.of_nat n) per_unit) w
  /\ (forall k,
        per_unit = inject_Z k ->
        holds_days Timedelta_days (Z.of_nat n * k) ->
        parse_time_ago clock max_str_digits Timedelta_days year_width
          (pre ++ str_of_nat n ++ ws ++ U ++ post) w
        = (if Datetime.in_range
                (minus_days (clock w) (Qmult (inject_Z (Z.of_nat n)) per_unit))
           then Ok (Datetime.strftime_dmy year_width
                      (minus_days (clock w)
                         (Qmult (inject_Z (Z.of_nat n)) per_unit)))
           else Raise OverflowError,
           (w ++ [EvNow])%list)).
Proof.
  intros Hpre Hws Hu Hconv.
  destruct (str_of_nat_spec n) as [d [ds [Hstr [Hds Hint]]]].
  rewrite Hstr in Hconv |- *.
  destruct (strip_lower_shape_blanks pre ws U post d ds per_unit Hpre Hds Hws Hu)
    as [p [q [Hshape Hp]]].
  destruct (match_here_number_blanks_unit d ds ws (lower U) q per_unit Hds Hws Hu)
    as [stem [Hmatch Hmap]].
  assert (Hrun :
    parse_time_ago clock max_str_digits Timedelta_days year_width
      (pre ++ String d ds ++ ws ++ U ++ post) w
    = date_ago clock Timedelta_days year_width (days_ago_of (Z.of_nat n) per_unit) w).
  { apply (parse_time_ago_found clock max_str_digits Timedelta_days year_width
             _ (String d ds) stem [(2, stem); (1, String d ds)]);
      try reflexivity; try assumption.
    - cbn [append]. apply nonempty_append_r.
    - cbn [append] in Hshape. cbn [append]. rewrite Hshape.
      rewrite search_skips_digit_free by exact Hp.
      unfold search. cbn [append] in Hmatch |- *. cbn [search_flags].
      rewrite Hmatch. reflexivity. }
  split; [exact Hrun|].
  intros k -> Hholds. rewrite Hrun.
  apply date_ago_whole_days. exact Hholds.
Qed.

End TimePatternMore.

(** Number and unit joined directly, the unit in capitals, and a tab and a
    blank between them. *)
Lemma parse_time_ago_number_blanks_unit_witness :
  Scraper.parse_time_ago Fixture.clock0 Fixture.max_str_digits0
    Fixture.Timedelta_days0 Fixture.year_width0 "Posted 3WEEKS back" []
  = (Ok "30-12-2023", [EvNow])
  /\ Scraper.parse_time_ago Fixture.clock0 Fixture.max_str_digits0
       Fixture.Timedelta_days0 Fixture.year_width0
       (String.append "1" (String (ascii_of_nat 9) " Hour before")) []
     = (Ok "19-01-2024", [EvNow]).
Proof.
  assert (Hconv : forall n, (n < 10)%nat ->
            Spec.converts Fixture.max_str_digits0 (Text.str_of_nat n)).
  { intros n Hn. left.
    do 10 (destruct n as [|n]; [vm_compute; lia|]). lia. }
  split.
  - destruct (parse_time_ago_number_blanks_unit Fixture.clock0
                Fixture.max_str_digits0 Fixture.Timedelta_days0 Fixture.year_width0
                "Posted " "" "WEEKS" " back" 3 (inject_Z 7) []
                eq_refl eq_refl eq_refl (Hconv 3%nat ltac:(lia)))
      as [_ Hdays].
    exact (Hdays 7%Z eq_refl eq_refl).
  - destruct (parse_time_ago_number_blanks_unit Fixture.clock0
                Fixture.max_str_digits0 Fixture.Timedelta_days0 Fixture.year_width0
                "" (String (ascii_of_nat 9) " ") "Hour" " before" 1
                (1 # 24)%Q [] eq_refl eq_refl eq_refl
                (Hconv 1%nat ltac:(lia)))
      as [Hrun _].
    refine (eq_trans Hrun _). vm_compute. reflexivity.
Defined.

(** ** parse_time_ago: normalising twice is normalising once *)

Section Idempotence.

Import Text Re Scraper Spec.
Local Open Scope string_scope.

Lemma lower_char_idempotent (c : ascii) : lower_char (lower_char c) = lower_char c.
Proof. destruct c as [[] [] [] [] [] [] [] []]; vm_compute; reflexivity. Qed.

Lemma lower_char_is_space (c : ascii) : is_space (lower_char c) = is_space c.
Proof. destruct c as [[] [] [] [] [] [] [] []]; vm_compute; reflexivity. Qed.

Lemma lower_idempotent (s : string) : lower (lower s) = lower s.
Proof.
  induction s as [|c s IH]; cbn [lower]; [reflexivity|].
  rewrite lower_char_idempotent, IH. reflexivity.
Qed.

Lemma lstrip_lower (s : string) : lstrip (lower s) = lower (lstrip s).
Proof.
  induction s as [|c s IH]; cbn [lower lstrip]; [reflexivity|].
  rewrite lower_char_is_space. destruct (is_space c); [exact IH | reflexivity].
Qed.

Lemma rstrip_lower (s : string) : rstrip (lower s) = lower (rstrip s).
Proof.
  induction s as [|c s IH]; cbn [lower rstrip]; [reflexivity|].
  rewrite IH, lower_char_is_space.
  destruct (rstrip s) as [|y r]; cbn [lower]; [|reflexivity].
  destruct (is_space c); reflexivity.
Qed.

Lemma strip_lower (s : string) : strip (lower s) = lower (strip s).
Proof. unfold strip. rewrite lstrip_lower, rstrip_lower. reflexivity. Qed.

Lemma lstrip_head (s : string) :
  lstrip s = "" \/ exists c r, lstrip s = String c r /\ is_space c = false.
Proof.
  induction s as [|c s IH]; cbn [lstrip]; [left; reflexivity|].
  destruct (is_space c) eqn:Hc; [exact IH|].
  right. exists c, s. auto.
Qed.

Lemma rstrip_idempotent (s : string) : rstrip (rstrip s) = rstrip s.
Proof.
  induction s as [|c s IH]; cbn [rstrip]; [reflexivity|].
  destruct (rstrip s) as [|y r] eqn:E.
  - destruct (is_space c) eqn:Hc; [reflexivity|].
    cbn [rstrip]. rewrite Hc. reflexivity.
  - cbn [rstrip] in IH |- *. rewrite IH. reflexivity.
Qed.

Lemma rstrip_keeps_head (c : ascii) (r : string) :
  is_space c = false -> exists r', rstrip (String c r) = String c r'.
Proof.
  intros Hc. cbn [rstrip]. destruct (rstrip r) as [|y r'].
  - rewrite Hc. eauto.
  - eauto.
Qed.

Lemma strip_idempotent (s : string) : strip (strip s) = strip s.
Proof.
  unfold strip.
  destruct (lstrip_head s) as [E|[c [r [E Hc]]]]; rewrite E.
  - reflexivity.
  - destruct (rstrip_keeps_head c r Hc) as [r' Hr]. rewrite Hr.
    cbn [lstrip]. rewrite Hc. rewrite <- Hr. apply rstrip_idempotent.
Qed.

(** The lower-cased, stripped form of a text is its own such form. *)
Lemma normal_form_fixed (s : string) :
  strip (lower (strip (lower s))) = strip (lower s).
Proof.
  rewrite <- strip_lower, lower_idempotent.
  apply strip_idempotent.
Qed.

(** *** Dates hold no pattern *)

Lemma date_char_facts (c : ascii) :
  date_char c = true ->
  lower_char c = c /\ is_space c = false
  /\ Ascii.eqb "h" c = false /\ Ascii.eqb "d" c = false
  /\ Ascii.eqb "w" c = false /\ Ascii.eqb "m" c = false.
Proof.
  destruct c as [[] [] [] [] [] [] [] []]; vm_compute; intros H;
    first [discriminate H | repeat split].
Qed.

Lemma all_chars_append (p : ascii -> bool) (a b : string) :
  all_chars p (a ++ b) = all_chars p a && all_chars p b.
Proof.
  induction a as [|c a IH]; cbn [append all_chars]; [reflexivity|].
  rewrite IH, andb_assoc. reflexivity.
Qed.

Lemma digits_are_date_chars (s : string) :
  all_chars is_digit s = true -> all_chars date_char s = true.
Proof.
  induction s as [|c s IH]; cbn [all_chars]; [reflexivity|].
  intros H. apply andb_true_iff in H. destruct H as [Hc Hs].
  unfold date_char at 1. rewrite Hc, (IH Hs). reflexivity.
Qed.

Lemma zfill_date_chars (width : nat) (s : string) :
  all_chars date_char s = true -> all_chars date_char (zfill width s) = true.
Proof.
  revert s. induction width as [|width IH]; intros s Hs; cbn [zfill].
  - destruct (0 - String.length s)%nat; exact Hs.
  - destruct (S width - String.length s)%nat; [exact Hs|].
    cbn [all_chars]. rewrite (IH s Hs). reflexivity.
Qed.

Lemma decimal_date_chars (z : Z) : all_chars date_char (Datetime.decimal z) = true.
Proof.
  unfold Datetime.decimal.
  destruct (str_of_nat_spec (Z.to_nat z)) as [d [ds [Hstr [Hall _]]]].
  rewrite Hstr. apply digits_are_date_chars. exact Hall.
Qed.

Lemma strftime_date_chars (year_width : nat) (t : Datetime.datetime) :
  all_chars date_char (Datetime.strftime_dmy year_width t) = true.
Proof.
  unfold Datetime.strftime_dmy.
  destruct (Datetime.ord2ymd (Datetime.toordinal t)) as [[y m] d].
  rewrite !all_chars_append.
  rewrite !zfill_date_chars by apply decimal_date_chars.
  reflexivity.
Qed.

Lemma lower_of_date (s : string) : all_chars date_char s = true -> lower s = s.
Proof.
  induction s as [|c s IH]; cbn [all_chars lower]; [reflexivity|].
  intros H. apply andb_true_iff in H. destruct H as [Hc Hs].
  destruct (date_char_facts c Hc) as [Hl _]. rewrite Hl, (IH Hs). reflexivity.
Qed.

Lemma rstrip_of_date (s : string) : all_chars date_char s = true -> rstrip s = s.
Proof.
  induction s as [|c s IH]; cbn [all_chars rstrip]; [reflexivity|].
  intros H. apply andb_true_iff in H. destruct H as [Hc Hs].
  destruct (date_char_facts c Hc) as [_ [Hsp _]].
  rewrite (IH Hs). destruct s; [rewrite Hsp|]; reflexivity.
Qed.

Lemma strip_of_date (s : string) : all_chars date_char s = true -> strip s = s.
Proof.
  intros Hs. unfold strip.
  assert (Hl : lstrip s = s).
  { destruct s as [|c s]; [reflexivity|].
    cbn [all_chars] in Hs. apply andb_true_iff in Hs. destruct Hs as [Hc _].
    destruct (date_char_facts c Hc) as [_ [Hsp _]].
    cbn [lstrip]. rewrite Hsp. reflexivity. }
  rewrite Hl. apply rstrip_of_date. exact Hs.
Qed.

(** After the number, no unit starts with a digit or a dash. *)
Lemma unit_part_fails_on_date {A} (s : string) (cs : caps)
    (k : string -> caps -> option A) :
  all_chars date_char s = true ->
  rmatch false (Cat (Star Space) (Group 2 (words time_units))) s cs k = None.
Proof.
  intros Hs. destruct s as [|c r].
  - reflexivity.
  - cbn [all_chars] in Hs. apply andb_true_iff in Hs. destruct Hs as [Hc _].
    destruct (date_char_facts c Hc) as [_ [Hsp [Hh [Hd [Hw Hm]]]]].
    cbn [rmatch String.length star_loop one_char]. rewrite Hsp.
    cbn [orelse time_units words lits rmatch one_char lit_eq].
    rewrite Hh, Hd, Hw, Hm. reflexivity.
Qed.

Lemma star_digits_fails_on_date {A}
    (step : string -> caps -> (string -> caps -> option A) -> option A)
    (k : string -> caps -> option A) :
  (forall s0 cs0 k0, step s0 cs0 k0 = one_char is_digit s0 cs0 k0) ->
  (forall s' cs', all_chars date_char s' = true -> k s' cs' = None) ->
  forall fuel s cs,
    all_chars date_char s = true -> star_loop step fuel s cs k = None.
Proof.
  intros Hstep Hk. induction fuel as [|fuel IH]; intros s cs Hs; cbn [star_loop].
  - apply Hk. exact Hs.
  - rewrite Hstep, (Hk s cs Hs).
    destruct s as [|c r]; [reflexivity|].
    cbn [all_chars] in Hs. apply andb_true_iff in Hs. destruct Hs as [_ Hr].
    cbn [one_char]. destruct (is_digit c); [|reflexivity].
    destruct (String.length r <? String.length (String c r))%nat; [|reflexivity].
    rewrite (IH r cs Hr). reflexivity.
Qed.

Lemma match_here_fails_on_date (s : string) :
  all_chars date_char s = true -> match_here false re_time_ago s = None.
Proof.
  intros Hs. unfold match_here, re_time_ago.
  cbn [rmatch].
  destruct s as [|c r]; [reflexivity|].
  cbn [all_chars] in Hs. apply andb_true_iff in Hs. destruct Hs as [_ Hr].
  cbn [one_char]. destruct (is_digit c); [|reflexivity].
  apply star_digits_fails_on_date; [reflexivity | | exact Hr].
  intros s' cs' Hs'.
  apply (unit_part_fails_on_date s' _ (fun _ cs0 => Some cs0) Hs').
Qed.

Lemma search_fails_on_date (s : string) :
  all_chars date_char s = true -> search re_time_ago s = None.
Proof.
  unfold search. induction s as [|c s IH]; intros Hs.
  - reflexivity.
  - cbn [search_flags]. rewrite (match_here_fails_on_date _ Hs).
    cbn [all_chars] in Hs. apply andb_true_iff in Hs. apply IH. tauto.
Qed.

Variable clock : World -> Datetime.datetime.
Variable max_str_digits : nat.
Variable Timedelta_days : Number.number -> result Pandas.Timedelta.
Variable year_width : nat.

Lemma parse_time_ago_of_date (t : Datetime.datetime) (w : World) :
  parse_time_ago clock
      max_str_digits Timedelta_days year_width
      (Datetime.strftime_dmy year_width t) w
  = (Ok (Datetime.strftime_dmy year_width t), w).
Proof.
  pose proof (strftime_date_chars year_width t) as Hd.
  rewrite (parse_time_ago_no_pattern clock
      max_str_digits Timedelta_days year_width);
    rewrite (lower_of_date _ Hd), (strip_of_date _ Hd);
    [reflexivity | apply search_fails_on_date; exact Hd].
Qed.

(** What is returned without a date is returned again. *)
Lemma parse_time_ago_of_normal_form (s : string) (w : World) :
  (match search re_time_ago (strip (lower s)) with
   | Some m =>
       exists number,
         int_of_digits max_str_digits (group_text 1 m) = Ok number
         /\ mapping_get (group_text 2 m) time_mapping = None
   | None => True
   end) ->
  parse_time_ago clock
      max_str_digits Timedelta_days year_width (strip (lower s)) w
  = (Ok (strip (lower s)), w).
Proof.
  intros Hbranch. unfold parse_time_ago.
  destruct (strip (lower s)) as [|c t] eqn:E; [reflexivity|].
  cbn [nonempty negb]. revert Hbranch. rewrite <- E, normal_form_fixed.
  destruct (search re_time_ago (strip (lower s))) as [m|]; [|reflexivity].
  intros [number [Hint Hmap]].
  unfold bind at 1, lift at 1. rewrite Hint, Hmap. reflexivity.
Qed.

(** X14. Normalising twice is normalising once: whatever [parse_time_ago]
    returns, a date or a lower-cased and stripped text, it returns again
    when given it, without reading the clock. *)
Theorem parse_time_ago_idempotent (text : string) (w : World)
    (r : string) (w' : World) :
  parse_time_ago clock
      max_str_digits Timedelta_days year_width text w = (Ok r, w') ->
  parse_time_ago clock
      max_str_digits Timedelta_days year_width r w' = (Ok r, w').
Proof.
  intros Hrun. unfold parse_time_ago in Hrun.
  destruct text as [|c text]; cbn [nonempty negb] in Hrun.
  - inversion Hrun; subst. reflexivity.
  - pose proof (parse_time_ago_of_normal_form (String c text) w) as Hfix.
    revert Hrun Hfix.
    destruct (search re_time_ago (strip (lower (String c text)))) as [m|].
    + unfold bind at 1, lift at 1.
      destruct (int_of_digits max_str_digits (group_text 1 m)) as [number|e];
        [|intros Hrun; discriminate Hrun].
      destruct (mapping_get (group_text 2 m) time_mapping) as [per_unit|];
        intros Hrun Hfix.
      * unfold bind at 1, lift at 1 in Hrun.
        destruct (Number.int_mul number per_unit) as [days_ago|e];
          [|discriminate Hrun].
        unfold bind, datetime_now, lift in Hrun.
        destruct (Timedelta_days days_ago) as [delta|e]; [|discriminate Hrun].
        destruct (Pandas.datetime_sub _ delta) as [target|e];
          [|discriminate Hrun].
        inversion Hrun; subst. apply parse_time_ago_of_date.
      * inversion Hrun; subst. apply Hfix. exists number. auto.
    + intros Hrun Hfix. inversion Hrun; subst. apply Hfix. exact I.
Qed.

End Idempotence.

(** The example of the specification, normalised a second time. *)
Lemma parse_time_ago_idempotent_witness :
  Scraper.parse_time_ago Fixture.clock0
      Fixture.max_str_digits0 Fixture.Timedelta_days0 Fixture.year_width0
      "08-01-2024" [EvNow]
  = (Ok "08-01-2024", [EvNow]).
Proof.
  apply (parse_time_ago_idempotent Fixture.clock0
      Fixture.max_str_digits0 Fixture.Timedelta_days0 Fixture.year_width0
      "12 days ago" []).
  vm_compute. reflexivity.
Defined.

(** ** scrape_all_pages: what is requested *)

Section CrawlRequests.

Import Scraper Spec.

Variable transport : World -> string -> result Response.
Variable clock : World -> Datetime.datetime.
Variable urljoin : string -> string -> result string.
Variable BeautifulSoup : string -> result Bs4.node.
Variable max_str_digits : nat.
Variable Timedelta_days : Number.number -> result Pandas.Timedelta.
Variable year_width : nat.

Lemma attempts_app (t1 t2 : World) :
  attempts (t1 ++ t2) = (attempts t1 + attempts t2)%nat.
Proof. unfold attempts. rewrite filter_app, length_app. reflexivity. Qed.

Lemma clock_readings_no_request (t : World) :
  Forall (eq EvNow) t -> attempts t = 0%nat /\ forall u, ~ In (EvGet u) t.
Proof.
  induction 1 as [|e t He _ [IHa IHn]].
  - split; [reflexivity | intros u []].
  - subst e. split; [exact IHa|].
    intros u [H|H]; [discriminate H | exact (IHn u H)].
Qed.

Lemma get_or_sleep_requests (url : string) (t : World) :
  Forall (get_or_sleep url) t -> forall u, In (EvGet u) t -> u = url.
Proof.
  intros Hall u Hin. rewrite Forall_forall in Hall.
  destruct (Hall _ Hin) as [E|[secs E]]; [|discriminate E].
  inversion E. reflexivity.
Qed.

Lemma extract_rfq_data_adds_clock_readings (el : Bs4.node) (w : World) :
  exists t,
    snd (extract_rfq_data clock urljoin
        max_str_digits Timedelta_days year_width
        el w) = w ++ t /\ Forall (eq EvNow) t.
Proof.
  rewrite (extract_rfq_data_run clock urljoin
      max_str_digits Timedelta_days year_width). cbn [snd].
  unfold extraction_end, try_except.
  pose proof (extract_fields_reads_clock_at_most_once clock urljoin
      max_str_digits Timedelta_days year_width el
                (initial_data (Datetime.strftime_dmy year_width (clock w)))
                (w ++ [EvNow])) as Hw.
  destruct (extract_fields clock urljoin
      max_str_digits Timedelta_days year_width el _) as [[u|e] [d w']];
    cbn [snd] in Hw |- *;
    (destruct Hw as [Hw|Hw]; subst w';
     [ exists [EvNow]; split; [reflexivity | auto]
     | exists [EvNow; EvNow]; rewrite <- app_assoc;
       split; [reflexivity | auto] ]).
Qed.

Lemma scan_containers_adds_clock_readings (containers : list Bs4.node) :
  forall (acc : list Dict.dict) (w : World),
  exists t,
    snd (scan_containers clock urljoin
        max_str_digits Timedelta_days year_width containers acc w) = w ++ t
    /\ Forall (eq EvNow) t.
Proof.
  induction containers as [|c rest IH]; intros acc w.
  - exists []. cbn. rewrite app_nil_r. auto.
  - cbn [scan_containers].
    destruct (Bs4.find _ c); [|apply IH].
    unfold bind at 1.
    destruct (extract_rfq_data_adds_clock_readings c w) as [t1 [H1 Hq1]].
    destruct (extract_rfq_data clock urljoin
        max_str_digits Timedelta_days year_width c w) as [[data|e] w1];
      cbn [snd] in H1; subst w1; [|exists t1; auto].
    unfold bind at 1, lift at 1.
    destruct (dict_getitem "Title" data) as [title|e]; [|exists t1; auto].
    destruct (Text.nonempty title);
      [ destruct (IH (acc ++ [data]) (w ++ t1)) as [t2 [H2 Hq2]]
      | destruct (IH acc (w ++ t1)) as [t2 [H2 Hq2]] ];
      exists (t1 ++ t2); rewrite H2, <- app_assoc;
      (split; [reflexivity | apply Forall_app; auto]).
Qed.

(** A visit requests its own page, three times at most. *)
Lemma scrape_rfq_page_requests (url : string) (w : World) :
  exists t,
    snd (scrape_rfq_page transport clock urljoin BeautifulSoup
        max_str_digits Timedelta_days year_width url w) = w ++ t
    /\ (attempts t <= 3)%nat
    /\ forall u, In (EvGet u) t -> u = url.
Proof.
  unfold scrape_rfq_page, try_except. unfold bind at 1. unfold get_page.
  destruct (get_page_from_invariant transport url 3 (Z.to_nat 3) 0 w)
    as [t1 [H1 [Hat [Hall _]]]].
  pose proof (get_or_sleep_requests url t1 Hall) as Hget.
  change (Z.to_nat 3) with 3%nat in Hat.
  destruct (get_page_from transport (Z.to_nat 3) 0 url 3 w)
    as [[response|e] w1]; cbn [snd] in H1; subst w1;
    [|exists t1; cbn; auto].
  unfold bind at 1, lift at 1.
  destruct (content_of response) as [html|e]; [|exists t1; cbn; auto].
  unfold bind at 1, lift at 1.
  destruct (BeautifulSoup html) as [soup|e]; [|exists t1; cbn; auto].
  destruct (scan_containers_adds_clock_readings (find_containers soup) []
              (w ++ t1)) as [t2 [H2 Hq]].
  destruct (clock_readings_no_request t2 Hq) as [Ha2 Hn2].
  exists (t1 ++ t2). split; [|split].
  - destruct (scan_containers clock urljoin
      max_str_digits Timedelta_days year_width
      (find_containers soup) [] (w ++ t1))
      as [[r|e] w2]; cbn [snd] in *; subst w2; rewrite app_assoc; reflexivity.
  - rewrite attempts_app. lia.
  - intros u Hin. apply in_app_or in Hin.
    destruct Hin as [H|H]; [auto | destruct (Hn2 u H)].
Qed.

Lemma scrape_pages_requests (page_urls : list string) :
  forall (acc : list Dict.dict) (w : World),
  exists t,
    snd (scrape_pages transport clock urljoin BeautifulSoup
        max_str_digits Timedelta_days year_width page_urls acc w)
    = w ++ t
    /\ (attempts t <= 3 * List.length page_urls)%nat
    /\ forall u, In (EvGet u) t -> In u page_urls.
Proof.
  induction page_urls as [|url rest IH]; intros acc w.
  - exists []. cbn. rewrite app_nil_r.
    split; [reflexivity|]. split; [lia | intros u []].
  - cbn [scrape_pages]. unfold bind at 1.
    destruct (scrape_rfq_page_requests url w) as [t1 [H1 [Ha1 Hg1]]].
    destruct (scrape_rfq_page transport clock urljoin BeautifulSoup
        max_str_digits Timedelta_days year_width url w)
      as [[page_data|e] wa]; cbn [snd] in H1; subst wa;
      [|exists t1; split; [reflexivity|];
        split; [cbn [List.length]; lia | intros u Hu; left; symmetry; auto]].
    unfold bind at 1, sleep at 1.
    assert (Hpause : attempts (t1 ++ [EvSleep 2]) = attempts t1).
    { rewrite attempts_app. cbn. lia. }
    destruct page_data as [|d page_data].
    + exists (t1 ++ [EvSleep 2]). cbn [snd ret]. rewrite <- app_assoc.
      split; [reflexivity|]. split; [cbn [List.length]; lia|].
      intros u Hu. apply in_app_or in Hu.
      destruct Hu as [H|[H|[]]]; [left; symmetry; auto | discriminate H].
    + destruct (IH (acc ++ d :: page_data) ((w ++ t1) ++ [EvSleep 2]))
        as [t2 [H2 [Ha2 Hg2]]].
      exists ((t1 ++ [EvSleep 2]) ++ t2). rewrite H2, <- !app_assoc.
      split; [reflexivity|]. split.
      * rewrite attempts_app.
        change (attempts ([EvSleep 2] ++ t2)) with (attempts t2).
        cbn [List.length]. lia.
      * intros u Hu. apply in_app_or in Hu.
        destruct Hu as [H|[H|H]];
          [left; symmetry; auto | discriminate H | right; auto].
Qed.

(** The plan of a crawl holds its start URL. *)
Lemma get_all_page_urls_holds_start (base_url : string) (w : World) :
  In base_url
     (fst (snd (try_except (discover transport urljoin BeautifulSoup base_url)
                           (fun _ => ret tt) ([base_url], w)))).
Proof.
  assert (Hkeep :
    keeps (plan_for base_url)
      (try_except (discover transport urljoin BeautifulSoup base_url)
                  (fun _ => ret tt))).
  { apply keeps_try_except; [apply keeps_discover | intros e; apply keeps_ret]. }
  destruct (Hkeep [base_url] w) as [Hhd _].
  { split; [reflexivity|]. repeat constructor. intros []. }
  destruct (fst (snd _)) as [|u urls]; [discriminate Hhd|].
  inversion Hhd. left. reflexivity.
Qed.

(** X15. A crawl requests only pages of its plan, each visit at most three
    times: every URL [scrape_all_pages] requests is the start URL or a URL
    that discovery listed, and the number of requests is at most three for
    discovery and three for each page visited, hence at most
    [3 + 3 * max_pages] for a limit that is not negative. *)
Theorem scrape_all_pages_requests_only_the_plan
    (start_url : string) (max_pages : Z) (w : World) :
  exists urls w0 t,
    get_all_page_urls transport urljoin BeautifulSoup start_url w = (Ok urls, w0)
    /\ snd (scrape_all_pages transport clock urljoin BeautifulSoup
        max_str_digits Timedelta_days year_width
              start_url max_pages w) = w ++ t
    /\ (forall u, In (EvGet u) t -> In u urls)
    /\ (attempts t <= 3 + 3 * List.length urls)%nat
    /\ ((0 <= max_pages)%Z -> (attempts t <= 3 + 3 * Z.to_nat max_pages)%nat).
Proof.
  pose proof (get_all_page_urls_world transport urljoin BeautifulSoup
                start_url w) as Hworld.
  pose proof (get_all_page_urls_holds_start start_url w) as Hstart.
  unfold scrape_all_pages. unfold bind at 1.
  unfold get_all_page_urls in *.
  destruct (try_except _ _ ([start_url], w)) as [r [urls w0]].
  cbn [fst snd] in Hworld, Hstart.
  unfold get_page in Hworld.
  destruct (get_page_from_invariant transport start_url 3 (Z.to_nat 3) 0 w)
    as [t0 [H0 [Ha0 [Hall0 _]]]].
  rewrite H0 in Hworld. subst w0.
  change (Z.to_nat 3) with 3%nat in Ha0.
  pose proof (get_or_sleep_requests start_url t0 Hall0) as Hg0.
  destruct (scrape_pages_requests (slice_to max_pages urls) [] (w ++ t0))
    as [t1 [H1 [Ha1 Hg1]]].
  assert (Hslice : exists j, slice_to max_pages urls = firstn j urls
                             /\ ((0 <= max_pages)%Z -> j = Z.to_nat max_pages)).
  { unfold slice_to. destruct (0 <=? max_pages)%Z eqn:Hm.
    - eexists. split; [reflexivity | auto].
    - eexists. split; [reflexivity|]. apply Z.leb_gt in Hm. lia. }
  destruct Hslice as [j [Hj Hbound]].
  exists urls, (w ++ t0), (t0 ++ t1).
  split; [reflexivity|]. split; [rewrite H1, app_assoc; reflexivity|].
  assert (Hlen : (List.length (slice_to max_pages urls)
                  <= Nat.min j (List.length urls))%nat).
  { rewrite Hj, length_firstn. lia. }
  split; [|split].
  - intros u Hu. apply in_app_or in Hu. destruct Hu as [Hu|Hu].
    + rewrite (Hg0 u Hu). exact Hstart.
    + specialize (Hg1 u Hu). rewrite Hj in Hg1.
      rewrite <- (firstn_skipn j urls). apply in_or_app. left. exact Hg1.
  - rewrite attempts_app. lia.
  - intros Hm. rewrite attempts_app. rewrite (Hbound Hm) in Hlen. lia.
Qed.

End CrawlRequests.

(** ** main: what is saved and what is reported *)

Section MainProgram.

Import Scraper Spec Program.

Variable transport : World -> string -> result Response.
Variable clock : World -> Datetime.datetime.
Variable urljoin : string -> string -> result string.
Variable BeautifulSoup : string -> result Bs4.node.
Variable max_str_digits : nat.
Variable Timedelta_days : Number.number -> result Pandas.Timedelta.
Variable year_width : nat.
Variable to_string : Pandas.DataFrame -> string.
Variable str_of_exn : exn -> string.

Local Abbreviation main' :=
  (main transport clock urljoin BeautifulSoup
      max_str_digits Timedelta_days year_width to_string str_of_exn).

Lemma scrape_all_pages_returns (url : string) (max_pages : Z) (w : World) :
  exists data w1,
    scrape_all_pages transport clock urljoin BeautifulSoup
        max_str_digits Timedelta_days year_width url max_pages w
    = (Ok data, w1).
Proof.
  destruct (get_all_page_urls_returns transport urljoin BeautifulSoup url w)
    as [urls [w0 Hurls]].
  destruct (scrape_pages_visits_a_prefix transport clock urljoin BeautifulSoup
      max_str_digits Timedelta_days year_width
              (slice_to max_pages urls) [] w0)
    as [k [datas [w1 [_ [_ Hrun]]]]].
  unfold scrape_all_pages. unfold bind at 1. rewrite Hurls, Hrun. eauto.
Qed.

(** X16. [main] never raises, and what it saves is what the crawl of at
    most ten pages found.  When the crawl finds no record, [main] reads
    the clock, writes no file and prints nothing.  Otherwise it writes one
    table, in the file named after the time read once the crawl is over,
    with the sixteen columns and the rows of all the records, and then
    prints the number of records, the name of the file and the first five
    rows of the table. *)
Theorem main_saves_what_the_crawl_found (out : list string) (w : World) :
  exists data w1,
    scrape_all_pages transport clock urljoin BeautifulSoup
        max_str_digits Timedelta_days year_width start_url 10 w
    = (Ok data, w1)
    /\ (data = [] -> main' (out, w) = (Ok tt, (out, w1 ++ [EvNow])))
    /\ (data <> [] ->
        exists df,
          Pandas.columns df = required_columns
          /\ Pandas.csv_rows df = expected_rows data
          /\ main' (out, w)
             = (Ok tt,
                (out ++ report (List.length data) (stamped_name year_width (clock w1))
                          (to_string (head df)),
                 w1 ++ [EvNow;
                        EvToCsv (stamped_name year_width (clock w1)) required_columns
                                (expected_rows data)]))).
Proof.
  destruct (scrape_all_pages_returns start_url 10 w) as [data [w1 Hcrawl]].
  exists data, w1. split; [exact Hcrawl|]. split.
  - intros ->. unfold main, try_except.
    unfold bind at 1, in_world at 1. rewrite Hcrawl. reflexivity.
  - intros Hne.
    destruct (save_to_csv_run data (stamped_name year_width (clock w1)) (w1 ++ [EvNow]) Hne)
      as [df [Hrun [Hcols Hrows]]].
    exists df. split; [exact Hcols|]. split; [exact Hrows|].
    assert (Hlen : len df = List.length data).
    { unfold len. rewrite <- (length_map (map Pandas.field_of_cell)).
      fold (Pandas.csv_rows df). rewrite Hrows.
      unfold expected_rows. apply length_map. }
    unfold stamped_name in Hrun.
    unfold main, try_except.
    unfold bind at 1, in_world at 1. rewrite Hcrawl.
    unfold bind at 1, in_world at 1, datetime_now at 1.
    unfold bind at 1, in_world at 1. rewrite Hrun.
    unfold bind, print, modify. rewrite Hlen.
    unfold report, stamped_name. rewrite <- !app_assoc. reflexivity.
Qed.

End MainProgram.
